(** * Agent detection: a shallow embedding of the detection pipeline

    The development follows the TypeScript sources of the agent-detection
    library: the math utilities, the event throttle, the feature
    extractors, the buffered browser event storage, the replay event
    adapter, the extractors manager and the agent detector itself.

    Conventions of the embedding.
    - A JavaScript [number] that the code only compares, adds or subtracts
      (event timestamps in milliseconds, pointer coordinates, counters) is
      an integer of [Z]; a quantity obtained through division, square root
      or the exponential (speeds, coefficients of variation, scores) is a
      real number of [R].  Rounding is outside the model.  The extractors
      compute on numbers only, so their [isNaN] guards have no counterpart;
      the scorer multiplies whatever it reads from the feature vector, so
      its numbers are those of [Js.Number], with [NaN].
    - A JavaScript object used as a dictionary is a [gmap string _] of its
      own properties; reading a name goes through [Js.get], which also
      finds the members every object inherits from [Object.prototype].
    - A function that may [throw] (or an [async] function whose promise may
      reject) returns a [Completion]; state that the code mutates before
      throwing is threaded through explicitly.
    - An [async] call that the code does not await is split: the part
      that runs at the call, and the continuations that run once the
      awaited promises settle, which other calls may precede. *)

From Stdlib Require Import Reals Lra Lia ZArith List Bool Sorted Permutation Ascii.
From stdpp Require Import gmap strings list fin_maps.

Import ListNotations.
Local Open Scope string_scope.
Local Open Scope list_scope.

(** ** Completions: normal return or a thrown [Error] *)

Inductive Completion (A : Type) : Type :=
| Normal (a : A)
| Throw (message : string).
Arguments Normal {A} a.
Arguments Throw {A} message.

Definition isNormal {A} (c : Completion A) : bool :=
  match c with Normal _ => true | Throw _ => false end.

(** ** JavaScript numbers and property reads *)

Module Js.

Local Open Scope R_scope.

(** A [number]: a real number or [NaN]. *)
Inductive Number : Type :=
| Num (r : R)
| NaN.

(** An arithmetic operator yields [NaN] as soon as an operand is [NaN]. *)
Definition unary (f : R -> R) (a : Number) : Number :=
  match a with
  | Num x => Num (f x)
  | NaN => NaN
  end.

Definition binary (f : R -> R -> R) (a b : Number) : Number :=
  match a, b with
  | Num x, Num y => Num (f x y)
  | _, _ => NaN
  end.

Definition add : Number -> Number -> Number := binary Rplus.
Definition mul : Number -> Number -> Number := binary Rmult.
Definition neg : Number -> Number := unary Ropp.
Definition exp : Number -> Number := unary Rtrigo_def.exp.

(** [a / b], for a divisor that is not zero. *)
Definition div : Number -> Number -> Number := binary Rdiv.

(** [a >= b], which is [false] when an operand is [NaN]. *)
Definition ge (a b : Number) : bool :=
  match a, b with
  | Num x, Num y => if Rle_dec y x then true else false
  | _, _ => false
  end.

(** The property names of [Object.prototype]: an object literal inherits
    a function under each of them, and the prototype itself under
    [__proto__]. *)
Definition objectPrototypeMembers : list string :=
  [ "constructor"; "hasOwnProperty"; "isPrototypeOf"; "propertyIsEnumerable";
    "toLocaleString"; "toString"; "valueOf"; "__proto__";
    "__defineGetter__"; "__defineSetter__"; "__lookupGetter__"; "__lookupSetter__" ].

(** What [o[name]] reads from an object literal [o]. *)
Inductive Read (V : Type) : Type :=
| Undefined
| Own (v : V)
| Inherited.
Arguments Undefined {V}.
Arguments Own {V} v.
Arguments Inherited {V}.

(** [o[name]]: the own property, else the inherited member, else
    [undefined]. *)
Definition get {V} (o : gmap string V) (name : string) : Read V :=
  match o !! name with
  | Some v => Own v
  | None => if bool_decide (name ∈ objectPrototypeMembers) then Inherited else Undefined
  end.

(** [o[key] = v] for a number [v] on an object literal: the setter that
    [Object.prototype] has under [__proto__] ignores a number, so that
    key gets no own property. *)
Definition setNumber (key : string) (v : R) (o : gmap string R) : gmap string R :=
  if String.eqb key "__proto__" then o else <[key := v]> o.

(** The conversion of a string to a number that the arithmetic operators
    apply to a string operand (StringToNumber of the language); the
    development holds for whichever function it is. *)
Class StringToNumber : Type := stringToNumber : string -> Number.

End Js.

(** ** src/utils/math-utils.ts *)

Module MathUtils.

Local Open Scope R_scope.

(** [sigmoid(logit) = 1 / (1 + Math.exp(-logit))] *)
Definition sigmoid (logit : Js.Number) : Js.Number :=
  Js.div (Js.Num 1) (Js.add (Js.Num 1) (Js.exp (Js.neg logit))).

(** [standardize(value, mean, std)], with its guard against a zero
    standard deviation. *)
Definition standardize (value mean std : R) : R :=
  if Req_dec_T std 0 then 0 else (value - mean) / std.

(** [oneHotEncode(value, categories)]: the object to which the loop
    assigns one indicator per category.  Both branches of the source run
    the same loop over the categories; in the first one every indicator
    is [0]. *)
Definition oneHotEncode (value : string) (categories : list string) : gmap string R :=
  if negb (existsb (String.eqb value) categories) then
    fold_left (fun encoded cat => Js.setNumber cat 0 encoded) categories ∅
  else
    fold_left
      (fun encoded cat => Js.setNumber cat (if String.eqb cat value then 1 else 0) encoded)
      categories ∅.

(** The character classes of the regular expressions of [toSnakeCase],
    on strings of ASCII characters: [[A-Z]] and [\s]. *)
Definition isUpper (c : ascii) : bool :=
  (65 <=? nat_of_ascii c)%nat && (nat_of_ascii c <=? 90)%nat.

Definition isSpace (c : ascii) : bool :=
  (nat_of_ascii c =? 32)%nat
  || ((9 <=? nat_of_ascii c)%nat && (nat_of_ascii c <=? 13)%nat).

Definition toLower (c : ascii) : ascii :=
  if isUpper c then ascii_of_nat (nat_of_ascii c + 32) else c.

(** [.replace(/([A-Z])/g, "_$1")] *)
Fixpoint underscoreCapitals (s : string) : string :=
  match s with
  | EmptyString => EmptyString
  | String c rest =>
      if isUpper c then String "_" (String c (underscoreCapitals rest))
      else String c (underscoreCapitals rest)
  end.

(** [.replace(/^_/, "")] *)
Definition dropLeadingUnderscore (s : string) : string :=
  match s with
  | String "_" rest => rest
  | _ => s
  end.

(** [.toLowerCase()] *)
Fixpoint toLowerCase (s : string) : string :=
  match s with
  | EmptyString => EmptyString
  | String c rest => String (toLower c) (toLowerCase rest)
  end.

(** [.replace(/\s+/g, "_")]: [inRun] tells that the previous character
    was white space, whose run already gave its underscore. *)
Fixpoint collapseSpaces (inRun : bool) (s : string) : string :=
  match s with
  | EmptyString => EmptyString
  | String c rest =>
      if isSpace c then
        if inRun then collapseSpaces true rest
        else String "_" (collapseSpaces true rest)
      else String c (collapseSpaces false rest)
  end.

(** [toSnakeCase(str)], for a string of ASCII characters. *)
Definition toSnakeCase (str : string) : string :=
  collapseSpaces false (toLowerCase (dropLeadingUnderscore (underscoreCapitals str))).

End MathUtils.

(** ** The [simple-statistics] functions and the [reduce] sums the
    extractors use *)

Module SimpleStatistics.

Local Open Scope R_scope.

(** [xs.reduce((a, b) => a + b, 0)] *)
Definition sum (xs : list R) : R := fold_left Rplus xs 0.

Definition mean (xs : list R) : R := sum xs / INR (length xs).

(** Population variance: the mean of the squared deviations. *)
Definition variance (xs : list R) : R :=
  sum (map (fun x => (x - mean xs) * (x - mean xs)) xs) / INR (length xs).

(** [standardDeviation(xs)]: the square root of the population variance. *)
Definition standardDeviation (xs : list R) : R := sqrt (variance xs).

End SimpleStatistics.

(** ** src/types/events.ts *)

Module Events.

Inductive EventType : Set :=
| click | scroll | keydown | keyup | mousemove | mousedown | mouseup
| focus | blur | visibilitychange | popstate | beforeunload.

Definition EventType_eqb (a b : EventType) : bool :=
  match a, b with
  | click, click | scroll, scroll | keydown, keydown | keyup, keyup
  | mousemove, mousemove | mousedown, mousedown | mouseup, mouseup
  | focus, focus | blur, blur | visibilitychange, visibilitychange
  | popstate, popstate | beforeunload, beforeunload => true
  | _, _ => false
  end.

(** Payload of [click], [mousemove], [mousedown] and [mouseup]. *)
Record PointerPayload : Set := {
  p_timestamp : Z;
  p_x : Z;
  p_y : Z;
  p_button : Z
}.

Record ScrollPayload : Set := {
  s_timestamp : Z;
  s_scrollX : Z;
  s_scrollY : Z
}.

Record KeyPayload : Set := {
  k_timestamp : Z;
  k_key : string;
  k_keyCode : Z;
  k_alt : bool;
  k_ctrl : bool;
  k_shift : bool;
  k_meta : bool
}.

(** [EventPayloads[T]]: the payload together with its [type] tag. *)
Inductive Payload : Set :=
| PClick (p : PointerPayload)
| PMouseMove (p : PointerPayload)
| PMouseDown (p : PointerPayload)
| PMouseUp (p : PointerPayload)
| PScroll (p : ScrollPayload)
| PKeyDown (p : KeyPayload)
| PKeyUp (p : KeyPayload)
| PFocus (timestamp : Z)
| PBlur (timestamp : Z)
| PVisibilityChange (timestamp : Z) (state : string)
| PPopState (timestamp : Z) (url : string)
| PBeforeUnload (timestamp : Z) (url : string).

Definition payloadType (p : Payload) : EventType :=
  match p with
  | PClick _ => click | PMouseMove _ => mousemove
  | PMouseDown _ => mousedown | PMouseUp _ => mouseup
  | PScroll _ => scroll | PKeyDown _ => keydown | PKeyUp _ => keyup
  | PFocus _ => focus | PBlur _ => blur
  | PVisibilityChange _ _ => visibilitychange
  | PPopState _ _ => popstate | PBeforeUnload _ _ => beforeunload
  end.

Definition payloadTimestamp (p : Payload) : Z :=
  match p with
  | PClick q | PMouseMove q | PMouseDown q | PMouseUp q => p_timestamp q
  | PScroll q => s_timestamp q
  | PKeyDown q | PKeyUp q => k_timestamp q
  | PFocus t | PBlur t | PVisibilityChange t _
  | PPopState t _ | PBeforeUnload t _ => t
  end.

(** [payload = { ...ev.data, timestamp: ev.timestamp }] *)
Definition withTimestamp (t : Z) (p : Payload) : Payload :=
  match p with
  | PClick q => PClick {| p_timestamp := t; p_x := p_x q; p_y := p_y q; p_button := p_button q |}
  | PMouseMove q => PMouseMove {| p_timestamp := t; p_x := p_x q; p_y := p_y q; p_button := p_button q |}
  | PMouseDown q => PMouseDown {| p_timestamp := t; p_x := p_x q; p_y := p_y q; p_button := p_button q |}
  | PMouseUp q => PMouseUp {| p_timestamp := t; p_x := p_x q; p_y := p_y q; p_button := p_button q |}
  | PScroll q => PScroll {| s_timestamp := t; s_scrollX := s_scrollX q; s_scrollY := s_scrollY q |}
  | PKeyDown q =>
      PKeyDown {| k_timestamp := t; k_key := k_key q; k_keyCode := k_keyCode q;
                  k_alt := k_alt q; k_ctrl := k_ctrl q; k_shift := k_shift q; k_meta := k_meta q |}
  | PKeyUp q =>
      PKeyUp {| k_timestamp := t; k_key := k_key q; k_keyCode := k_keyCode q;
                k_alt := k_alt q; k_ctrl := k_ctrl q; k_shift := k_shift q; k_meta := k_meta q |}
  | PFocus _ => PFocus t
  | PBlur _ => PBlur t
  | PVisibilityChange _ st => PVisibilityChange t st
  | PPopState _ u => PPopState t u
  | PBeforeUnload _ u => PBeforeUnload t u
  end.

(** [ReplayEvent<T>]: a captured event; the payload carries the [type]. *)
Record ReplayEvent : Set := {
  re_href : string;
  re_timestamp : Z;
  re_data : Payload
}.

(** [StoredEvent] of the storage interface. *)
Record StoredEvent : Set := {
  se_id : option Z;
  se_type : EventType;
  se_timestamp : Z;
  se_data : Payload;
  se_extractorType : string;
  se_sessionId : option string
}.

End Events.

(** ** src/utils/throttle.ts *)

Module Throttle.

Import Events.
Local Open Scope Z_scope.

(** [DEFAULT_THROTTLE_CONFIG.eventThrottleTimes], a [Map<EventType, number>]. *)
Definition ThrottleConfig := EventType -> option Z.

Definition DEFAULT_THROTTLE_CONFIG : ThrottleConfig := fun t =>
  match t with
  | mousemove => Some 50
  | scroll => Some 100
  | keydown => Some 50
  | keyup => Some 50
  | _ => None
  end.

(** A payload object as the throttle sees it: the closure reads its
    [timestamp] and compares it by reference ([===]) with the pending one,
    so the object carries the identity of its allocation. *)
Record Event : Set := { ident : nat; timestamp : Z }.

Definition sameObject (a b : Event) : bool := Nat.eqb (ident a) (ident b).

(** The variables captured by the returned closure, the callbacks handed
    to [setTimeout] that have not fired yet (with their delay), and the
    sequence of invocations of the wrapped [handler]. *)
Record State : Set := {
  lastProcessedTimestamp : Z;
  pendingEvent : option Event;
  timers : list (Z * Event);
  invoked : list Event
}.

Definition initial : State :=
  {| lastProcessedTimestamp := 0; pendingEvent := None; timers := []; invoked := [] |}.

(** The closure returned for a throttled event type. *)
Definition onEvent (throttleTimeMs : Z) (payload : Event) (s : State) : State :=
  let currentTimestamp := timestamp payload in
  if (lastProcessedTimestamp s =? 0)
     || (throttleTimeMs <=? currentTimestamp - lastProcessedTimestamp s)
  then
    {| lastProcessedTimestamp := currentTimestamp;
       pendingEvent := None;
       timers := timers s;
       invoked := invoked s ++ [payload] |}
  else
    let timeToNextAllowedEvent :=
      throttleTimeMs - (currentTimestamp - lastProcessedTimestamp s) in
    {| lastProcessedTimestamp := lastProcessedTimestamp s;
       pendingEvent := Some payload;
       timers := timers s ++ [(timeToNextAllowedEvent, payload)];
       invoked := invoked s |}.

(** The body of the callback given to [setTimeout] for [payload]. *)
Definition onTimeout (payload : Event) (s : State) : State :=
  match pendingEvent s with
  | Some pending =>
      if sameObject pending payload then
        {| lastProcessedTimestamp := timestamp pending;
           pendingEvent := None;
           timers := timers s;
           invoked := invoked s ++ [pending] |}
      else s
  | None => s
  end.

(** [createThrottledEventHandler(eventType, handler, config)]: an event
    type without a configured window gets the handler itself. *)
Definition createThrottledEventHandler
    (config : ThrottleConfig) (eventType : EventType)
    (payload : Event) (s : State) : State :=
  match config eventType with
  | None =>
      {| lastProcessedTimestamp := lastProcessedTimestamp s;
         pendingEvent := pendingEvent s;
         timers := timers s;
         invoked := invoked s ++ [payload] |}
  | Some throttleTimeMs => onEvent throttleTimeMs payload s
  end.

(** What the event loop may do next: deliver an event to the closure, or
    run the timer callback that was scheduled for a payload. *)
Inductive Action : Set :=
| Arrive (payload : Event)
| Fire (payload : Event).

Fixpoint removeTimer (payload : Event) (ts : list (Z * Event)) : option (list (Z * Event)) :=
  match ts with
  | [] => None
  | (d, p) :: rest =>
      if sameObject p payload then Some rest
      else match removeTimer payload rest with
           | Some rest' => Some ((d, p) :: rest')
           | None => None
           end
  end.

(** A timer callback runs only if it was scheduled and has not run yet. *)
Definition step (throttleTimeMs : Z) (a : Action) (s : State) : State :=
  match a with
  | Arrive payload => onEvent throttleTimeMs payload s
  | Fire payload =>
      match removeTimer payload (timers s) with
      | None => s
      | Some rest =>
          onTimeout payload
            {| lastProcessedTimestamp := lastProcessedTimestamp s;
               pendingEvent := pendingEvent s;
               timers := rest;
               invoked := invoked s |}
      end
  end.

Definition run (throttleTimeMs : Z) (schedule : list Action) (s : State) : State :=
  fold_left (fun s a => step throttleTimeMs a s) schedule s.

Definition arrivals (schedule : list Action) : list Event :=
  flat_map (fun a => match a with Arrive p => [p] | Fire _ => [] end) schedule.

(** Synchronous delivery, as the replay adapter does with [realTime =
    false]: every event is handed over before any timer can run. *)
Definition runSync (throttleTimeMs : Z) (events : list Event) (s : State) : State :=
  let s' := fold_left (fun s e => step throttleTimeMs (Arrive e) s) events s in
  fold_left (fun s dp => step throttleTimeMs (Fire (snd dp)) s) (timers s') s'.

End Throttle.

(** ** src/feature-extractor.ts *)

Module FeatureExtractorBase.

(** [FeatureResult<TFeatures>] *)
Record FeatureResult (TFeatures : Type) : Type := {
  features : TFeatures;
  hasData : bool
}.
Arguments features {TFeatures} _.
Arguments hasData {TFeatures} _.

(** A feature value: number, boolean, string or [null]. *)
Inductive FeatureValue : Type :=
| FNum (r : R)
| FBool (b : bool)
| FStr (s : string)
| FNull.

End FeatureExtractorBase.

(** ** src/extractors/mouse-event-extractor.ts *)

Module MouseEventExtractor.

Import Events FeatureExtractorBase.

Record MouseEventFeatures : Type := {
  avgSpeed : R;
  stdSpeed : R;
  idleCount : Z;
  mouseMoveCount : Z
}.

Definition MIN_MOVE_EVENTS : nat := 5.
Definition IDLE_THRESHOLD_MS : Z := 2000.

(** The extractor's private state, [this.mouseMoves]. *)
Definition State := list PointerPayload.

Definition handleMouseMove (payload : PointerPayload) (mouseMoves : State) : State :=
  mouseMoves ++ [payload].

Definition storedMouseMove (e : StoredEvent) : option PointerPayload :=
  match se_type e, se_data e with
  | mousemove, PMouseMove p => Some p
  | _, _ => None
  end.

Definition processEvents (events : list StoredEvent) (mouseMoves : State) : State :=
  let mouseMoveEvents := omap storedMouseMove events in
  if (0 <? length mouseMoveEvents)%nat then mouseMoveEvents else mouseMoves.

Definition getDefaultFeatures : MouseEventFeatures :=
  {| avgSpeed := (-1)%R; stdSpeed := (-1)%R; idleCount := (-1)%Z; mouseMoveCount := 0%Z |}.

(** The variables the [for] loop updates. *)
Record Scan : Type := {
  speeds : list R;
  idle : Z;
  lastTimestamp : Z
}.

(** One iteration, for the consecutive samples [prev] and [curr].  The
    source divides the time delta by 1000 before testing it: [timeDiff > 0]
    is the test [0 < delta] on the delta in milliseconds, [timeDiff <
    IDLE_THRESHOLD_MS / 1000] is [delta < IDLE_THRESHOLD_MS], and [dist >
    0], for the square root of a sum of squares, is the test that the sum
    is positive. *)
Definition scanStep (prev curr : PointerPayload) (a : Scan) : Scan :=
  let deltaMs := (p_timestamp curr - p_timestamp prev)%Z in
  let timeDiff := (IZR deltaMs / 1000)%R in
  let squares :=
    ((p_x curr - p_x prev) ^ 2 + (p_y curr - p_y prev) ^ 2)%Z in
  let dist := sqrt (IZR squares) in
  let speeds' :=
    if (0 <? deltaMs)%Z then speeds a ++ [(dist / timeDiff)%R] else speeds a in
  let idle' :=
    if (IDLE_THRESHOLD_MS <? p_timestamp curr - lastTimestamp a)%Z
    then (idle a + 1)%Z else idle a in
  let last' :=
    if (0 <? squares)%Z || (deltaMs <? IDLE_THRESHOLD_MS)%Z
    then p_timestamp curr else lastTimestamp a in
  {| speeds := speeds'; idle := idle'; lastTimestamp := last' |}.

(** [for (let i = 1; i < currentMoves.length; i++)], with
    [prev = currentMoves[i - 1]]. *)
Fixpoint scanFrom (prev : PointerPayload) (rest : list PointerPayload) (a : Scan) : Scan :=
  match rest with
  | [] => a
  | curr :: rest' => scanFrom curr rest' (scanStep prev curr a)
  end.

Definition extractFeatures (mouseMoves : State) : FeatureResult MouseEventFeatures :=
  if (length mouseMoves <? MIN_MOVE_EVENTS)%nat then
    {| features := getDefaultFeatures; hasData := false |}
  else
    match mouseMoves with
    | [] => {| features := getDefaultFeatures; hasData := false |}
    | first :: rest =>
        let currentMoves := mouseMoves in
        let a := scanFrom first rest
                   {| speeds := []; idle := 0; lastTimestamp := p_timestamp first |} in
        if (length (speeds a) =? 0)%nat then
          {| features :=
               {| avgSpeed := avgSpeed getDefaultFeatures;
                  stdSpeed := stdSpeed getDefaultFeatures;
                  idleCount := idleCount getDefaultFeatures;
                  mouseMoveCount := Z.of_nat (length currentMoves) |};
             hasData := false |}
        else
          let avg := (SimpleStatistics.sum (speeds a) / INR (length (speeds a)))%R in
          let std :=
            if (1 <? length (speeds a))%nat
            then SimpleStatistics.standardDeviation (speeds a) else 0%R in
          {| features :=
               {| avgSpeed := avg;
                  stdSpeed := std;
                  idleCount := idle a;
                  mouseMoveCount := Z.of_nat (length currentMoves) |};
             hasData := true |}
    end.

End MouseEventExtractor.

(** ** Array helpers shared by the extractors *)

Module JsArray.

Section SortBy.
Context {A : Type} (key : A -> Z).

Fixpoint insertSorted (e : A) (l : list A) : list A :=
  match l with
  | [] => [e]
  | h :: t => if (key e <? key h)%Z then e :: l else h :: insertSorted e t
  end.

(** The order the comparator [(a, b) => key(a) - key(b)] sorts by. *)
Definition keyOrder (a b : A) : Prop := (key a <= key b)%Z.

(** [[...xs].sort((a, b) => key(a) - key(b))]: a stable sort by [key]. *)
Definition sortBy (l : list A) : list A :=
  fold_left (fun acc e => insertSorted e acc) l [].

End SortBy.

(** The run-grouping loop of the scroll and click extractors:
    [groups] collects the closed runs, [current] is the open one. *)
Record Grouping (A : Type) : Type := {
  groups : list (list A);
  current : list A
}.
Arguments groups {A} _.
Arguments current {A} _.

Section ActiveRuns.
Context {A : Type} (key : A -> Z) (thresholdMs : Z).

Definition groupStep (prev curr : A) (g : Grouping A) : Grouping A :=
  let timeDiff := (key curr - key prev)%Z in
  if (timeDiff <? thresholdMs)%Z then
    {| groups := groups g; current := current g ++ [curr] |}
  else if (0 <? length (current g))%nat then
    {| groups := groups g ++ [current g]; current := [curr] |}
  else g.

Fixpoint groupFrom (prev : A) (rest : list A) (g : Grouping A) : Grouping A :=
  match rest with
  | [] => g
  | curr :: rest' => groupFrom curr rest' (groupStep prev curr g)
  end.

(** [hasActiveScrolling] and [hasActiveMouseMovements]: some run of the
    sorted events with consecutive gaps below the threshold has more than
    one event. *)
Definition hasActiveRun (events : list A) : bool :=
  if (length events <? 2)%nat then false
  else
    match sortBy key events with
    | [] => false
    | first :: rest =>
        let g := groupFrom first rest {| groups := []; current := [first] |} in
        let all :=
          if (0 <? length (current g))%nat then groups g ++ [current g] else groups g in
        existsb (fun group => (1 <? length group)%nat) all
    end.

End ActiveRuns.

End JsArray.

(** ** src/extractors/keyboard-event-extractor.ts *)

Module KeyboardEventExtractor.

Import Events FeatureExtractorBase.

Definition TYPING_BURST_THRESHOLD_MS : Z := 3000.

Record KeyboardActivityFeatures : Type := {
  hasTypingEvents : bool;
  keyboardTypingConsistency : R
}.

(** The extractor's private state, [this.keyEvents]. *)
Definition State := list KeyPayload.

Definition handleKeydown (payload : KeyPayload) (keyEvents : State) : State :=
  keyEvents ++ [payload].

Definition storedKeydown (e : StoredEvent) : option KeyPayload :=
  match se_type e, se_data e with
  | keydown, PKeyDown p => Some p
  | _, _ => None
  end.

Definition processEvents (events : list StoredEvent) (keyEvents : State) : State :=
  let keydownEvents := omap storedKeydown events in
  if (0 <? length keydownEvents)%nat then keydownEvents else keyEvents.

Definition getDefaultFeatures : KeyboardActivityFeatures :=
  {| hasTypingEvents := false; keyboardTypingConsistency := (-1)%R |}.

(** The variables of the burst-splitting loop. *)
Record Bursts : Type := {
  burstGroups : list (list KeyPayload);
  currentBurst : list KeyPayload
}.

Definition burstStep (prev curr : KeyPayload) (b : Bursts) : Bursts :=
  let timeDiff := (k_timestamp curr - k_timestamp prev)%Z in
  if (TYPING_BURST_THRESHOLD_MS <? timeDiff)%Z then
    {| burstGroups :=
         if (1 <? length (currentBurst b))%nat
         then burstGroups b ++ [currentBurst b] else burstGroups b;
       currentBurst := [curr] |}
  else
    {| burstGroups := burstGroups b; currentBurst := currentBurst b ++ [curr] |}.

Fixpoint burstFrom (prev : KeyPayload) (rest : list KeyPayload) (b : Bursts) : Bursts :=
  match rest with
  | [] => b
  | curr :: rest' => burstFrom curr rest' (burstStep prev curr b)
  end.

(** The burst groups of a list of key events: sort, split, and add the
    last burst when it has more than one event. *)
Definition burstGroupsOf (keyEvents : list KeyPayload) : list (list KeyPayload) :=
  match JsArray.sortBy k_timestamp keyEvents with
  | [] => []
  | first :: rest =>
      let b := burstFrom first rest {| burstGroups := []; currentBurst := [first] |} in
      if (1 <? length (currentBurst b))%nat
      then burstGroups b ++ [currentBurst b] else burstGroups b
  end.

Fixpoint intervalsFrom (prev : KeyPayload) (rest : list KeyPayload) : list Z :=
  match rest with
  | [] => []
  | curr :: rest' => (k_timestamp curr - k_timestamp prev)%Z :: intervalsFrom curr rest'
  end.

(** [intervals.push(burst[i].timestamp - burst[i - 1].timestamp)] for
    [i >= 1]. *)
Definition intervalsOf (burst : list KeyPayload) : list Z :=
  match burst with
  | [] => []
  | first :: rest => intervalsFrom first rest
  end.

(** The callback of [burstGroups.map]: the coefficient of variation of
    the intervals of one burst. *)
Definition burstConsistency (burst : list KeyPayload) : R :=
  let intervals := map IZR (intervalsOf burst) in
  if (length intervals =? 0)%nat then 0%R
  else
    let stdDev :=
      if (1 <? length intervals)%nat
      then SimpleStatistics.standardDeviation intervals else 0%R in
    let mean := (SimpleStatistics.sum intervals / INR (length intervals))%R in
    if Rlt_dec 0 mean then (stdDev / mean)%R else 0%R.

Definition calculateTypingConsistency (keyEvents : State) : R :=
  if (length keyEvents <? 2)%nat then (-1)%R
  else
    let groups := burstGroupsOf keyEvents in
    if (length groups =? 0)%nat then (-1)%R
    else
      let burstConsistencies := map burstConsistency groups in
      let avgConsistency :=
        (SimpleStatistics.sum burstConsistencies / INR (length burstConsistencies))%R in
      (1 - Rmin avgConsistency 1)%R.

Definition extractFeatures (keyEvents : State) : FeatureResult KeyboardActivityFeatures :=
  let typingConsistency := calculateTypingConsistency keyEvents in
  {| features :=
       {| hasTypingEvents := (0 <? length keyEvents)%nat;
          keyboardTypingConsistency := typingConsistency |};
     hasData := (0 <? length keyEvents)%nat |}.

End KeyboardEventExtractor.

(** ** src/extractors/scroll-event-extractor.ts *)

Module ScrollEventExtractor.

Import Events FeatureExtractorBase.

Definition ACTIVE_SCROLLING_THRESHOLD_MS : Z := 50.

Record StoredScrollEvent : Set := { timestamp : Z; deltaY : Z }.

Record ScrollActivityFeatures : Set := {
  hasScrollEvents : bool;
  hasActiveScrolling : bool
}.

(** The extractor's private state, [this.scrollEvents]. *)
Definition State := list StoredScrollEvent.

Definition handleScroll (payload : ScrollPayload) (scrollEvents : State) : State :=
  scrollEvents ++ [{| timestamp := s_timestamp payload; deltaY := s_scrollY payload |}].

Definition storedScroll (e : StoredEvent) : option StoredScrollEvent :=
  match se_type e, se_data e with
  | scroll, PScroll p => Some {| timestamp := se_timestamp e; deltaY := s_scrollY p |}
  | _, _ => None
  end.

Definition processEvents (events : list StoredEvent) (scrollEvents : State) : State :=
  let loaded := omap storedScroll events in
  if (0 <? length loaded)%nat then loaded else scrollEvents.

Definition getDefaultFeatures : ScrollActivityFeatures :=
  {| hasScrollEvents := false; hasActiveScrolling := false |}.

Definition computeHasActiveScrolling (scrollEvents : State) : bool :=
  JsArray.hasActiveRun timestamp ACTIVE_SCROLLING_THRESHOLD_MS scrollEvents.

Definition extractFeatures (scrollEvents : State) : FeatureResult ScrollActivityFeatures :=
  {| features :=
       {| hasScrollEvents := (0 <? length scrollEvents)%nat;
          hasActiveScrolling := computeHasActiveScrolling scrollEvents |};
     hasData := (0 <? length scrollEvents)%nat |}.

End ScrollEventExtractor.

(** ** src/extractors/click-event-extractor.ts *)

Module ClickEventExtractor.

Import Events FeatureExtractorBase.

Definition ACTIVE_MOVEMENT_THRESHOLD_MS : Z := 50.

Record ActivityFeatures : Set := {
  hasMouseEvents : bool;
  hasClickEvents : bool;
  hasActiveMouseMovement : bool
}.

Record State : Set := {
  mouseMoves : list PointerPayload;
  clicks : list PointerPayload
}.

Definition handleMouseMove (payload : PointerPayload) (s : State) : State :=
  {| mouseMoves := mouseMoves s ++ [payload]; clicks := clicks s |}.

Definition handleClick (payload : PointerPayload) (s : State) : State :=
  {| mouseMoves := mouseMoves s; clicks := clicks s ++ [payload] |}.

Definition storedMouseMove (e : StoredEvent) : option PointerPayload :=
  match se_type e, se_data e with
  | mousemove, PMouseMove p => Some p
  | _, _ => None
  end.

Definition storedClick (e : StoredEvent) : option PointerPayload :=
  match se_type e, se_data e with
  | click, PClick p => Some p
  | _, _ => None
  end.

Definition processEvents (events : list StoredEvent) (s : State) : State :=
  let mouseMoveEvents := omap storedMouseMove events in
  let clickEvents := omap storedClick events in
  {| mouseMoves := if (0 <? length mouseMoveEvents)%nat then mouseMoveEvents else mouseMoves s;
     clicks := if (0 <? length clickEvents)%nat then clickEvents else clicks s |}.

Definition getDefaultFeatures : ActivityFeatures :=
  {| hasMouseEvents := false; hasClickEvents := false; hasActiveMouseMovement := false |}.

Definition hasActiveMouseMovements (s : State) : bool :=
  JsArray.hasActiveRun p_timestamp ACTIVE_MOVEMENT_THRESHOLD_MS (mouseMoves s).

Definition extractFeatures (s : State) : FeatureResult ActivityFeatures :=
  {| features :=
       {| hasMouseEvents := (0 <? length (mouseMoves s))%nat;
          hasClickEvents := (0 <? length (clicks s))%nat;
          hasActiveMouseMovement := hasActiveMouseMovements s |};
     hasData := (0 <? length (mouseMoves s))%nat || (0 <? length (clicks s))%nat |}.

End ClickEventExtractor.

(** ** src/types/browser-metadata.ts and
       src/extractors/browser-metadata-extractor.ts *)

Module BrowserMetadataExtractor.

Import FeatureExtractorBase.

Record Size : Set := { width : option Z; height : option Z }.

Record WebglInfo : Set := {
  webglVendor : option string;
  webglRenderer : option string;
  webglExtensions : option Z
}.

(** The fields of [BrowserMetadata] the extractor reads.  A field that is
    [undefined] or [null] in the snapshot is [None]. *)
Record BrowserMetadata : Type := {
  devicePixelRatio : option R;
  screenResolution : option Size;
  screenAvailResolution : option Size;
  colorDepth : option Z;
  plugins : option (list string);
  deviceMemory : option R;
  hardwareConcurrency : option Z;
  touchSupport : option bool;
  maxTouchPoints : option Z;
  mediaDevicesCount : option Z;
  platform : option string;
  doNotTrack : option string;
  webdriver : option bool;
  cookieEnabled : option bool;
  timezoneOffset : option Z;
  timeZone : option string;
  webglInfo : option WebglInfo
}.

(** [MetadataPort.getMetadata()], awaited: the metadata, or a rejection. *)
Definition MetadataPort := Completion BrowserMetadata.

Record BrowserMetadataFeatures : Type := {
  f_devicePixelRatio : R;
  f_screenWidth : Z;
  f_screenHeight : Z;
  f_screenAvailWidth : Z;
  f_screenAvailHeight : Z;
  f_screenColorDepth : Z;
  f_plugins : Z;
  f_deviceMemory : R;
  f_hardwareConcurrency : Z;
  f_touchSupport : bool;
  f_maxTouchPoints : Z;
  f_platform : string;
  f_doNotTrack : string;
  f_webdriver : bool;
  f_cookieEnabled : bool;
  f_timezoneOffset : Z;
  f_timeZone : string;
  f_mediaDevices : Z;
  f_hasWebglSwiftshader : bool
}.

Definition getDefaultFeatures : BrowserMetadataFeatures :=
  {| f_devicePixelRatio := (-1)%R;
     f_screenWidth := (-1)%Z;
     f_screenHeight := (-1)%Z;
     f_screenAvailWidth := (-1)%Z;
     f_screenAvailHeight := (-1)%Z;
     f_screenColorDepth := (-1)%Z;
     f_plugins := 0%Z;
     f_deviceMemory := (-1)%R;
     f_hardwareConcurrency := (-1)%Z;
     f_touchSupport := false;
     f_maxTouchPoints := 0%Z;
     f_platform := "unknown";
     f_doNotTrack := "unspecified";
     f_webdriver := false;
     f_cookieEnabled := false;
     f_timezoneOffset := (-999)%Z;
     f_timeZone := "unknown";
     f_mediaDevices := 0%Z;
     f_hasWebglSwiftshader := false |}.

(** [renderer.includes(marker)] *)
Definition includes (marker renderer : string) : bool :=
  match String.index 0 marker renderer with
  | Some _ => true
  | None => false
  end.

(** [a ?? b] is [default b a]; [a?.f] is [a ≫= f]. *)
Definition featuresOf (metadata : BrowserMetadata) : BrowserMetadataFeatures :=
  let d := getDefaultFeatures in
  {| f_devicePixelRatio := default (f_devicePixelRatio d) (devicePixelRatio metadata);
     f_screenWidth := default (f_screenWidth d) (screenResolution metadata ≫= width);
     f_screenHeight := default (f_screenHeight d) (screenResolution metadata ≫= height);
     f_screenAvailWidth :=
       default (f_screenAvailWidth d) (screenAvailResolution metadata ≫= width);
     f_screenAvailHeight :=
       default (f_screenAvailHeight d) (screenAvailResolution metadata ≫= height);
     f_screenColorDepth := default (f_screenColorDepth d) (colorDepth metadata);
     f_plugins :=
       default (f_plugins d) ((fun l => Z.of_nat (length l)) <$> plugins metadata);
     f_deviceMemory := default (f_deviceMemory d) (deviceMemory metadata);
     f_hardwareConcurrency :=
       default (f_hardwareConcurrency d) (hardwareConcurrency metadata);
     f_touchSupport := default (f_touchSupport d) (touchSupport metadata);
     f_maxTouchPoints := default (f_maxTouchPoints d) (maxTouchPoints metadata);
     f_platform := default (f_platform d) (platform metadata);
     f_doNotTrack := default (f_doNotTrack d) (doNotTrack metadata);
     f_webdriver := default (f_webdriver d) (webdriver metadata);
     f_cookieEnabled := default (f_cookieEnabled d) (cookieEnabled metadata);
     f_timezoneOffset := default (f_timezoneOffset d) (timezoneOffset metadata);
     f_timeZone := default (f_timeZone d) (timeZone metadata);
     f_mediaDevices := default (f_mediaDevices d) (mediaDevicesCount metadata);
     f_hasWebglSwiftshader :=
       default (f_hasWebglSwiftshader d)
         (includes "SwiftShader" <$> (webglInfo metadata ≫= webglRenderer)) |}.

(** The [try] block awaits the port; a rejection lands in the [catch]. *)
Definition extractFeatures (metadataProvider : MetadataPort)
  : FeatureResult BrowserMetadataFeatures :=
  match metadataProvider with
  | Normal metadata => {| features := featuresOf metadata; hasData := true |}
  | Throw _ => {| features := getDefaultFeatures; hasData := false |}
  end.

End BrowserMetadataExtractor.

(** ** The extractor contract, as the manager and the detector use it *)

Module ExtractorContract.

Import Events FeatureExtractorBase.

(** The abstract methods of [FeatureExtractor], over the extractor's own
    state [E].  [extractFeatures] may throw or reject, and the detector
    also copes with a result, or a [features] member, that is [null] or
    [undefined]. *)
Class FeatureExtractor (E : Type) : Type := {
  constructorName : E -> string;
  extractFeatures : E -> Completion (option (FeatureResult (option (gmap string FeatureValue))));
  getDefaultFeatures : E -> gmap string FeatureValue;
  processEvents : list StoredEvent -> E -> E;
  getEventHandlers : E -> list (EventType * (Payload -> E -> E))
}.

(** [getRelevantEventTypes()] of the base class. *)
Definition getRelevantEventTypes {E} `{FeatureExtractor E} (e : E) : list EventType :=
  map fst (getEventHandlers e).

End ExtractorContract.

(** ** The five extractors of [DEFAULT_EXTRACTORS] as one variant type *)

Module BuiltIn.

Import Events FeatureExtractorBase ExtractorContract.

Inductive t : Type :=
| Metadata (metadataProvider : BrowserMetadataExtractor.MetadataPort)
| Mouse (s : MouseEventExtractor.State)
| Keyboard (s : KeyboardEventExtractor.State)
| Scroll (s : ScrollEventExtractor.State)
| Click (s : ClickEventExtractor.State).

Definition metadataFeatureMap (f : BrowserMetadataExtractor.BrowserMetadataFeatures)
  : gmap string FeatureValue :=
  list_to_map
    [ ("devicePixelRatio", FNum (BrowserMetadataExtractor.f_devicePixelRatio f));
      ("screenWidth", FNum (IZR (BrowserMetadataExtractor.f_screenWidth f)));
      ("screenHeight", FNum (IZR (BrowserMetadataExtractor.f_screenHeight f)));
      ("screenAvailWidth", FNum (IZR (BrowserMetadataExtractor.f_screenAvailWidth f)));
      ("screenAvailHeight", FNum (IZR (BrowserMetadataExtractor.f_screenAvailHeight f)));
      ("screenColorDepth", FNum (IZR (BrowserMetadataExtractor.f_screenColorDepth f)));
      ("plugins", FNum (IZR (BrowserMetadataExtractor.f_plugins f)));
      ("deviceMemory", FNum (BrowserMetadataExtractor.f_deviceMemory f));
      ("hardwareConcurrency", FNum (IZR (BrowserMetadataExtractor.f_hardwareConcurrency f)));
      ("touchSupport", FBool (BrowserMetadataExtractor.f_touchSupport f));
      ("maxTouchPoints", FNum (IZR (BrowserMetadataExtractor.f_maxTouchPoints f)));
      ("mediaDevices", FNum (IZR (BrowserMetadataExtractor.f_mediaDevices f)));
      ("platform", FStr (BrowserMetadataExtractor.f_platform f));
      ("doNotTrack", FStr (BrowserMetadataExtractor.f_doNotTrack f));
      ("webdriver", FBool (BrowserMetadataExtractor.f_webdriver f));
      ("cookieEnabled", FBool (BrowserMetadataExtractor.f_cookieEnabled f));
      ("timezoneOffset", FNum (IZR (BrowserMetadataExtractor.f_timezoneOffset f)));
      ("timeZone", FStr (BrowserMetadataExtractor.f_timeZone f));
      ("hasWebglSwiftshader", FBool (BrowserMetadataExtractor.f_hasWebglSwiftshader f)) ].

Definition mouseFeatureMap (f : MouseEventExtractor.MouseEventFeatures)
  : gmap string FeatureValue :=
  list_to_map
    [ ("avgSpeed", FNum (MouseEventExtractor.avgSpeed f));
      ("stdSpeed", FNum (MouseEventExtractor.stdSpeed f));
      ("idleCount", FNum (IZR (MouseEventExtractor.idleCount f)));
      ("mouseMoveCount", FNum (IZR (MouseEventExtractor.mouseMoveCount f))) ].

Definition keyboardFeatureMap (f : KeyboardEventExtractor.KeyboardActivityFeatures)
  : gmap string FeatureValue :=
  list_to_map
    [ ("hasTypingEvents", FBool (KeyboardEventExtractor.hasTypingEvents f));
      ("keyboardTypingConsistency", FNum (KeyboardEventExtractor.keyboardTypingConsistency f)) ].

Definition scrollFeatureMap (f : ScrollEventExtractor.ScrollActivityFeatures)
  : gmap string FeatureValue :=
  list_to_map
    [ ("hasScrollEvents", FBool (ScrollEventExtractor.hasScrollEvents f));
      ("hasActiveScrolling", FBool (ScrollEventExtractor.hasActiveScrolling f)) ].

Definition clickFeatureMap (f : ClickEventExtractor.ActivityFeatures)
  : gmap string FeatureValue :=
  list_to_map
    [ ("hasMouseEvents", FBool (ClickEventExtractor.hasMouseEvents f));
      ("hasClickEvents", FBool (ClickEventExtractor.hasClickEvents f));
      ("hasActiveMouseMovement", FBool (ClickEventExtractor.hasActiveMouseMovement f)) ].

Definition asObject {F} (toMap : F -> gmap string FeatureValue) (r : FeatureResult F)
  : FeatureResult (gmap string FeatureValue) :=
  {| features := toMap (features r); hasData := hasData r |}.

(** [extractFeatures()] of each variant, with its typed features read as
    an object. *)
Definition extract (e : t) : FeatureResult (gmap string FeatureValue) :=
  match e with
  | Metadata port => asObject metadataFeatureMap (BrowserMetadataExtractor.extractFeatures port)
  | Mouse s => asObject mouseFeatureMap (MouseEventExtractor.extractFeatures s)
  | Keyboard s => asObject keyboardFeatureMap (KeyboardEventExtractor.extractFeatures s)
  | Scroll s => asObject scrollFeatureMap (ScrollEventExtractor.extractFeatures s)
  | Click s => asObject clickFeatureMap (ClickEventExtractor.extractFeatures s)
  end.

Definition defaults (e : t) : gmap string FeatureValue :=
  match e with
  | Metadata _ => metadataFeatureMap BrowserMetadataExtractor.getDefaultFeatures
  | Mouse _ => mouseFeatureMap MouseEventExtractor.getDefaultFeatures
  | Keyboard _ => keyboardFeatureMap KeyboardEventExtractor.getDefaultFeatures
  | Scroll _ => scrollFeatureMap ScrollEventExtractor.getDefaultFeatures
  | Click _ => clickFeatureMap ClickEventExtractor.getDefaultFeatures
  end.

Definition name (e : t) : string :=
  match e with
  | Metadata _ => "BrowserMetadataExtractor"
  | Mouse _ => "MouseEventExtractor"
  | Keyboard _ => "KeyboardEventExtractor"
  | Scroll _ => "ScrollEventExtractor"
  | Click _ => "ClickEventExtractor"
  end.

Definition process (events : list StoredEvent) (e : t) : t :=
  match e with
  | Metadata port => Metadata port
  | Mouse s => Mouse (MouseEventExtractor.processEvents events s)
  | Keyboard s => Keyboard (KeyboardEventExtractor.processEvents events s)
  | Scroll s => Scroll (ScrollEventExtractor.processEvents events s)
  | Click s => Click (ClickEventExtractor.processEvents events s)
  end.

Definition onMouseMove (payload : Payload) (e : t) : t :=
  match payload, e with
  | PMouseMove p, Mouse s => Mouse (MouseEventExtractor.handleMouseMove p s)
  | PMouseMove p, Click s => Click (ClickEventExtractor.handleMouseMove p s)
  | _, _ => e
  end.

Definition onClick (payload : Payload) (e : t) : t :=
  match payload, e with
  | PClick p, Click s => Click (ClickEventExtractor.handleClick p s)
  | _, _ => e
  end.

Definition onKeydown (payload : Payload) (e : t) : t :=
  match payload, e with
  | PKeyDown p, Keyboard s => Keyboard (KeyboardEventExtractor.handleKeydown p s)
  | _, _ => e
  end.

Definition onScroll (payload : Payload) (e : t) : t :=
  match payload, e with
  | PScroll p, Scroll s => Scroll (ScrollEventExtractor.handleScroll p s)
  | _, _ => e
  end.

Definition handlers (e : t) : list (EventType * (Payload -> t -> t)) :=
  match e with
  | Metadata _ => []
  | Mouse _ => [(mousemove, onMouseMove)]
  | Keyboard _ => [(keydown, onKeydown)]
  | Scroll _ => [(scroll, onScroll)]
  | Click _ => [(mousemove, onMouseMove); (click, onClick)]
  end.

#[global] Instance builtin_extractor : FeatureExtractor t := {|
  constructorName := name;
  extractFeatures e :=
    let r := extract e in
    Normal (Some {| features := Some (features r); hasData := hasData r |});
  getDefaultFeatures := defaults;
  processEvents := process;
  getEventHandlers := handlers
|}.

(** [new ExtractorClass(metadataProvider, eventsProvider)] for the
    classes of [DEFAULT_EXTRACTORS], in their order. *)
Definition DEFAULT_EXTRACTORS (metadataProvider : BrowserMetadataExtractor.MetadataPort)
  : list t :=
  [ Metadata metadataProvider;
    Mouse [];
    Keyboard [];
    Scroll [];
    Click {| ClickEventExtractor.mouseMoves := []; ClickEventExtractor.clicks := [] |} ].

End BuiltIn.

(** ** src/storage/browser-event-storage.ts *)

Module BrowserEventStorage.

Import Events.

Definition BUFFER_SIZE : nat := 50.
Definition FLUSH_INTERVAL : Z := 5000.

(** The buffer, the pending flag, the session id and the content of the
    IndexedDB object store. *)
Record State : Set := {
  sessionId : string;
  buffer : list StoredEvent;
  isFlushPending : bool;
  store : list StoredEvent
}.

(** [{ ...event, sessionId: this.sessionId }] *)
Definition withSession (sid : string) (e : StoredEvent) : StoredEvent :=
  {| se_id := se_id e; se_type := se_type e; se_timestamp := se_timestamp e;
     se_data := se_data e; se_extractorType := se_extractorType e;
     se_sessionId := Some sid |}.

(** How the write of a batch settles.  [Rejected added]: an [add] call
    threw after [added] earlier ones were issued; the promise is
    rejected, but nothing aborts the transaction, which commits the adds
    already issued.  At least the event whose [add] threw is not written.
    A transaction that aborts writes nothing: [Rejected 0]. *)
Inductive WriteOutcome : Set :=
| Written
| Rejected (added : nat).

(** [storeEvents(events)]: one transaction with one [add] per event. *)
Definition storeEvents (outcome : WriteOutcome) (events : list StoredEvent) (s : State)
  : Completion unit * State :=
  if (length events =? 0)%nat then (Normal tt, s)
  else
    match outcome with
    | Written =>
        (Normal tt,
         {| sessionId := sessionId s; buffer := buffer s;
            isFlushPending := isFlushPending s;
            store := store s ++ map (withSession (sessionId s)) events |})
    | Rejected added =>
        (Throw "transaction failed",
         {| sessionId := sessionId s; buffer := buffer s;
            isFlushPending := isFlushPending s;
            store := store s
                     ++ map (withSession (sessionId s)) (firstn added (removelast events)) |})
    end.

(** [this.buffer.push(event)], which is all [storeEvent] does while a
    flush is pending: its own call of [flush] returns at the guard. *)
Definition push (event : StoredEvent) (s : State) : State :=
  {| sessionId := sessionId s; buffer := buffer s ++ [event];
     isFlushPending := isFlushPending s; store := store s |}.

(** [flush()].  The write is awaited, so other handlers run before it
    settles: [during] are the events they push meanwhile, and [outcome]
    tells how the write settles. *)
Definition flush (outcome : WriteOutcome) (during : list StoredEvent) (s : State) : State :=
  if (length (buffer s) =? 0)%nat || isFlushPending s then s
  else
    let bufferCopy := buffer s in
    let s1 :=
      {| sessionId := sessionId s; buffer := []; isFlushPending := true;
         store := store s |} in
    let s2 := fold_left (fun s e => push e s) during s1 in
    match storeEvents outcome bufferCopy s2 with
    | (Normal _, s3) =>
        {| sessionId := sessionId s3; buffer := buffer s3; isFlushPending := false;
           store := store s3 |}
    | (Throw _, s3) =>
        {| sessionId := sessionId s3; buffer := buffer s3 ++ buffer s3;
           isFlushPending := false; store := store s3 |}
    end.

(** [storeEvent(event)]: push, then flush when the buffer is full. *)
Definition storeEvent (outcome : WriteOutcome) (during : list StoredEvent)
    (event : StoredEvent) (s : State) : State :=
  let s1 := push event s in
  if (BUFFER_SIZE <=? length (buffer s1))%nat then flush outcome during s1 else s1.

Definition getSessionId (s : State) : string := sessionId s.

Definition setSessionId (newSessionId : string) (s : State) : State :=
  {| sessionId := newSessionId; buffer := buffer s;
     isFlushPending := isFlushPending s; store := store s |}.

(** [clearCurrentSessionEvents()]: empty the buffer and delete, through a
    cursor over the [sessionId] index, the stored events of the session. *)
Definition clearCurrentSessionEvents (s : State) : State :=
  {| sessionId := sessionId s; buffer := [];
     isFlushPending := isFlushPending s;
     store := filter (fun event => se_sessionId event <> Some (sessionId s)) (store s) |}.

(** [clearOldEvents(maxAgeMs)], [now] being [Date.now()]: the cursor over
    [IDBKeyRange.upperBound(cutoffTimestamp)] visits every stored event
    whose timestamp is at most the cutoff, of whichever session. *)
Definition clearOldEvents (now maxAgeMs : Z) (s : State) : State :=
  let cutoffTimestamp := (now - maxAgeMs)%Z in
  {| sessionId := sessionId s; buffer := buffer s;
     isFlushPending := isFlushPending s;
     store := filter (fun event => (cutoffTimestamp < se_timestamp event)%Z) (store s) |}.

End BrowserEventStorage.

(** ** src/storage/mock-event-storage.ts *)

Module MockEventStorage.

Import Events.

(** The fields of the in-memory storage; of the [sessionStorage] record
    only the entry ["agent-detection-session-id"] is ever used. *)
Record State : Set := {
  sessionId : string;
  events : list StoredEvent;
  nextId : Z;
  sessionStorage : option string
}.

(** [new MockEventStorage(initialSessionId)]; [generated] is what
    [generateSessionId()] would return.  An empty string counts as no
    initial id ([initialSessionId || ...]). *)
Definition constructor (initialSessionId : option string) (generated : string) : State :=
  {| sessionId :=
       match initialSessionId with
       | Some sid => if String.eqb sid "" then generated else sid
       | None => generated
       end;
     events := [];
     nextId := 1;
     sessionStorage := None |}.

(** [{ ...event, id }] *)
Definition withId (id : Z) (e : StoredEvent) : StoredEvent :=
  {| se_id := Some id; se_type := se_type e; se_timestamp := se_timestamp e;
     se_data := se_data e; se_extractorType := se_extractorType e;
     se_sessionId := se_sessionId e |}.

Definition storeEvent (event : StoredEvent) (s : State) : Z * State :=
  let id := nextId s in
  (id,
   {| sessionId := sessionId s;
      events := events s ++ [withId id event];
      nextId := (nextId s + 1)%Z;
      sessionStorage := sessionStorage s |}).

Definition storeEvents (newEvents : list StoredEvent) (s : State) : State :=
  fold_left (fun s event => snd (storeEvent event s)) newEvents s.

Definition getEventsByExtractorType (extractorType : string) (s : State)
  : list StoredEvent :=
  filter (fun event => se_extractorType event = extractorType) (events s).

Definition getAllEvents (s : State) : list StoredEvent := events s.

Definition getSessionId (s : State) : string := sessionId s.

Definition setSessionId (newSessionId : string) (s : State) : State :=
  {| sessionId := newSessionId; events := events s; nextId := nextId s;
     sessionStorage := sessionStorage s |}.

(** [checkForExistingSession()]: an empty stored id is falsy and counts
    as none. *)
Definition checkForExistingSession (s : State) : bool * State :=
  match sessionStorage s with
  | Some storedSessionId =>
      if String.eqb storedSessionId "" then (false, s)
      else
        (true,
         {| sessionId := storedSessionId; events := events s; nextId := nextId s;
            sessionStorage := sessionStorage s |})
  | None => (false, s)
  end.

Definition saveSessionToStorage (s : State) : State :=
  {| sessionId := sessionId s; events := events s; nextId := nextId s;
     sessionStorage := Some (sessionId s) |}.

Definition clearSessionFromStorage (s : State) : State :=
  {| sessionId := sessionId s; events := events s; nextId := nextId s;
     sessionStorage := None |}.

Definition clearCurrentSessionEvents (s : State) : State :=
  {| sessionId := sessionId s; events := []; nextId := nextId s;
     sessionStorage := sessionStorage s |}.

(** [clearOldEvents(maxAgeMs)], [now] being [Date.now()]: it keeps the
    events with [timestamp >= cutoffTimestamp]. *)
Definition clearOldEvents (now maxAgeMs : Z) (s : State) : State :=
  let cutoffTimestamp := (now - maxAgeMs)%Z in
  {| sessionId := sessionId s;
     events := filter (fun event => (cutoffTimestamp <= se_timestamp event)%Z) (events s);
     nextId := nextId s;
     sessionStorage := sessionStorage s |}.

(** [e.id || 0] *)
Definition idOrZero (e : StoredEvent) : Z := default 0%Z (se_id e).

(** [Math.max(0, ...events.map((e) => e.id || 0))] *)
Definition maxId (preloaded : list StoredEvent) : Z :=
  fold_left Z.max (map idOrZero preloaded) 0%Z.

Definition preloadEvents (preloaded : list StoredEvent) (s : State) : State :=
  {| sessionId := sessionId s;
     events := preloaded;
     nextId := (maxId preloaded + 1)%Z;
     sessionStorage := sessionStorage s |}.

End MockEventStorage.

(** ** src/environments/replay/event.adapter.ts *)

Module ReplayEventAdapter.

Import Events.

Section Adapter.
(** [W] is everything the registered handlers may change. *)
Context {W : Type}.

(** A registered handler: the function and the identity [off] compares. *)
Record Handler : Type := { h_id : nat; h_run : Payload -> W -> W }.

(** [listeners: Map<string, Function[]>] *)
Definition Listeners := list (EventType * list Handler).

Fixpoint get (evt : EventType) (listeners : Listeners) : option (list Handler) :=
  match listeners with
  | [] => None
  | (k, v) :: rest => if EventType_eqb k evt then Some v else get evt rest
  end.

Fixpoint set (evt : EventType) (v : list Handler) (listeners : Listeners) : Listeners :=
  match listeners with
  | [] => [(evt, v)]
  | (k, v') :: rest =>
      if EventType_eqb k evt then (k, v) :: rest else (k, v') :: set evt v rest
  end.

Definition on (evt : EventType) (handler : Handler) (listeners : Listeners) : Listeners :=
  set evt (default [] (get evt listeners) ++ [handler]) listeners.

Definition off (evt : EventType) (handler : Handler) (listeners : Listeners) : Listeners :=
  let arr := default [] (get evt listeners) in
  set evt (filter (fun h => h_id h <> h_id handler) arr) listeners.

(** What [start] has done so far: the handler invocations, in order, and
    the state they left. *)
Record Progress : Type := {
  dispatched : list (nat * Payload);
  world : W
}.

Definition deliver (payload : Payload) (pr : Progress) (h : Handler) : Progress :=
  {| dispatched := dispatched pr ++ [(h_id h, payload)];
     world := h_run h payload (world pr) |}.

(** The body of the [for (const ev of this.events)] loop; the delay of the
    real-time mode only spaces the iterations out. *)
Definition replayOne (listeners : Listeners) (pr : Progress) (ev : ReplayEvent) : Progress :=
  let payload := withTimestamp (re_timestamp ev) (re_data ev) in
  fold_left (deliver payload)
    (default [] (get (payloadType (re_data ev)) listeners)) pr.

(** [start(realTime)] *)
Definition start (events : list ReplayEvent) (listeners : Listeners) (w : W) : Progress :=
  if (length events =? 0)%nat then {| dispatched := []; world := w |}
  else fold_left (replayOne listeners) events {| dispatched := []; world := w |}.

End Adapter.

Arguments Handler W : clear implicits.
Arguments Listeners W : clear implicits.
Arguments Progress W : clear implicits.

End ReplayEventAdapter.

(** ** src/extractors-manager.ts *)

Module ExtractorsManager.

Import Events FeatureExtractorBase ExtractorContract.

(** A wrapped handler the manager registered: the extractor it belongs
    to and its position in that extractor's [getEventHandlers()]. *)
Record HandlerRef : Set := { extractorIndex : nat; handlerIndex : nat }.

(** The calls the manager makes on the event port. *)
Inductive PortCall : Set :=
| On (evt : EventType) (h : HandlerRef)
| Off (evt : EventType) (h : HandlerRef).

Definition isOff (c : PortCall) : bool :=
  match c with Off _ _ => true | On _ _ => false end.

Section Manager.
Context {E : Type} `{FeatureExtractor E}.

(** An extractor object: its own state and the [isListening] flag of the
    base class. *)
Record Extractor : Type := { self : E; isListening : bool }.

(** The fields of the manager, the calls it has made on the event port,
    and its [startListening()] calls that are suspended: [awaitingStorage]
    counts those whose [loadAndProcessEvents()] awaits the storage read,
    [awaitingLoad] those that await the end of [loadAndProcessEvents()]
    after it has processed the events. *)
Record State : Type := {
  extractors : list Extractor;
  isActive : bool;
  registeredHandlers : list (EventType * list HandlerRef);
  portCalls : list PortCall;
  awaitingStorage : nat;
  awaitingLoad : nat
}.

(** The manager the constructor builds. *)
Definition create : State :=
  {| extractors := []; isActive := false; registeredHandlers := []; portCalls := [];
     awaitingStorage := 0; awaitingLoad := 0 |}.

Definition setAwaiting (storage load : nat) (m : State) : State :=
  {| extractors := extractors m; isActive := isActive m;
     registeredHandlers := registeredHandlers m; portCalls := portCalls m;
     awaitingStorage := storage; awaitingLoad := load |}.

Definition initExtractors (instances : list E) (m : State) : State :=
  {| extractors := map (fun e => {| self := e; isListening := false |}) instances;
     isActive := isActive m;
     registeredHandlers := registeredHandlers m;
     portCalls := portCalls m;
     awaitingStorage := awaitingStorage m; awaitingLoad := awaitingLoad m |}.

Definition getExtractors (m : State) : list Extractor := extractors m.

(** The body of the loop in [loadAndProcessEvents]. *)
Definition loadInto (allEvents : list StoredEvent) (x : Extractor) : Extractor :=
  let extractorType := constructorName (self x) in
  let extractorEvents :=
    filter (fun event => se_extractorType event = extractorType) allEvents in
  if (0 <? length extractorEvents)%nat
  then {| self := processEvents extractorEvents (self x); isListening := isListening x |}
  else x.

Fixpoint pushHandler (evt : EventType) (h : HandlerRef)
    (registered : list (EventType * list HandlerRef)) : list (EventType * list HandlerRef) :=
  match registered with
  | [] => [(evt, [h])]
  | (k, hs) :: rest =>
      if EventType_eqb k evt then (k, hs ++ [h]) :: rest
      else (k, hs) :: pushHandler evt h rest
  end.

(** The handlers of the extractor at index [i], numbered from [j]. *)
Fixpoint registerFrom (i j : nat) (evts : list EventType)
    (acc : list (EventType * list HandlerRef) * list PortCall)
  : list (EventType * list HandlerRef) * list PortCall :=
  match evts with
  | [] => acc
  | evt :: rest =>
      let h := {| extractorIndex := i; handlerIndex := j |} in
      registerFrom i (S j) rest (pushHandler evt h (fst acc), snd acc ++ [On evt h])
  end.

Fixpoint registerAll (i : nat) (xs : list Extractor)
    (acc : list (EventType * list HandlerRef) * list PortCall)
  : list (EventType * list HandlerRef) * list PortCall :=
  match xs with
  | [] => acc
  | x :: rest =>
      registerAll (S i) rest (registerFrom i 0 (getRelevantEventTypes (self x)) acc)
  end.

Definition registerEventHandlers (m : State) : State :=
  let '(registered, calls) := registerAll 0 (extractors m) ([], portCalls m) in
  {| extractors := extractors m; isActive := isActive m;
     registeredHandlers := registered; portCalls := calls;
     awaitingStorage := awaitingStorage m; awaitingLoad := awaitingLoad m |}.

(** The [off] calls of [unregisterEventHandlers]: one for every handler
    of every entry of the map. *)
Definition teardownCalls (registered : list (EventType * list HandlerRef)) : list PortCall :=
  flat_map (fun entry => map (Off (fst entry)) (snd entry)) registered.

Definition unregisterEventHandlers (m : State) : State :=
  {| extractors := extractors m; isActive := isActive m;
     registeredHandlers := [];
     portCalls := portCalls m ++ teardownCalls (registeredHandlers m);
     awaitingStorage := awaitingStorage m; awaitingLoad := awaitingLoad m |}.

(** [loadAndProcessEvents()] from the point where the storage has
    returned [allEvents]. *)
Definition processLoaded (allEvents : list StoredEvent) (m : State) : State :=
  {| extractors := map (loadInto allEvents) (extractors m); isActive := isActive m;
     registeredHandlers := registeredHandlers m; portCalls := portCalls m;
     awaitingStorage := awaitingStorage m; awaitingLoad := awaitingLoad m |}.

(** [startListening()] from the point where [loadAndProcessEvents()] has
    ended: register the handlers, start the extractors, set [isActive]. *)
Definition finishStart (m : State) : State :=
  let m2 := registerEventHandlers m in
  {| extractors :=
       map (fun x => {| self := self x; isListening := true |}) (extractors m2);
     isActive := true;
     registeredHandlers := registeredHandlers m2;
     portCalls := portCalls m2;
     awaitingStorage := awaitingStorage m2; awaitingLoad := awaitingLoad m2 |}.

(** [startListening()] past its guard, the storage returning
    [allEvents], with no other call in between. *)
Definition arm (allEvents : list StoredEvent) (m : State) : State :=
  finishStart (processLoaded allEvents m).

(** [await startListening()]: the call and its continuations with no
    other call in between, the storage returning [allEvents]. *)
Definition startListening (allEvents : list StoredEvent) (m : State) : State :=
  if isActive m then m else arm allEvents m.

(** [startListening()] as far as it runs at the call: past the guard it
    enters [loadAndProcessEvents()], which is suspended at the [await]
    of the storage read. *)
Definition startListeningCall (m : State) : State :=
  if isActive m then m
  else setAwaiting (S (awaitingStorage m)) (awaitingLoad m) m.

(** The continuation of one suspended [loadAndProcessEvents()], run when
    the storage read settles with [loaded]: it processes the events and
    ends, which lets its [startListening()] continue in a later job.
    When the read is rejected, so is the [startListening()] call, which
    does nothing more. *)
Definition loadAndProcessEventsResumes (loaded : Completion (list StoredEvent))
    (m : State) : State :=
  match awaitingStorage m with
  | O => m
  | S n =>
      match loaded with
      | Normal allEvents =>
          processLoaded allEvents (setAwaiting n (S (awaitingLoad m)) m)
      | Throw _ => setAwaiting n (awaitingLoad m) m
      end
  end.

(** The continuation of one [startListening()] whose
    [loadAndProcessEvents()] has ended.  The guard is not evaluated
    again. *)
Definition startListeningResumes (m : State) : State :=
  match awaitingLoad m with
  | O => m
  | S n => finishStart (setAwaiting (awaitingStorage m) n m)
  end.

(** Both continuations of a suspended [startListening()], with no other
    call in between. *)
Definition startListeningSettles (loaded : Completion (list StoredEvent)) (m : State)
  : State :=
  startListeningResumes (loadAndProcessEventsResumes loaded m).

Definition stopListening (m : State) : State :=
  if negb (isActive m) then m
  else
    let m1 := unregisterEventHandlers m in
    {| extractors :=
         map (fun x => {| self := self x; isListening := false |}) (extractors m1);
       isActive := false;
       registeredHandlers := registeredHandlers m1;
       portCalls := portCalls m1;
       awaitingStorage := awaitingStorage m1; awaitingLoad := awaitingLoad m1 |}.

(** [storeAndHandleEvent(payload)] of the handler [h]: when the extractor
    still listens, run its handler and hand the raw event to the storage
    (the second component). *)
Definition storeAndHandleEvent (h : HandlerRef) (payload : Payload) (m : State)
  : State * option StoredEvent :=
  match extractors m !! extractorIndex h with
  | None => (m, None)
  | Some x =>
      match getEventHandlers (self x) !! handlerIndex h with
      | None => (m, None)
      | Some (eventType, handler) =>
          if isListening x then
            let x' := {| self := handler payload (self x); isListening := isListening x |} in
            ({| extractors := <[extractorIndex h := x']> (extractors m);
                isActive := isActive m;
                registeredHandlers := registeredHandlers m;
                portCalls := portCalls m;
                awaitingStorage := awaitingStorage m;
                awaitingLoad := awaitingLoad m |},
             Some {| se_id := None; se_type := eventType;
                     se_timestamp := payloadTimestamp payload; se_data := payload;
                     se_extractorType := constructorName (self x);
                     se_sessionId := None |})
          else (m, None)
      end
  end.

End Manager.

Arguments Extractor E : clear implicits.
Arguments State E : clear implicits.

End ExtractorsManager.

(** ** src/types/detection-types.ts, src/model-parameters.ts *)

Module DetectionTypes.

Record Preprocessing : Type := {
  numeric_features : list (string * (R * R));
  categorical_features : list (string * list string);
  boolean_features : list string
}.

(** [weights] is read through [Object.entries], an ordered list of
    name-coefficient pairs. *)
Record ModelParameters : Type := {
  weights : list (string * R);
  bias : R;
  feature_order : list string;
  preprocessing : option Preprocessing
}.

(** What [scoreFeatures] returns: the verdict, the score and the vector
    it was given. *)
Record DetectionResult : Type := {
  isAgent : bool;
  score : Js.Number;
  features : gmap string FeatureExtractorBase.FeatureValue
}.

Local Open Scope R_scope.

Definition MODEL_PARAMETERS : ModelParameters :=
  {| weights :=
       [ ("max_touch_points", -0.5143956069595789);
         ("device_pixel_ratio", -0.2863739691885242);
         ("media_devices", -0.08616739104082564);
         ("plugins", -0.49735439185648017);
         ("keyboard_typing_consistency", -0.1138474768087763);
         ("has_webgl_swiftshader", 0.0);
         ("has_active_mouse_movement", 0.13971990273315532);
         ("has_scroll_events", 0.19480381603147318) ];
     bias := 0.19480381603147318;
     feature_order :=
       [ "max_touch_points"; "device_pixel_ratio"; "media_devices"; "plugins";
         "keyboard_typing_consistency"; "has_webgl_swiftshader";
         "has_active_mouse_movement"; "has_scroll_events" ];
     preprocessing :=
       Some
         {| numeric_features :=
              [ ("max_touch_points", (0.38461538461538464, 1.3323467750529823));
                ("device_pixel_ratio", (1.6000000009169946, 0.6421118990024256));
                ("hardware_concurrency", (11.615384615384615, 4.3947251867956));
                ("device_memory", (6.6923076923076925, 2.6423944672796416));
                ("media_devices", (1.5384615384615385, 1.447299055555906));
                ("plugins", (3.076923076923077, 2.4325212770525995));
                ("keyboard_typing_consistency", (17.525329670796335, 22.662629369110885)) ];
            categorical_features := [];
            boolean_features :=
              [ "touch_support"; "has_webgl_swiftshader"; "has_active_scrolling";
                "has_mouse_events"; "has_active_mouse_movement"; "has_scroll_events";
                "has_click_events"; "has_typing_events" ] |} |}.

End DetectionTypes.

(** ** src/agent-detector.ts *)

Module AgentDetector.

Import Events FeatureExtractorBase ExtractorContract DetectionTypes.

Inductive LogLevel : Set := DEBUG | INFO | WARN | ERROR | NONE.

(** [probabilityAgent >= 0.5] *)
Definition atLeastHalf (p : Js.Number) : bool := Js.ge p (Js.Num (1 / 2)).

(** The number a feature value stands for as an operand of [*]. *)
Definition toNumber `{Js.StringToNumber} (v : FeatureValue) : Js.Number :=
  match v with
  | FNum r => Js.Num r
  | FBool true => Js.Num 1
  | FBool false => Js.Num 0
  | FStr s => Js.stringToNumber s
  | FNull => Js.Num 0
  end.

(** The body of the loop over [Object.entries(weights)]: a weighted name
    that reads as [undefined] in the vector is skipped; what it reads
    otherwise is multiplied by the weight, and an inherited member of
    [Object.prototype], a function or an object, is [NaN] as a number. *)
Definition addContribution `{Js.StringToNumber} (features : gmap string FeatureValue)
    (linearSum : Js.Number) (entry : string * R) : Js.Number :=
  match Js.get features (fst entry) with
  | Js.Undefined => linearSum
  | Js.Own featureValue =>
      Js.add linearSum (Js.mul (toNumber featureValue) (Js.Num (snd entry)))
  | Js.Inherited => Js.add linearSum (Js.mul Js.NaN (Js.Num (snd entry)))
  end.

Definition linearSumOf `{Js.StringToNumber} (mp : ModelParameters)
    (features : gmap string FeatureValue) : Js.Number :=
  fold_left (addContribution features) (weights mp) (Js.Num (bias mp)).

Definition scoreFeatures `{Js.StringToNumber} (modelParameters : option ModelParameters)
    (features : gmap string FeatureValue) : Completion DetectionResult :=
  match modelParameters with
  | None => Throw "Model parameters not loaded."
  | Some mp =>
      let probabilityAgent := MathUtils.sigmoid (linearSumOf mp features) in
      Normal {| isAgent := atLeastHalf probabilityAgent;
                score := probabilityAgent;
                features := features |}
  end.

(** An element of the extractor array: one of the built-in extractors or
    an extractor of a class passed in [options.extractorClasses]. *)
Inductive AnyExtractor (C : Type) : Type :=
| OfBuiltIn (b : BuiltIn.t)
| OfCustom (c : C).
Arguments OfBuiltIn {C} b.
Arguments OfCustom {C} c.

Definition liftBuiltIn {C} (h : Payload -> BuiltIn.t -> BuiltIn.t)
    (payload : Payload) (e : AnyExtractor C) : AnyExtractor C :=
  match e with
  | OfBuiltIn b => OfBuiltIn (h payload b)
  | OfCustom c => OfCustom c
  end.

Definition liftCustom {C} (h : Payload -> C -> C)
    (payload : Payload) (e : AnyExtractor C) : AnyExtractor C :=
  match e with
  | OfBuiltIn b => OfBuiltIn b
  | OfCustom c => OfCustom (h payload c)
  end.

#[global] Instance any_extractor {C} `{FeatureExtractor C} : FeatureExtractor (AnyExtractor C) := {|
  constructorName e :=
    match e with OfBuiltIn b => constructorName b | OfCustom c => constructorName c end;
  extractFeatures e :=
    match e with OfBuiltIn b => extractFeatures b | OfCustom c => extractFeatures c end;
  getDefaultFeatures e :=
    match e with OfBuiltIn b => getDefaultFeatures b | OfCustom c => getDefaultFeatures c end;
  processEvents events e :=
    match e with
    | OfBuiltIn b => OfBuiltIn (processEvents events b)
    | OfCustom c => OfCustom (processEvents events c)
    end;
  getEventHandlers e :=
    match e with
    | OfBuiltIn b => map (fun eh => (fst eh, liftBuiltIn (snd eh))) (getEventHandlers b)
    | OfCustom c => map (fun eh => (fst eh, liftCustom (snd eh))) (getEventHandlers c)
    end
|}.

(** What one extractor contributes to a cycle, [ExtractionOutcome]. *)
Record ExtractionOutcome : Type := {
  o_features : gmap string FeatureValue;
  o_hasData : option bool;
  o_error : bool
}.

Section Detector.
Context {C : Type} `{FeatureExtractor C} `{Js.StringToNumber}.

(** [preprocessFeatures] maps the merged raw vector to the vector the
    scorer reads: it standardises, encodes or passes on each feature.
    It is a total function of the vector and of the model parameters and
    never throws; the lifecycle below goes through for whichever such
    function it is. *)
Context (preprocessFeatures :
           option ModelParameters -> gmap string FeatureValue
           -> gmap string FeatureValue).

(** The [new (metadataProvider, eventsProvider) => FeatureExtractor]
    constructors. *)
Definition ExtractorClass : Type :=
  BrowserMetadataExtractor.MetadataPort -> AnyExtractor C.

Definition DEFAULT_EXTRACTORS : list ExtractorClass :=
  [ fun port => OfBuiltIn (BuiltIn.Metadata port);
    fun _ => OfBuiltIn (BuiltIn.Mouse []);
    fun _ => OfBuiltIn (BuiltIn.Keyboard []);
    fun _ => OfBuiltIn (BuiltIn.Scroll []);
    fun _ =>
      OfBuiltIn (BuiltIn.Click {| ClickEventExtractor.mouseMoves := [];
                                  ClickEventExtractor.clicks := [] |}) ].

Record Options : Type := {
  onDetection : option (DetectionResult -> Completion unit);
  opt_debug : option bool;
  extractorClasses : option (list ExtractorClass);
  autoStart : option bool
}.

(** The fields of the detector, and the warnings and errors it has
    handed to its logger. *)
Record State : Type := {
  debug : bool;
  onDetectionCallback : option (DetectionResult -> Completion unit);
  initialized : bool;
  metadataProvider : BrowserMetadataExtractor.MetadataPort;
  modelParameters : option ModelParameters;
  sessionRestored : bool;
  extractorsManager : ExtractorsManager.State (AnyExtractor C);
  isDetectionActive : bool;
  isDetectionFinalizing : bool;
  logged : list (LogLevel * string)
}.

Definition constructor (metadataProvider : BrowserMetadataExtractor.MetadataPort) : State :=
  {| debug := false;
     onDetectionCallback := None;
     initialized := false;
     metadataProvider := metadataProvider;
     modelParameters := None;
     sessionRestored := false;
     extractorsManager := ExtractorsManager.create;
     isDetectionActive := false;
     isDetectionFinalizing := false;
     logged := [] |}.

Definition log (level : LogLevel) (message : string) (d : State) : State :=
  {| debug := debug d; onDetectionCallback := onDetectionCallback d;
     initialized := initialized d; metadataProvider := metadataProvider d;
     modelParameters := modelParameters d; sessionRestored := sessionRestored d;
     extractorsManager := extractorsManager d;
     isDetectionActive := isDetectionActive d;
     isDetectionFinalizing := isDetectionFinalizing d;
     logged := logged d ++ [(level, message)] |}.

Definition setManager (m : ExtractorsManager.State (AnyExtractor C)) (d : State) : State :=
  {| debug := debug d; onDetectionCallback := onDetectionCallback d;
     initialized := initialized d; metadataProvider := metadataProvider d;
     modelParameters := modelParameters d; sessionRestored := sessionRestored d;
     extractorsManager := m;
     isDetectionActive := isDetectionActive d;
     isDetectionFinalizing := isDetectionFinalizing d;
     logged := logged d |}.

Definition setFlags (active finalizing : bool) (d : State) : State :=
  {| debug := debug d; onDetectionCallback := onDetectionCallback d;
     initialized := initialized d; metadataProvider := metadataProvider d;
     modelParameters := modelParameters d; sessionRestored := sessionRestored d;
     extractorsManager := extractorsManager d;
     isDetectionActive := active;
     isDetectionFinalizing := finalizing;
     logged := logged d |}.

Definition resetDetectionState (d : State) : State := setFlags false false d.

(** The callback of [extractors.map]: the [try] merges the extractor's
    features over its defaults, the [catch] falls back to the defaults.
    The second component is the error message logged by the [catch]. *)
Definition extractOne (e : AnyExtractor C) : ExtractionOutcome * option string :=
  match extractFeatures e with
  | Normal featureResult =>
      ({| o_features :=
            default ∅ (featureResult ≫= FeatureExtractorBase.features)
            ∪ getDefaultFeatures e;
          o_hasData := hasData <$> featureResult;
          o_error := false |},
       None)
  | Throw _ =>
      ({| o_features := getDefaultFeatures e;
          o_hasData := Some false;
          o_error := true |},
       Some ("Error extracting features from " ++ constructorName e ++ ":")%string)
  end.

(** [Object.assign(combinedFeatures, result.features)] for every result,
    in order: a later result overrides an earlier one on a shared key. *)
Definition combine (results : list ExtractionOutcome) : gmap string FeatureValue :=
  fold_left (fun combinedFeatures result => o_features result ∪ combinedFeatures) results ∅.

Definition logErrors (messages : list (option string)) (d : State) : State :=
  fold_left
    (fun d m => match m with Some message => log ERROR message d | None => d end)
    messages d.

Definition extractFeaturesAll (d : State) : Completion (gmap string FeatureValue) * State :=
  match modelParameters d with
  | None => (Throw "Model parameters not loaded.", d)
  | Some _ =>
      let extractors := ExtractorsManager.getExtractors (extractorsManager d) in
      let results := map (fun x => extractOne (ExtractorsManager.self x)) extractors in
      (Normal (combine (map fst results)), logErrors (map snd results) d)
  end.

Definition _performDetection (d : State) : Completion DetectionResult * State :=
  match extractFeaturesAll d with
  | (Throw message, d1) => (Throw message, d1)
  | (Normal rawFeatures, d1) =>
      let preprocessedFeatures := preprocessFeatures (modelParameters d1) rawFeatures in
      match scoreFeatures (modelParameters d1) preprocessedFeatures with
      | Throw message => (Throw message, d1)
      | Normal result =>
          match onDetectionCallback d1 with
          | None => (Normal result, d1)
          | Some callback =>
              match callback result with
              | Normal _ => (Normal result, d1)
              | Throw message => (Throw message, d1)
              end
          end
      end
  end.

(** The features an extractor produced in this cycle: none when it threw
    or returned nothing. *)
Definition producedBy (e : AnyExtractor C) : gmap string FeatureValue :=
  match extractFeatures e with
  | Normal featureResult => default ∅ (featureResult ≫= FeatureExtractorBase.features)
  | Throw _ => ∅
  end.

(** The outcomes of all extractors of the detector, in order. *)
Definition outcomes (d : State) : list ExtractionOutcome :=
  map (fun x => fst (extractOne (ExtractorsManager.self x)))
    (ExtractorsManager.getExtractors (extractorsManager d)).


(** [startDetection()]; it returns [this], here the detector it leaves.
    The manager's [startListening()] is called and not awaited: the
    detector is marked active at once, and the listeners are armed by
    the continuations below. *)
Definition startDetection (d : State) : Completion unit * State :=
  if negb (initialized d) then
    (Normal tt, log ERROR "Cannot start detection - not initialized." d)
  else if isDetectionActive d then
    (Normal tt, log WARN "Detection already active, ignoring startDetection call" d)
  else
    let d1 := setFlags true false d in
    (Normal tt,
     setManager (ExtractorsManager.startListeningCall (extractorsManager d1)) d1).

(** The continuations of a [startListening()] call left suspended by
    [startDetection], run on the detector's manager: the first when the
    storage read settles with [loaded], the second in a later job. *)
Definition loadAndProcessEventsResumes (loaded : Completion (list StoredEvent))
    (d : State) : State :=
  setManager
    (ExtractorsManager.loadAndProcessEventsResumes loaded (extractorsManager d)) d.

Definition startListeningResumes (d : State) : State :=
  setManager (ExtractorsManager.startListeningResumes (extractorsManager d)) d.

(** Both continuations, with no other call in between. *)
Definition startListeningSettles (loaded : Completion (list StoredEvent)) (d : State)
  : State :=
  startListeningResumes (loadAndProcessEventsResumes loaded d).

Definition getCurrentDetectionResult (d : State) : Completion DetectionResult * State :=
  if negb (initialized d) then
    (Throw "AgentDetector not initialized. Call init() first.", d)
  else
    let d1 :=
      if negb (isDetectionActive d) then
        log WARN
          "Detection not active, results may be limited. Consider calling startDetection() first."
          d
      else d in
    match _performDetection d1 with
    | (Normal result, d2) => (Normal result, d2)
    | (Throw message, d2) =>
        (Throw message, log ERROR "Error getting detection result:" d2)
    end.

Definition finalizeDetection (d : State) : Completion DetectionResult * State :=
  if negb (initialized d) then
    (Throw "AgentDetector not initialized. Call init() first.", d)
  else if isDetectionFinalizing d then
    _performDetection
      (log WARN "Detection already finalizing, returning previous result" d)
  else
    let d1 := setFlags (isDetectionActive d) true d in
    match _performDetection d1 with
    | (Normal result, d2) =>
        let d3 :=
          setManager (ExtractorsManager.stopListening (extractorsManager d2)) d2 in
        (Normal result, setFlags false false d3)
    | (Throw message, d2) =>
        (Throw message,
         log ERROR "Error finalizing detection:"
           (setFlags (isDetectionActive d2) false d2))
    end.

(** [cleanup()], up to the call that clears the event storage. *)
Definition cleanup (d : State) : State :=
  if isDetectionActive d || isDetectionFinalizing d then
    setFlags false false
      (setManager (ExtractorsManager.stopListening (extractorsManager d)) d)
  else d.

(** The callback that [init] attaches to [checkForExistingSession()],
    run when the storage has answered [hasExistingSession]; without a
    session it only asks the storage to save the current one. *)
Definition sessionChecked (hasExistingSession : bool) (d : State) : State :=
  if hasExistingSession then
    {| debug := debug d; onDetectionCallback := onDetectionCallback d;
       initialized := initialized d; metadataProvider := metadataProvider d;
       modelParameters := modelParameters d; sessionRestored := true;
       extractorsManager := extractorsManager d;
       isDetectionActive := isDetectionActive d;
       isDetectionFinalizing := isDetectionFinalizing d;
       logged := logged d |}
  else d.

(** [init(options)].  The session check it starts is answered later, see
    [sessionChecked]. *)
Definition init (options : Options) (d : State) : Completion unit * State :=
  let classes :=
    match extractorClasses options with
    | Some (c :: cs) => c :: cs
    | _ => DEFAULT_EXTRACTORS
    end in
  let manager :=
    ExtractorsManager.initExtractors
      (map (fun class => class (metadataProvider d)) classes)
      ExtractorsManager.create in
  let d1 :=
    {| debug := default false (opt_debug options);
       onDetectionCallback := onDetection options;
       initialized := true;
       metadataProvider := metadataProvider d;
       modelParameters := Some MODEL_PARAMETERS;
       sessionRestored := sessionRestored d;
       extractorsManager := manager;
       isDetectionActive := false;
       isDetectionFinalizing := false;
       logged := logged d |} in
  if default true (autoStart options) then startDetection d1
  else (Normal tt, d1).

End Detector.

Arguments State C : clear implicits.
Arguments Options C : clear implicits.
Arguments ExtractorClass C : clear implicits.

End AgentDetector.

(** ** Reference definitions, written after the documented behaviour

    These are the notions the documentation uses to describe the code;
    the theorems below relate the embedded code to them. *)

Module Reference.

Import Events FeatureExtractorBase DetectionTypes.

(** The entries of the weight table whose name is present in the vector. *)
Definition presentEntries (weights : list (string * R))
    (features : gmap string FeatureValue) : list (string * R) :=
  filter (fun entry => is_Some (features !! fst entry)) weights.

(** The number the vector holds under a name. *)
Definition valueOf (features : gmap string FeatureValue) (name : string) : R :=
  match features !! name with
  | Some (FNum r) => r
  | _ => 0%R
  end.

(** The terms [weight[name] * value[name]] of the present names. *)
Definition presentTerms (weights : list (string * R))
    (features : gmap string FeatureValue) : list R :=
  map (fun entry => (valueOf features (fst entry) * snd entry)%R)
    (presentEntries weights features).

Definition total (xs : list R) : R := fold_right Rplus 0%R xs.

(** [bias + Σ weight[name] * value[name]] over the present names. *)
Definition linearScore (mp : ModelParameters) (features : gmap string FeatureValue) : R :=
  (bias mp + total (presentTerms (weights mp) features))%R.

(** The vector holds a number under the name, or it holds nothing under
    it and the name is not one that every object inherits. *)
Definition numberOrAbsent (features : gmap string FeatureValue) (name : string) : bool :=
  match features !! name with
  | Some (FNum _) => true
  | Some _ => false
  | None => negb (bool_decide (name ∈ Js.objectPrototypeMembers))
  end.

(** The vector holds nothing under the name, and the name is not one
    that every object inherits. *)
Definition absent (features : gmap string FeatureValue) (name : string) : bool :=
  match features !! name with
  | Some _ => false
  | None => negb (bool_decide (name ∈ Js.objectPrototypeMembers))
  end.

(** The second score is not below the first: both are numbers, in that
    order, or neither is a number. *)
Definition notLowered (a b : Js.Number) : Prop :=
  match a, b with
  | Js.Num x, Js.Num y => (x <= y)%R
  | Js.NaN, Js.NaN => True
  | _, _ => False
  end.

(** An extractor's own values over its defaults: the value it produced
    under the name, else its default. *)
Definition over {V : Type} (produced defaults : gmap string V) (k : string) : option V :=
  match produced !! k with
  | Some v => Some v
  | None => defaults !! k
  end.

(** The value of the last contribution, in extractor order, that holds
    the name. *)
Fixpoint lastHolding {V : Type} (k : string) (contributions : list (string -> option V))
  : option V :=
  match contributions with
  | [] => None
  | c :: rest =>
      match lastHolding k rest with
      | Some v => Some v
      | None => c k
      end
  end.

(** What a cycle that has scored [result] returns: the result, unless the
    result callback throws. *)
Definition afterCallback (callback : option (DetectionResult -> Completion unit))
    (result : DetectionResult) : Completion DetectionResult :=
  match callback with
  | None => Normal result
  | Some f =>
      match f result with
      | Normal _ => Normal result
      | Throw message => Throw message
      end
  end.

(** No two consecutive samples are separated by a positive time delta. *)
Fixpoint noPositiveDeltaFrom (prev : PointerPayload) (rest : list PointerPayload) : bool :=
  match rest with
  | [] => true
  | curr :: rest' =>
      negb (0 <? p_timestamp curr - p_timestamp prev)%Z && noPositiveDeltaFrom curr rest'
  end.

Definition noPositiveDelta (moves : list PointerPayload) : bool :=
  match moves with
  | [] => true
  | first :: rest => noPositiveDeltaFrom first rest
  end.

(** Splitting a run of key events wherever the gap between neighbours
    exceeds the threshold; the first run starts with [prev]. *)
Fixpoint splitFrom (threshold : Z) (prev : KeyPayload) (rest : list KeyPayload)
  : list (list KeyPayload) :=
  match rest with
  | [] => [[prev]]
  | curr :: rest' =>
      if (threshold <? k_timestamp curr - k_timestamp prev)%Z
      then [prev] :: splitFrom threshold curr rest'
      else
        match splitFrom threshold curr rest' with
        | run :: runs => (prev :: run) :: runs
        | [] => [[prev]]
        end
  end.

(** Prefixing the events of the open burst to the first run. *)
Definition attach (open : list KeyPayload) (runs : list (list KeyPayload))
  : list (list KeyPayload) :=
  match runs with
  | [] => []
  | run :: runs' => (open ++ run) :: runs'
  end.

Definition splitAtGaps (threshold : Z) (events : list KeyPayload) : list (list KeyPayload) :=
  match events with
  | [] => []
  | first :: rest => splitFrom threshold first rest
  end.

(** The bursts of length at least 2 that remain after splitting the
    timestamp-sorted events at gaps exceeding 3000 ms. *)
Definition validBursts (keyEvents : list KeyPayload) : list (list KeyPayload) :=
  filter (fun burst => (2 <= length burst)%nat)
    (splitAtGaps 3000 (JsArray.sortBy k_timestamp keyEvents)).

(** Coefficient of variation, standard deviation over mean, of the
    intervals between the neighbouring events of a burst; [0] when the
    mean interval is not positive. *)
Definition coefficientOfVariation (burst : list KeyPayload) : R :=
  let intervals := map IZR (KeyboardEventExtractor.intervalsOf burst) in
  if Rlt_dec 0 (SimpleStatistics.mean intervals)
  then (SimpleStatistics.standardDeviation intervals / SimpleStatistics.mean intervals)%R
  else 0%R.


(** Every character of the string satisfies the test. *)
Fixpoint allChars (test : ascii -> bool) (s : string) : bool :=
  match s with
  | EmptyString => true
  | String c rest => test c && allChars test rest
  end.

(** A character of the ASCII range. *)
Definition isAsciiChar (c : ascii) : bool := (nat_of_ascii c <? 128)%nat.

(** Neither an upper-case letter nor white space. *)
Definition isSnakeChar (c : ascii) : bool :=
  negb (MathUtils.isUpper c) && negb (MathUtils.isSpace c).

Definition startsWithUnderscore (s : string) : bool :=
  match s with
  | String "_" _ => true
  | _ => false
  end.

(** The stamp the throttle remembers is the stamp of the payload it
    handed over last. *)
Definition stampOfLast (s : Throttle.State) : Prop :=
  Throttle.lastProcessedTimestamp s
  = match last (Throttle.invoked s) with
    | Some e => Throttle.timestamp e
    | None => 0%Z
    end.

(** What has arrived accounts for what was handed over and for what
    is pending. *)
Definition accounted (arrived : list Throttle.Event) (s : Throttle.State) : Prop :=
  (length (Throttle.invoked s)
   + match Throttle.pendingEvent s with Some _ => 1 | None => 0 end
   <= length arrived)%nat
  /\ (forall e, In e (Throttle.invoked s) -> In e arrived)
  /\ (forall e, Throttle.pendingEvent s = Some e -> In e arrived).

(** The number of scheduled timer callbacks that were set for the
    payload object [e]. *)
Fixpoint timersFor (e : Throttle.Event) (ts : list (Z * Throttle.Event)) : nat :=
  match ts with
  | [] => 0
  | (_, p) :: rest => (if Throttle.sameObject p e then 1 else 0) + timersFor e rest
  end.

(** The number of consecutive samples separated by a positive time
    delta. *)
Fixpoint positiveDeltasFrom (prev : PointerPayload) (rest : list PointerPayload) : nat :=
  match rest with
  | [] => 0
  | curr :: rest' =>
      (if (0 <? p_timestamp curr - p_timestamp prev)%Z then 1 else 0)
      + positiveDeltasFrom curr rest'
  end.

(** Two neighbours of the list are less than [thresholdMs] apart. *)
Fixpoint closePairFrom {A : Type} (key : A -> Z) (thresholdMs : Z)
    (prev : A) (rest : list A) : bool :=
  match rest with
  | [] => false
  | curr :: rest' =>
      (key curr - key prev <? thresholdMs)%Z || closePairFrom key thresholdMs curr rest'
  end.

Definition closePair {A : Type} (key : A -> Z) (thresholdMs : Z) (l : list A) : bool :=
  match l with
  | [] => false
  | first :: rest => closePairFrom key thresholdMs first rest
  end.

(** Every key press comes [d] milliseconds after the one before. *)
Fixpoint evenlySpacedFrom (d : Z) (prev : KeyPayload) (rest : list KeyPayload) : bool :=
  match rest with
  | [] => true
  | curr :: rest' =>
      (k_timestamp curr - k_timestamp prev =? d)%Z && evenlySpacedFrom d curr rest'
  end.

Definition evenlySpaced (d : Z) (keyEvents : list KeyPayload) : bool :=
  match keyEvents with
  | [] => true
  | first :: rest => evenlySpacedFrom d first rest
  end.


(** The handlers a registration map holds, each with its event type. *)
Definition registrations
    (registered : list (EventType * list ExtractorsManager.HandlerRef))
  : list (EventType * ExtractorsManager.HandlerRef) :=
  flat_map (fun entry => map (pair (fst entry)) (snd entry)) registered.

Definition onCall (r : EventType * ExtractorsManager.HandlerRef)
  : ExtractorsManager.PortCall :=
  ExtractorsManager.On (fst r) (snd r).

Definition offCall (r : EventType * ExtractorsManager.HandlerRef)
  : ExtractorsManager.PortCall :=
  ExtractorsManager.Off (fst r) (snd r).

(** The handlers of the extractor at index [i], each with its event
    type, numbered in the order of [getEventHandlers()]. *)
Definition handlersOf {E : Type} `{ExtractorContract.FeatureExtractor E} (i : nat) (e : E)
  : list (EventType * ExtractorsManager.HandlerRef) :=
  imap (fun j evt => (evt, {| ExtractorsManager.extractorIndex := i;
                              ExtractorsManager.handlerIndex := j |}))
    (ExtractorContract.getRelevantEventTypes e).

(** Every handler of every extractor, in extractor order. *)
Definition allHandlers {E : Type} `{ExtractorContract.FeatureExtractor E}
    (xs : list (ExtractorsManager.Extractor E))
  : list (EventType * ExtractorsManager.HandlerRef) :=
  concat (imap (fun i x => handlersOf i (ExtractorsManager.self x)) xs).

(** Handing a sequence of events to registered handlers, collecting what
    the handlers pass to the storage. *)
Definition deliverAll {E : Type} `{ExtractorContract.FeatureExtractor E}
    (deliveries : list (ExtractorsManager.HandlerRef * Payload))
    (m : ExtractorsManager.State E)
  : ExtractorsManager.State E * list StoredEvent :=
  fold_left
    (fun acc delivery =>
       let r := ExtractorsManager.storeAndHandleEvent
                  (fst delivery) (snd delivery) (fst acc) in
       (fst r, snd acc ++ match snd r with Some e => [e] | None => [] end))
    deliveries (m, []).

(** The state a built-in extractor [e0] takes when the manager loads the
    stored events [stored] into it: those tagged with its class name. *)
Definition restoredSelf (stored : list StoredEvent) (e0 : BuiltIn.t) : BuiltIn.t :=
  BuiltIn.process
    (filter (fun event => se_extractorType event = BuiltIn.name e0) stored) e0.

(** The extractors of a listening manager are the default extractors
    restored from [stored]. *)
Definition restoredFrom (port : BrowserMetadataExtractor.MetadataPort)
    (stored : list StoredEvent) (m : ExtractorsManager.State BuiltIn.t) : Prop :=
  ExtractorsManager.extractors m
  = map (fun e0 => {| ExtractorsManager.self := restoredSelf stored e0;
                      ExtractorsManager.isListening := true |})
      (BuiltIn.DEFAULT_EXTRACTORS port).

(** The handler invocations one replayed event causes: the handlers
    registered for its type, in registration order, each with the
    event's data under the event's own timestamp. *)
Definition expectedDispatch {W} (listeners : ReplayEventAdapter.Listeners W)
    (ev : ReplayEvent) : list (nat * Payload) :=
  map (fun h => (ReplayEventAdapter.h_id h,
                 withTimestamp (re_timestamp ev) (re_data ev)))
    (default [] (ReplayEventAdapter.get (payloadType (re_data ev)) listeners)).

(** The invocation went to a handler other than [handler], or was for an
    event of another type than [evt]. *)
Definition notFor {W} (evt : EventType) (handler : ReplayEventAdapter.Handler W)
    (call : nat * Payload) : Prop :=
  fst call = ReplayEventAdapter.h_id handler -> payloadType (snd call) <> evt.

(** The invocation carries the type and the timestamp of one of the
    replayed events. *)
Definition stampedBy (events : list ReplayEvent) (call : nat * Payload) : Prop :=
  exists ev, In ev events
             /\ payloadType (snd call) = payloadType (re_data ev)
             /\ payloadTimestamp (snd call) = re_timestamp ev.

End Reference.

(** ** Concrete inputs used by the examples below *)

Module Samples.

Import Events FeatureExtractorBase ExtractorContract.

(** A custom extractor class for the examples: a probe that either
    throws in [extractFeatures] or reports one feature. *)
Inductive Probe : Set := Broken | Working.

#[global] Instance probe_extractor : FeatureExtractor Probe := {|
  constructorName _ := "Probe";
  extractFeatures p :=
    match p with
    | Broken => Throw "probe failed"
    | Working =>
        Normal (Some {| features := Some {[ "probeSeen" := FBool true ]}; hasData := true |})
    end;
  getDefaultFeatures _ := {[ "probeSeen" := FBool false; "probeLevel" := FNum 0 ]};
  processEvents _ p := p;
  getEventHandlers _ := []
|}.

Definition move (t x y : Z) : PointerPayload :=
  {| p_timestamp := t; p_x := x; p_y := y; p_button := 0 |}.

Definition key (t : Z) : KeyPayload :=
  {| k_timestamp := t; k_key := "a"; k_keyCode := 65;
     k_alt := false; k_ctrl := false; k_shift := false; k_meta := false |}.

Definition stored (t : Z) : StoredEvent :=
  {| se_id := None; se_type := mousemove; se_timestamp := t;
     se_data := PMouseMove (move t 0 0);
     se_extractorType := "MouseEventExtractor"; se_sessionId := None |}.

(** A storage with two buffered events and no flush under way. *)
Definition twoBuffered : BrowserEventStorage.State :=
  {| BrowserEventStorage.sessionId := "session-1";
     BrowserEventStorage.buffer := [stored 1; stored 2];
     BrowserEventStorage.isFlushPending := false;
     BrowserEventStorage.store := [] |}.

(** Three pointer samples, fewer than [MIN_MOVE_EVENTS]. *)
Definition threeMoves : list PointerPayload :=
  [move 100 0 0; move 150 30 40; move 200 60 80].

(** Five pointer samples that all carry the same timestamp. *)
Definition fiveSimultaneousMoves : list PointerPayload :=
  [move 100 0 0; move 100 1 0; move 100 2 0; move 100 3 0; move 100 4 0].

(** The events stamped 0, 10, 20 and 60. *)
Definition e0 : Throttle.Event := {| Throttle.ident := 0; Throttle.timestamp := 0 |}.
Definition e10 : Throttle.Event := {| Throttle.ident := 1; Throttle.timestamp := 10 |}.
Definition e20 : Throttle.Event := {| Throttle.ident := 2; Throttle.timestamp := 20 |}.
Definition e60 : Throttle.Event := {| Throttle.ident := 3; Throttle.timestamp := 60 |}.

(** The same pattern shifted by 100 ms. *)
Definition e100 : Throttle.Event := {| Throttle.ident := 0; Throttle.timestamp := 100 |}.
Definition e110 : Throttle.Event := {| Throttle.ident := 1; Throttle.timestamp := 110 |}.
Definition e120 : Throttle.Event := {| Throttle.ident := 2; Throttle.timestamp := 120 |}.
Definition e160 : Throttle.Event := {| Throttle.ident := 3; Throttle.timestamp := 160 |}.

(** A metadata snapshot with nothing but a platform. *)
Definition bareMetadata : BrowserMetadataExtractor.BrowserMetadata :=
  {| BrowserMetadataExtractor.devicePixelRatio := None;
     BrowserMetadataExtractor.screenResolution := None;
     BrowserMetadataExtractor.screenAvailResolution := None;
     BrowserMetadataExtractor.colorDepth := None;
     BrowserMetadataExtractor.plugins := None;
     BrowserMetadataExtractor.deviceMemory := None;
     BrowserMetadataExtractor.hardwareConcurrency := None;
     BrowserMetadataExtractor.touchSupport := None;
     BrowserMetadataExtractor.maxTouchPoints := None;
     BrowserMetadataExtractor.mediaDevicesCount := None;
     BrowserMetadataExtractor.platform := Some "Linux x86_64";
     BrowserMetadataExtractor.doNotTrack := None;
     BrowserMetadataExtractor.webdriver := None;
     BrowserMetadataExtractor.cookieEnabled := None;
     BrowserMetadataExtractor.timezoneOffset := None;
     BrowserMetadataExtractor.timeZone := None;
     BrowserMetadataExtractor.webglInfo := None |}.

(** A preprocessing function for the examples: it keeps no feature. *)
Definition dropAll (_ : option DetectionTypes.ModelParameters)
    (_ : gmap string FeatureValue) : gmap string FeatureValue := ∅.

(** A string conversion for the examples, none of which multiplies a
    string: no string reads as a number. *)
Definition noNumericString : Js.StringToNumber := fun _ => Js.NaN.



(** Options naming the two probe classes, with the default auto start. *)
Definition probeOptions : AgentDetector.Options Probe :=
  {| AgentDetector.onDetection := None;
     AgentDetector.opt_debug := None;
     AgentDetector.extractorClasses :=
       Some [ (fun _ => AgentDetector.OfCustom Broken);
              (fun _ => AgentDetector.OfCustom Working) ];
     AgentDetector.autoStart := None |}.

(** [init({})]: no callback, no custom class, default auto start. *)
Definition emptyOptions : AgentDetector.Options Probe :=
  {| AgentDetector.onDetection := None;
     AgentDetector.opt_debug := None;
     AgentDetector.extractorClasses := None;
     AgentDetector.autoStart := None |}.

(** A detector on which [init] has not been called. *)
Definition freshDetector : AgentDetector.State Probe :=
  AgentDetector.constructor (Normal bareMetadata).

(** The detector of a replay environment whose snapshot holds
    [bareMetadata], as [init] leaves it: initialised with the default
    extractors, marked active, its listeners not armed yet. *)
Definition replayDetector : AgentDetector.State Probe :=
  snd (AgentDetector.init emptyOptions freshDetector).

(** The same detector once the storage, which holds no event, has
    answered and the listeners are armed. *)
Definition listeningDetector : AgentDetector.State Probe :=
  AgentDetector.startListeningSettles (Normal []) replayDetector.

(** The detector [init] leaves for the probe options. *)
Definition probeDetector : AgentDetector.State Probe :=
  snd (AgentDetector.init probeOptions freshDetector).

(** The probe options with a result callback that throws. *)
Definition throwingCallbackOptions : AgentDetector.Options Probe :=
  {| AgentDetector.onDetection := Some (fun _ => Throw "callback failed");
     AgentDetector.opt_debug := None;
     AgentDetector.extractorClasses :=
       Some [ (fun _ => AgentDetector.OfCustom Broken);
              (fun _ => AgentDetector.OfCustom Working) ];
     AgentDetector.autoStart := None |}.

Definition throwingCallbackDetector : AgentDetector.State Probe :=
  snd (AgentDetector.init throwingCallbackOptions freshDetector).


(** Key presses every 100 ms. *)
Definition steadyKeys : list KeyPayload := [key 0; key 100; key 200; key 300].

(** A mock storage of the session ["replay-7"]. *)
Definition mockStorage : MockEventStorage.State :=
  MockEventStorage.constructor (Some "replay-7") "session-0-0".

(** Three stored events, stamped 40, 50 and 60, held by a browser
    storage and by a mock storage. *)
Definition threeStored : list StoredEvent := [stored 40; stored 50; stored 60].

Definition browserWithThree : BrowserEventStorage.State :=
  {| BrowserEventStorage.sessionId := "session-1";
     BrowserEventStorage.buffer := [];
     BrowserEventStorage.isFlushPending := false;
     BrowserEventStorage.store := threeStored |}.

Definition mockWithThree : MockEventStorage.State :=
  MockEventStorage.preloadEvents threeStored mockStorage.

(** A manager of the default extractors that has not started, and the
    same manager listening, with no stored event to load. *)
Definition idleManager : ExtractorsManager.State BuiltIn.t :=
  ExtractorsManager.initExtractors (BuiltIn.DEFAULT_EXTRACTORS (Normal bareMetadata))
    ExtractorsManager.create.

Definition listeningManager : ExtractorsManager.State BuiltIn.t :=
  ExtractorsManager.startListening [] idleManager.

(** The pointer-move handler of the pointer-motion extractor. *)
Definition mouseHandler : ExtractorsManager.HandlerRef :=
  {| ExtractorsManager.extractorIndex := 1; ExtractorsManager.handlerIndex := 0 |}.


End Samples.

(** * Properties *)

(** ** Scoring *)

Section ScoringFacts.

Import FeatureExtractorBase DetectionTypes AgentDetector.
Local Open Scope R_scope.

Context `{Js.StringToNumber}.

Lemma logistic_pos (x : R) : 0 < 1 / (1 + exp (- x)).
Proof. pose proof (exp_pos (- x)). apply Rdiv_lt_0_compat; lra. Qed.

Lemma logistic_lt_1 (x : R) : 1 / (1 + exp (- x)) < 1.
Proof.
  pose proof (exp_pos (- x)) as He.
  assert (E : 1 / (1 + exp (- x)) * (1 + exp (- x)) = 1) by (field; lra).
  apply (Rmult_lt_reg_r (1 + exp (- x))); lra.
Qed.

Lemma logistic_monotone (x y : R) :
  x <= y -> 1 / (1 + exp (- x)) <= 1 / (1 + exp (- y)).
Proof.
  intros Hxy.
  pose proof (exp_pos (- x)) as Hx. pose proof (exp_pos (- y)) as Hy.
  assert (Hexp : exp (- y) <= exp (- x)).
  { destruct Hxy as [Hlt| ->]; [|lra]. left. apply exp_increasing. lra. }
  unfold Rdiv. rewrite !Rmult_1_l. apply Rinv_le_contravar; lra.
Qed.

(** On a number the sigmoid is the logistic function. *)
Lemma sigmoid_Num (x : R) :
  MathUtils.sigmoid (Js.Num x) = Js.Num (1 / (1 + exp (- x))).
Proof. reflexivity. Qed.

Lemma sigmoid_NaN : MathUtils.sigmoid Js.NaN = Js.NaN.
Proof. reflexivity. Qed.

Lemma atLeastHalf_Num (p : R) : atLeastHalf (Js.Num p) = true <-> 1 / 2 <= p.
Proof.
  unfold atLeastHalf, Js.ge. destruct (Rle_dec (1 / 2) p); split; intros; try done.
Qed.

(** Over names that read as a number or as [undefined], the loop adds
    onto its accumulator the terms of the present names. *)
Lemma fold_addContribution (ws : list (string * R)) (features : gmap string FeatureValue)
    (acc : R) :
  Forall (fun entry => Reference.numberOrAbsent features (fst entry) = true) ws ->
  fold_left (addContribution features) ws (Js.Num acc)
  = Js.Num (acc + Reference.total (Reference.presentTerms ws features)).
Proof.
  intros Hws. revert acc.
  induction Hws as [|[name w] ws Hentry _ IH]; intros acc; simpl.
  - unfold Reference.presentTerms, Reference.presentEntries. simpl. f_equal. lra.
  - unfold Reference.presentTerms, Reference.presentEntries in *.
    rewrite filter_cons. simpl in *.
    unfold addContribution, Js.get, Reference.numberOrAbsent in *. simpl in *.
    destruct (features !! name) as [[r| | |]|] eqn:Hv; try discriminate Hentry.
    + rewrite decide_True by eauto. simpl. rewrite IH.
      unfold Reference.valueOf. rewrite Hv. f_equal. lra.
    + rewrite decide_False by (intros [? ?]; discriminate).
      apply negb_true_iff in Hentry. rewrite Hentry. apply IH.
Qed.

(** A weighted name that is absent from the vector changes nothing. *)
Lemma presentTerms_absent (ws1 ws2 : list (string * R)) (name : string) (w : R)
    (features : gmap string FeatureValue) :
  features !! name = None ->
  Reference.presentTerms (ws1 ++ (name, w) :: ws2) features
  = Reference.presentTerms (ws1 ++ ws2) features.
Proof.
  intros Habs. unfold Reference.presentTerms, Reference.presentEntries.
  rewrite !filter_app, filter_cons. simpl.
  rewrite decide_False; [reflexivity|]. rewrite Habs. intros [? ?]; discriminate.
Qed.


(** X26. When every weighted name reads from the vector as a number or
    as [undefined], the score is the logistic function of the bias plus
    the sum of [weight[name] * value[name]] over the names present in
    the vector, an absent name contributing nothing; the score lies in
    [[0,1]] and [isAgent] holds exactly when it is at least one half. *)
Theorem scoreFeatures_linear_sigmoid (mp : ModelParameters)
    (features : gmap string FeatureValue) :
  Forall (fun entry => Reference.numberOrAbsent features (fst entry) = true) (weights mp) ->
  exists result probability,
    scoreFeatures (Some mp) features = Normal result
    /\ score result = Js.Num probability
    /\ probability = 1 / (1 + exp (- Reference.linearScore mp features))
    /\ 0 <= probability <= 1
    /\ (isAgent result = true <-> 1 / 2 <= probability)
    /\ DetectionTypes.features result = features.
Proof.
  intros Hws. eexists. eexists. split; [reflexivity|]. simpl.
  unfold linearSumOf. rewrite (fold_addContribution _ _ _ Hws), sigmoid_Num.
  fold (Reference.linearScore mp features).
  split; [reflexivity|]. split; [reflexivity|].
  pose proof (logistic_pos (Reference.linearScore mp features)).
  pose proof (logistic_lt_1 (Reference.linearScore mp features)).
  split; [lra|]. split; [apply atLeastHalf_Num|reflexivity].
Qed.

End ScoringFacts.

(** ** Pointer motion *)

Section PointerMotionFacts.

Import Events FeatureExtractorBase MouseEventExtractor.

(** Below [MIN_MOVE_EVENTS] the guard returns the default features as
    they are. *)
Lemma extractFeatures_few (moves : list PointerPayload) :
  (length moves < MIN_MOVE_EVENTS)%nat ->
  extractFeatures moves = {| features := getDefaultFeatures; hasData := false |}.
Proof.
  intros Hlen. unfold extractFeatures.
  apply Nat.ltb_lt in Hlen. rewrite Hlen. reflexivity.
Qed.

(** C2. With three recorded samples the extractor reports
    [hasData = false] and the sentinel speeds, and its [mouseMoveCount]
    is [0], not the number of recorded samples. *)
Theorem few_samples_count_is_zero :
  length Samples.threeMoves = 3%nat
  /\ hasData (extractFeatures Samples.threeMoves) = false
  /\ avgSpeed (features (extractFeatures Samples.threeMoves)) = (-1)%R
  /\ stdSpeed (features (extractFeatures Samples.threeMoves)) = (-1)%R
  /\ idleCount (features (extractFeatures Samples.threeMoves)) = (-1)%Z
  /\ mouseMoveCount (features (extractFeatures Samples.threeMoves)) = 0%Z
  /\ mouseMoveCount (features (extractFeatures Samples.threeMoves))
     <> Z.of_nat (length Samples.threeMoves).
Proof.
  rewrite extractFeatures_few by (simpl; unfold MIN_MOVE_EVENTS; lia).
  simpl. repeat split; discriminate.
Qed.

(** Without a positive time delta the loop records no speed. *)
Lemma scanFrom_no_speed (prev : PointerPayload) (rest : list PointerPayload) (a : Scan) :
  Reference.noPositiveDeltaFrom prev rest = true ->
  speeds (scanFrom prev rest a) = speeds a.
Proof.
  revert prev a. induction rest as [|curr rest IH]; intros prev a Hno; simpl.
  - reflexivity.
  - simpl in Hno. apply andb_true_iff in Hno as [Hdelta Hrest].
    rewrite IH by assumption. unfold scanStep. simpl.
    apply negb_true_iff in Hdelta. rewrite Hdelta. reflexivity.
Qed.

(** C10. With at least five samples and no strictly positive time delta
    between consecutive samples, the extractor reports [hasData = false]
    with the sentinel speed features and the true number of samples as
    [mouseMoveCount]. *)
Theorem no_speed_keeps_true_count (moves : list PointerPayload) :
  (MIN_MOVE_EVENTS <= length moves)%nat ->
  Reference.noPositiveDelta moves = true ->
  extractFeatures moves
  = {| features :=
         {| avgSpeed := (-1)%R; stdSpeed := (-1)%R; idleCount := (-1)%Z;
            mouseMoveCount := Z.of_nat (length moves) |};
       hasData := false |}.
Proof.
  intros Hlen Hno. unfold extractFeatures.
  assert (Hguard : (length moves <? MIN_MOVE_EVENTS)%nat = false)
    by (apply Nat.ltb_ge; exact Hlen).
  rewrite Hguard.
  destruct moves as [|first rest].
  - simpl in Hlen. unfold MIN_MOVE_EVENTS in Hlen. lia.
  - simpl in Hno. rewrite scanFrom_no_speed by assumption. reflexivity.
Qed.

Lemma no_speed_keeps_true_count_witness :
  (MIN_MOVE_EVENTS <= length Samples.fiveSimultaneousMoves)%nat
  /\ Reference.noPositiveDelta Samples.fiveSimultaneousMoves = true
  /\ extractFeatures Samples.fiveSimultaneousMoves
     = {| features :=
            {| avgSpeed := (-1)%R; stdSpeed := (-1)%R; idleCount := (-1)%Z;
               mouseMoveCount := 5%Z |};
          hasData := false |}.
Proof.
  split; [unfold MIN_MOVE_EVENTS; simpl; lia|].
  split; [reflexivity|].
  apply (no_speed_keeps_true_count Samples.fiveSimultaneousMoves).
  - unfold MIN_MOVE_EVENTS; simpl; lia.
  - reflexivity.
Defined.

End PointerMotionFacts.

(** ** Event throttle *)

Section ThrottleFacts.

Import Throttle.
Local Open Scope Z_scope.

(** The leading edge: an event is handled at once, and the pending
    payload cleared, when the last processed timestamp is still [0] or
    the gap since it reaches the window. *)
Lemma onEvent_leading (w : Z) (p : Event) (s : State) :
  lastProcessedTimestamp s = 0 \/ w <= timestamp p - lastProcessedTimestamp s ->
  onEvent w p s
  = {| lastProcessedTimestamp := timestamp p; pendingEvent := None;
       timers := timers s; invoked := invoked s ++ [p] |}.
Proof.
  intros Hlead. unfold onEvent.
  assert (Htest : (lastProcessedTimestamp s =? 0)
                  || (w <=? timestamp p - lastProcessedTimestamp s) = true).
  { apply orb_true_iff. destruct Hlead as [H0|Hgap].
    - left. apply Z.eqb_eq. exact H0.
    - right. apply Z.leb_le. exact Hgap. }
  rewrite Htest. reflexivity.
Qed.

(** Inside the window the event only becomes the pending one. *)
Lemma onEvent_trailing (w : Z) (p : Event) (s : State) :
  lastProcessedTimestamp s <> 0 ->
  timestamp p - lastProcessedTimestamp s < w ->
  invoked (onEvent w p s) = invoked s /\ pendingEvent (onEvent w p s) = Some p.
Proof.
  intros Hne Hgap. unfold onEvent.
  apply Z.eqb_neq in Hne. apply Z.leb_gt in Hgap. rewrite Hne, Hgap. simpl. auto.
Qed.

Lemma step_invoked_grows (w : Z) (a : Action) (s : State) :
  exists more, invoked (step w a s) = invoked s ++ more.
Proof.
  destruct a as [p|p]; simpl.
  - unfold onEvent. destruct (_ || _); simpl.
    + eexists; reflexivity.
    + exists []. rewrite app_nil_r. reflexivity.
  - destruct (removeTimer p (timers s)) as [rest|].
    + unfold onTimeout. simpl. destruct (pendingEvent s) as [pe|]; simpl.
      * destruct (sameObject pe p); simpl.
        -- eexists; reflexivity.
        -- exists []. rewrite app_nil_r. reflexivity.
      * exists []. rewrite app_nil_r. reflexivity.
    + exists []. rewrite app_nil_r. reflexivity.
Qed.

(** Handler invocations are never taken back. *)
Lemma run_invoked_grows (w : Z) (schedule : list Action) (s : State) :
  exists more, invoked (run w schedule s) = invoked s ++ more.
Proof.
  unfold run. revert s. induction schedule as [|a schedule IH]; intros s; simpl.
  - exists []. rewrite app_nil_r. reflexivity.
  - destruct (IH (step w a s)) as [more2 H2].
    destruct (step_invoked_grows w a s) as [more1 H1].
    exists (more1 ++ more2). rewrite H2, H1, app_assoc. reflexivity.
Qed.

(** With no timer scheduled, whatever runs before the next arrival
    leaves the state alone. *)
Lemma run_to_next_arrival (w : Z) (schedule : list Action) (s : State)
    (a : Event) (rest : list Event) :
  timers s = [] ->
  arrivals schedule = a :: rest ->
  exists schedule',
    arrivals schedule' = rest /\ run w schedule s = run w schedule' (onEvent w a s).
Proof.
  intros Hidle. revert s Hidle.
  induction schedule as [|[p|p] schedule IH]; intros s Hidle Harr; simpl in Harr.
  - discriminate.
  - injection Harr as -> Hrest. exists schedule. split; [exact Hrest|reflexivity].
  - destruct (IH s Hidle Harr) as [schedule' [Hrest Hrun]].
    exists schedule'. split; [exact Hrest|].
    simpl. rewrite Hidle. simpl. exact Hrun.
Qed.

(** However timers and arrivals interleave, once the event stamped [0]
    was handled the next event is handled on arrival as well: the
    handler sees the first two events one after the other. *)
Lemma zero_stamp_second_event_leads (w : Z) (schedule : list Action)
    (first second : Event) (rest : list Event) :
  timestamp first = 0 ->
  arrivals schedule = first :: second :: rest ->
  exists more, invoked (run w schedule initial) = first :: second :: more.
Proof.
  intros Hzero Harr.
  destruct (run_to_next_arrival w schedule initial first (second :: rest) eq_refl Harr)
    as [schedule1 [Harr1 Hrun1]].
  rewrite Hrun1, onEvent_leading by (left; reflexivity). simpl.
  set (s1 := {| lastProcessedTimestamp := timestamp first; pendingEvent := None;
                timers := []; invoked := [first] |}).
  destruct (run_to_next_arrival w schedule1 s1 second rest eq_refl Harr1)
    as [schedule2 [_ Hrun2]].
  rewrite Hrun2, onEvent_leading by (left; exact Hzero). simpl.
  set (s2 := {| lastProcessedTimestamp := timestamp second; pendingEvent := None;
                timers := []; invoked := [first; second] |}).
  destruct (run_invoked_grows w schedule2 s2) as [more Hmore].
  exists more. rewrite Hmore. reflexivity.
Qed.

(** C7. For the 50 ms window and the events stamped 0, 10, 20 and 60:
    when the deferred flush of the event stamped 20 runs before the
    event stamped 60 arrives, the handler is invoked four times, for 0,
    10, 20 and 60; when all events are handed over before any timer
    runs, it is invoked for 0, 10 and 60 and the event stamped 20 is
    dropped.  The same pattern 100 ms later gives the
    three invocations 100, 120 and 160. *)
Theorem throttle_zero_stamp_example :
  invoked (run 50
             [Arrive Samples.e0; Arrive Samples.e10; Arrive Samples.e20;
              Fire Samples.e20; Arrive Samples.e60; Fire Samples.e60] initial)
  = [Samples.e0; Samples.e10; Samples.e20; Samples.e60]
  /\ invoked (runSync 50 [Samples.e0; Samples.e10; Samples.e20; Samples.e60] initial)
     = [Samples.e0; Samples.e10; Samples.e60]
  /\ invoked (run 50
                [Arrive Samples.e100; Arrive Samples.e110; Arrive Samples.e120;
                 Fire Samples.e110; Fire Samples.e120; Arrive Samples.e160;
                 Fire Samples.e160] initial)
     = [Samples.e100; Samples.e120; Samples.e160].
Proof. repeat split. Qed.

(** No interleaving yields the invocations 0, 20, 60 for that input. *)
Lemma throttle_zero_stamp_never_trailing (schedule : list Action) :
  arrivals schedule = [Samples.e0; Samples.e10; Samples.e20; Samples.e60] ->
  invoked (run 50 schedule initial) <> [Samples.e0; Samples.e20; Samples.e60].
Proof.
  intros Harr.
  destruct (zero_stamp_second_event_leads 50 schedule Samples.e0 Samples.e10
              [Samples.e20; Samples.e60] eq_refl Harr) as [more Hmore].
  rewrite Hmore. discriminate.
Qed.

End ThrottleFacts.

(** ** Sorting by timestamp *)

Section SortFacts.

Context {A : Type} (key : A -> Z).

Lemma insertSorted_perm (e : A) (l : list A) :
  Permutation (e :: l) (JsArray.insertSorted key e l).
Proof.
  induction l as [|h t IH]; simpl.
  - reflexivity.
  - destruct (key e <? key h)%Z.
    + reflexivity.
    + rewrite perm_swap. constructor. exact IH.
Qed.

Lemma insertSorted_head (a e : A) (l : list A) :
  HdRel (JsArray.keyOrder key) a l ->
  JsArray.keyOrder key a e ->
  HdRel (JsArray.keyOrder key) a (JsArray.insertSorted key e l).
Proof.
  intros Hhd Hae. destruct l as [|h t]; simpl.
  - constructor. exact Hae.
  - destruct (key e <? key h)%Z; constructor.
    + exact Hae.
    + inversion Hhd; assumption.
Qed.

Lemma insertSorted_sorted (e : A) (l : list A) :
  Sorted (JsArray.keyOrder key) l ->
  Sorted (JsArray.keyOrder key) (JsArray.insertSorted key e l).
Proof.
  induction l as [|h t IH]; intros Hs; simpl.
  - repeat constructor.
  - inversion Hs as [|? ? Ht Hhd]; subst.
    destruct (key e <? key h)%Z eqn:Hlt.
    + constructor; [exact Hs|]. constructor.
      apply Z.ltb_lt in Hlt. unfold JsArray.keyOrder. lia.
    + constructor; [apply IH; exact Ht|].
      apply insertSorted_head; [exact Hhd|].
      apply Z.ltb_ge in Hlt. exact Hlt.
Qed.

Lemma fold_insertSorted (l acc : list A) :
  Sorted (JsArray.keyOrder key) acc ->
  Sorted (JsArray.keyOrder key) (fold_left (fun acc e => JsArray.insertSorted key e acc) l acc)
  /\ Permutation (l ++ acc) (fold_left (fun acc e => JsArray.insertSorted key e acc) l acc).
Proof.
  revert acc. induction l as [|e l IH]; intros acc Hs; simpl.
  - split; [exact Hs|reflexivity].
  - destruct (IH (JsArray.insertSorted key e acc)) as [Hsorted Hperm].
    + apply insertSorted_sorted. exact Hs.
    + split; [exact Hsorted|].
      rewrite <- Hperm, <- insertSorted_perm.
      apply Permutation_middle.
Qed.

(** [sortBy] returns its argument rearranged in non-decreasing key
    order. *)
Lemma sortBy_sorted (l : list A) : Sorted (JsArray.keyOrder key) (JsArray.sortBy key l).
Proof. apply fold_insertSorted. constructor. Qed.

Lemma sortBy_perm (l : list A) : Permutation l (JsArray.sortBy key l).
Proof.
  destruct (fold_insertSorted l []) as [_ Hperm]; [constructor|].
  rewrite app_nil_r in Hperm. exact Hperm.
Qed.

Lemma sortBy_length (l : list A) : length (JsArray.sortBy key l) = length l.
Proof. symmetry. apply Permutation_length, sortBy_perm. Qed.

End SortFacts.

(** ** Keyboard typing consistency *)

Section KeyboardFacts.

Import Events FeatureExtractorBase KeyboardEventExtractor.
Local Open Scope R_scope.

Lemma fold_left_Rplus_nonneg (xs : list R) (acc : R) :
  0 <= acc -> Forall (fun x => 0 <= x) xs -> 0 <= fold_left Rplus xs acc.
Proof.
  revert acc. induction xs as [|x xs IH]; intros acc Hacc Hall; simpl.
  - exact Hacc.
  - inversion Hall; subst. apply IH; [lra|assumption].
Qed.



(** The standard deviation of a single value is zero, so the guard on
    the number of intervals agrees with the population formula. *)
Lemma standardDeviation_single (x : R) : SimpleStatistics.standardDeviation [x] = 0.
Proof.
  unfold SimpleStatistics.standardDeviation, SimpleStatistics.variance,
    SimpleStatistics.mean, SimpleStatistics.sum.
  simpl. replace ((0 + (x - (0 + x) / 1) * (x - (0 + x) / 1)) / 1) with 0 by (field).
  apply sqrt_0.
Qed.


(** The per-burst value of the code is the coefficient of variation. *)
Lemma burstConsistency_is_cv (burst : list KeyPayload) :
  burstConsistency burst = Reference.coefficientOfVariation burst.
Proof.
  unfold burstConsistency, Reference.coefficientOfVariation, SimpleStatistics.mean.
  destruct (map IZR (intervalsOf burst)) as [|x [|y xs]] eqn:Hi.
  - simpl. unfold SimpleStatistics.sum. simpl.
    destruct (Rlt_dec 0 (0 / 0)) as [Hlt|_]; [|reflexivity].
    unfold Rdiv in Hlt. rewrite Rmult_0_l in Hlt. lra.
  - simpl length. cbv iota beta. simpl Nat.eqb. simpl Nat.ltb. cbv iota.
    rewrite standardDeviation_single. reflexivity.
  - reflexivity.
Qed.



Lemma splitFrom_nonempty (threshold : Z) (prev : KeyPayload) (rest : list KeyPayload) :
  Reference.splitFrom threshold prev rest <> [].
Proof.
  destruct rest as [|curr rest]; simpl; [discriminate|].
  destruct (_ <? _)%Z; [discriminate|].
  destruct (Reference.splitFrom threshold curr rest); discriminate.
Qed.

Lemma close_burst (groups : list (list KeyPayload)) (burst : list KeyPayload) :
  (if (1 <? length burst)%nat then groups ++ [burst] else groups)
  = groups ++ filter (fun b => (2 <= length b)%nat) [burst].
Proof.
  rewrite filter_cons, filter_nil.
  destruct (1 <? length burst)%nat eqn:Hlen.
  - apply Nat.ltb_lt in Hlen. rewrite decide_True by lia. reflexivity.
  - apply Nat.ltb_ge in Hlen. rewrite decide_False by lia. rewrite app_nil_r. reflexivity.
Qed.

(** The loop with its two accumulators computes the runs of
    [Reference.splitFrom] that have at least two events. *)
Lemma burstFrom_split (rest : list KeyPayload) :
  forall (prev : KeyPayload) (open : list KeyPayload) (groups : list (list KeyPayload)),
    let b := burstFrom prev rest
               {| burstGroups := groups; currentBurst := open ++ [prev] |} in
    (if (1 <? length (currentBurst b))%nat
     then burstGroups b ++ [currentBurst b] else burstGroups b)
    = groups ++ filter (fun b => (2 <= length b)%nat)
                  (Reference.attach open (Reference.splitFrom 3000 prev rest)).
Proof.
  induction rest as [|curr rest IH]; intros prev open groups; simpl.
  - apply close_burst.
  - unfold burstStep, TYPING_BURST_THRESHOLD_MS. simpl.
    destruct (3000 <? k_timestamp curr - k_timestamp prev)%Z eqn:Hgap.
    + pose proof (IH curr []
                    (if (1 <? length (open ++ [prev]))%nat
                     then groups ++ [open ++ [prev]] else groups)) as Hnext.
      simpl in Hnext. rewrite Hnext. simpl.
      rewrite close_burst, <- app_assoc. f_equal.
      rewrite (filter_cons _ (open ++ [prev])), filter_cons, filter_nil.
      destruct (Reference.splitFrom 3000 curr rest) as [|run runs] eqn:Hruns; simpl.
      * destruct (decide _); reflexivity.
      * destruct (decide (2 <= length (open ++ [prev]))%nat); reflexivity.
    + pose proof (IH curr (open ++ [prev]) groups) as Hnext.
      simpl in Hnext. rewrite Hnext. f_equal.
      destruct (Reference.splitFrom 3000 curr rest) as [|run runs] eqn:Hruns.
      * exfalso. exact (splitFrom_nonempty _ _ _ Hruns).
      * simpl. rewrite <- app_assoc. reflexivity.
Qed.

(** The burst groups of the code are the valid bursts. *)
Lemma burstGroupsOf_valid (keyEvents : list KeyPayload) :
  burstGroupsOf keyEvents = Reference.validBursts keyEvents.
Proof.
  unfold burstGroupsOf, Reference.validBursts, Reference.splitAtGaps.
  destruct (JsArray.sortBy k_timestamp keyEvents) as [|first rest]; [reflexivity|].
  pose proof (burstFrom_split rest first [] []) as Hsplit. simpl in Hsplit.
  rewrite Hsplit.
  destruct (Reference.splitFrom 3000 first rest) as [|run runs]; reflexivity.
Qed.


End KeyboardFacts.

(** ** Browser event storage *)

Section StorageFacts.

Import Events BrowserEventStorage.

Lemma push_all (during : list StoredEvent) (s : State) :
  fold_left (fun s e => push e s) during s
  = {| sessionId := sessionId s; buffer := buffer s ++ during;
       isFlushPending := isFlushPending s; store := store s |}.
Proof.
  revert s. induction during as [|e during IH]; intros s; simpl.
  - destruct s; simpl. rewrite app_nil_r. reflexivity.
  - rewrite IH. unfold push. simpl. rewrite <- app_assoc. reflexivity.
Qed.

(** C5. When the write of a flush fails, however many of its adds got
    through, the buffer becomes the post-clear buffer, that is the events
    pushed while the write was awaited, concatenated with itself; no
    event of the failed batch is put back.  The store gains the adds
    that were issued before the failure, which leave out at least the
    last event of the batch. *)
Theorem flush_failure_doubles_buffer (s : State) (during : list StoredEvent)
    (added : nat) :
  buffer s <> [] ->
  isFlushPending s = false ->
  buffer (flush (Rejected added) during s) = during ++ during
  /\ (forall e, In e (buffer (flush (Rejected added) during s)) -> In e during)
  /\ isFlushPending (flush (Rejected added) during s) = false
  /\ store (flush (Rejected added) during s)
     = store s ++ map (withSession (sessionId s)) (firstn added (removelast (buffer s))).
Proof.
  intros Hne Hidle. unfold flush. rewrite Hidle.
  destruct (buffer s) as [|b bs] eqn:Hbuf; [contradiction|].
  cbn [length Nat.eqb orb]. unfold storeEvents. cbn [length Nat.eqb].
  rewrite push_all. cbn [buffer store sessionId isFlushPending app].
  repeat split.
  intros e Hin. apply in_app_or in Hin. tauto.
Qed.

Lemma flush_failure_doubles_buffer_witness :
  buffer (flush (Rejected 1) [Samples.stored 3] Samples.twoBuffered)
  = [Samples.stored 3; Samples.stored 3]
  /\ ~ In (Samples.stored 1)
        (buffer (flush (Rejected 1) [Samples.stored 3] Samples.twoBuffered))
  /\ store (flush (Rejected 1) [Samples.stored 3] Samples.twoBuffered)
     = [withSession "session-1" (Samples.stored 1)].
Proof.
  destruct (flush_failure_doubles_buffer Samples.twoBuffered [Samples.stored 3] 1)
    as [Hbuf [Honly [_ Hstore]]].
  - simpl. discriminate.
  - reflexivity.
  - split; [exact Hbuf|]. split; [|exact Hstore].
    intros Hin. apply Honly in Hin. simpl in Hin.
    destruct Hin as [Heq|[]]. discriminate Heq.
Defined.

(** X13. A flush whose write succeeds moves exactly the buffered batch
    to the store, in order and stamped with the session id, and leaves
    in the buffer the events pushed while the write was awaited. *)
Lemma flush_success (s : State) (during : list StoredEvent) :
  buffer s <> [] ->
  isFlushPending s = false ->
  buffer (flush Written during s) = during
  /\ store (flush Written during s) = store s ++ map (withSession (sessionId s)) (buffer s).
Proof.
  intros Hne Hidle. unfold flush. rewrite Hidle.
  destruct (buffer s) as [|b bs] eqn:Hbuf; [contradiction|].
  simpl. rewrite push_all. simpl. split; reflexivity.
Qed.

End StorageFacts.

(** ** Extractors manager: registration and teardown *)

Section ManagerFacts.

Import Events FeatureExtractorBase ExtractorContract ExtractorsManager.

Context {E : Type} `{FeatureExtractor E}.

Lemma EventType_eqb_eq (a b : EventType) : EventType_eqb a b = true <-> a = b.
Proof. destruct a, b; simpl; split; intros Heq; try reflexivity; discriminate. Qed.

Lemma pushHandler_registrations (evt : EventType) (h : HandlerRef)
    (registered : list (EventType * list HandlerRef)) :
  Permutation (Reference.registrations (pushHandler evt h registered))
    (Reference.registrations registered ++ [(evt, h)]).
Proof.
  induction registered as [|[k hs] rest IH]; simpl.
  - reflexivity.
  - destruct (EventType_eqb k evt) eqn:Hk.
    + apply EventType_eqb_eq in Hk. subst k.
      unfold Reference.registrations. simpl. rewrite map_app. simpl.
      rewrite <- !app_assoc. apply Permutation_app_head.
      simpl. apply Permutation_cons_append.
    + unfold Reference.registrations in *. simpl.
      rewrite <- app_assoc. apply Permutation_app_head. exact IH.
Qed.

(** The handlers of one extractor, numbered from [j]. *)
Lemma registerFrom_calls (i : nat) (evts : list EventType) :
  forall (j : nat) (acc : list (EventType * list HandlerRef) * list PortCall),
  let ons := imap (fun j' evt => (evt, {| extractorIndex := i; handlerIndex := j + j' |}))
               evts in
  snd (registerFrom i j evts acc) = snd acc ++ map Reference.onCall ons
  /\ Permutation (Reference.registrations (fst (registerFrom i j evts acc)))
       (Reference.registrations (fst acc) ++ ons).
Proof.
  induction evts as [|evt evts IH]; intros j acc; cbv zeta.
  - simpl. rewrite !app_nil_r. split; reflexivity.
  - cbn [registerFrom]. rewrite imap_cons.
    destruct (IH (S j)
                (pushHandler evt {| extractorIndex := i; handlerIndex := j |} (fst acc),
                 snd acc ++ [On evt {| extractorIndex := i; handlerIndex := j |}]))
      as [Hcalls Hperm].
    cbn [fst snd] in Hcalls, Hperm.
    assert (Hshift :
              imap (fun j' evt0 =>
                      (evt0, {| extractorIndex := i; handlerIndex := S j + j' |})) evts
              = imap ((fun j' evt0 =>
                         (evt0, {| extractorIndex := i; handlerIndex := j + j' |})) ∘ S)
                  evts).
    { apply imap_ext. intros j' evt0 _. simpl. do 2 f_equal. lia. }
    rewrite Hshift in Hcalls, Hperm. rewrite Nat.add_0_r. split.
    + rewrite Hcalls. simpl. rewrite <- app_assoc. reflexivity.
    + rewrite Hperm, pushHandler_registrations, <- app_assoc. reflexivity.
Qed.

(** The handlers of the extractors, the first of which has index [i]. *)
Lemma registerAll_calls (xs : list (Extractor E)) :
  forall (i : nat) (acc : list (EventType * list HandlerRef) * list PortCall),
  let ons := concat (imap (fun i' x => Reference.handlersOf (i + i') (self x)) xs) in
  snd (registerAll i xs acc) = snd acc ++ map Reference.onCall ons
  /\ Permutation (Reference.registrations (fst (registerAll i xs acc)))
       (Reference.registrations (fst acc) ++ ons).
Proof.
  induction xs as [|x xs IH]; intros i acc; cbv zeta.
  - simpl. rewrite !app_nil_r. split; reflexivity.
  - cbn [registerAll]. rewrite imap_cons. cbn [concat].
    destruct (registerFrom_calls i (getRelevantEventTypes (self x)) 0 acc)
      as [Hcalls1 Hperm1].
    destruct (IH (S i) (registerFrom i 0 (getRelevantEventTypes (self x)) acc))
      as [Hcalls2 Hperm2].
    assert (Hshift :
              imap (fun i' x0 => Reference.handlersOf (S i + i') (self x0)) xs
              = imap ((fun i' x0 => Reference.handlersOf (i + i') (self x0)) ∘ S) xs).
    { apply imap_ext. intros i' x0 _. simpl. f_equal. lia. }
    rewrite Hshift in Hcalls2, Hperm2. rewrite Nat.add_0_r.
    unfold Reference.handlersOf at 1 3. split.
    + rewrite Hcalls2, Hcalls1, map_app, app_assoc. reflexivity.
    + rewrite Hperm2, Hperm1, app_assoc. reflexivity.
Qed.

Lemma teardownCalls_registrations (registered : list (EventType * list HandlerRef)) :
  teardownCalls registered = map Reference.offCall (Reference.registrations registered).
Proof.
  unfold teardownCalls, Reference.registrations.
  induction registered as [|[k hs] rest IH]; simpl; [reflexivity|].
  rewrite map_app, map_map, IH. reflexivity.
Qed.

(** The handlers depend on the extractors themselves, not on their
    [isListening] flags. *)
Lemma allHandlers_listening (flag : bool) (xs : list (Extractor E)) :
  Reference.allHandlers (map (fun x => {| self := self x; isListening := flag |}) xs)
  = Reference.allHandlers xs.
Proof.
  unfold Reference.allHandlers. f_equal.
  change (map (fun x => {| self := self x; isListening := flag |}) xs)
    with ((fun x => {| self := self x; isListening := flag |}) <$> xs).
  rewrite imap_fmap. apply imap_ext. intros i x _. reflexivity.
Qed.

(** What arming does: it makes one [on] call for every handler of every
    extractor, as they are once the stored events are loaded, and keeps
    exactly those handlers in its map. *)
Lemma arm_calls (allEvents : list StoredEvent) (m : State E) :
  portCalls (arm allEvents m)
  = portCalls m
    ++ map Reference.onCall (Reference.allHandlers (extractors (arm allEvents m)))
  /\ Permutation (Reference.registrations (registeredHandlers (arm allEvents m)))
       (Reference.allHandlers (extractors (arm allEvents m)))
  /\ isActive (arm allEvents m) = true.
Proof.
  unfold arm, finishStart, processLoaded, registerEventHandlers.
  cbn [extractors portCalls].
  destruct (registerAll_calls (map (loadInto allEvents) (extractors m)) 0
              ([], portCalls m)) as [Hcalls Hperm].
  destruct (registerAll 0 (map (loadInto allEvents) (extractors m)) ([], portCalls m))
    as [registered calls] eqn:Hreg.
  cbn [fst snd] in Hcalls, Hperm.
  cbn [extractors portCalls registeredHandlers isActive].
  rewrite allHandlers_listening. unfold Reference.allHandlers.
  repeat split; assumption.
Qed.

(** A call of [startListening()] on a manager with no other start in
    flight, followed by its two continuations, is the awaited call. *)
Lemma call_then_settle (allEvents : list StoredEvent) (m : State E) :
  awaitingStorage m = 0 ->
  awaitingLoad m = 0 ->
  startListeningSettles (Normal allEvents) (startListeningCall m)
  = startListening allEvents m.
Proof.
  intros Hstorage Hload. destruct m as [xs active registered calls storage load].
  cbn [awaitingStorage awaitingLoad] in Hstorage, Hload. subst storage load.
  unfold startListeningCall, startListening, startListeningSettles,
    loadAndProcessEventsResumes, startListeningResumes.
  cbn [isActive]. destruct active; [reflexivity|].
  cbn [setAwaiting awaitingStorage awaitingLoad processLoaded extractors isActive
         registeredHandlers portCalls].
  unfold arm, finishStart, processLoaded, registerEventHandlers, setAwaiting.
  cbn [extractors isActive registeredHandlers portCalls awaitingStorage awaitingLoad].
  destruct (registerAll 0 (map (loadInto allEvents) xs) ([], calls)); reflexivity.
Qed.

(** X19. Starting an idle manager (the call awaited) makes one [on] call
    for every handler of every extractor, in extractor order; stopping
    it afterwards makes one [off] call for each of these handlers, under
    the same event types, and leaves no handler registered. *)
Theorem start_then_stop_unregisters_all (allEvents : list StoredEvent) (m : State E) :
  isActive m = false ->
  portCalls (startListening allEvents m)
  = portCalls m
    ++ map Reference.onCall
         (Reference.allHandlers (extractors (startListening allEvents m)))
  /\ (exists offs,
        Permutation (Reference.allHandlers (extractors (startListening allEvents m))) offs
        /\ portCalls (stopListening (startListening allEvents m))
           = portCalls (startListening allEvents m) ++ map Reference.offCall offs)
  /\ registeredHandlers (stopListening (startListening allEvents m)) = []
  /\ isActive (stopListening (startListening allEvents m)) = false.
Proof.
  intros Hidle. unfold startListening. rewrite Hidle.
  destruct (arm_calls allEvents m) as (Hcalls & Hperm & Hon).
  split; [exact Hcalls|].
  unfold stopListening. rewrite Hon.
  cbn [negb unregisterEventHandlers registeredHandlers isActive portCalls].
  split; [|split; reflexivity].
  exists (Reference.registrations (registeredHandlers (arm allEvents m))).
  split; [symmetry; exact Hperm|].
  rewrite teardownCalls_registrations. reflexivity.
Qed.

(** X20. Once the manager has stopped listening, an event that still
    reaches one of its handlers (a deferred throttle flush, say) changes
    no extractor and is not handed to the storage. *)
Theorem late_event_is_ignored (h : HandlerRef) (payload : Payload) (m : State E) :
  isActive m = true ->
  storeAndHandleEvent h payload (stopListening m) = (stopListening m, None).
Proof.
  intros Hon. unfold stopListening at 1. rewrite Hon. cbn [negb].
  unfold storeAndHandleEvent.
  cbn [extractors unregisterEventHandlers].
  rewrite list_lookup_fmap.
  destruct (extractors m !! extractorIndex h) as [x|]; cbn [fmap option_fmap option_map].
  - cbn [self isListening].
    destruct (getEventHandlers (self x) !! handlerIndex h) as [[evt handler]|];
      unfold stopListening; rewrite Hon; reflexivity.
  - unfold stopListening; rewrite Hon; reflexivity.
Qed.

End ManagerFacts.

Section ManagerExamples.

Import Events ExtractorsManager.

Lemma start_then_stop_unregisters_all_witness :
  portCalls (startListening [] Samples.idleManager)
  = [ On mousemove {| extractorIndex := 1; handlerIndex := 0 |};
      On keydown {| extractorIndex := 2; handlerIndex := 0 |};
      On scroll {| extractorIndex := 3; handlerIndex := 0 |};
      On mousemove {| extractorIndex := 4; handlerIndex := 0 |};
      On click {| extractorIndex := 4; handlerIndex := 1 |} ]
  /\ (exists offs,
        Permutation
          (Reference.allHandlers (extractors (startListening [] Samples.idleManager)))
          offs
        /\ portCalls (stopListening (startListening [] Samples.idleManager))
           = portCalls (startListening [] Samples.idleManager)
             ++ map Reference.offCall offs)
  /\ registeredHandlers (stopListening (startListening [] Samples.idleManager)) = []
  /\ isActive (stopListening (startListening [] Samples.idleManager)) = false.
Proof.
  destruct (start_then_stop_unregisters_all [] Samples.idleManager eq_refl)
    as (Hon & Hoff & Hreg & Hact).
  split; [rewrite Hon; reflexivity|].
  split; [exact Hoff|]. split; [exact Hreg|exact Hact].
Defined.

Lemma late_event_is_ignored_witness :
  storeAndHandleEvent Samples.mouseHandler (PMouseMove (Samples.move 7 1 2))
    (stopListening Samples.listeningManager)
  = (stopListening Samples.listeningManager, None).
Proof.
  apply (late_event_is_ignored Samples.mouseHandler (PMouseMove (Samples.move 7 1 2))
           Samples.listeningManager).
  reflexivity.
Defined.

End ManagerExamples.

(** ** Detection cycle and lifecycle *)

Section DetectorFacts.

Import Events FeatureExtractorBase ExtractorContract DetectionTypes AgentDetector.

Context {C : Type} `{FeatureExtractor C} `{Js.StringToNumber}.
Context (preprocessFeatures :
           option ModelParameters -> gmap string FeatureValue
           -> gmap string FeatureValue).

(** Logging changes nothing but the log. *)
Lemma logErrors_fields (messages : list (option string)) (d : State C) :
  initialized (logErrors messages d) = initialized d
  /\ modelParameters (logErrors messages d) = modelParameters d
  /\ onDetectionCallback (logErrors messages d) = onDetectionCallback d
  /\ extractorsManager (logErrors messages d) = extractorsManager d
  /\ isDetectionActive (logErrors messages d) = isDetectionActive d
  /\ isDetectionFinalizing (logErrors messages d) = isDetectionFinalizing d.
Proof.
  revert d. induction messages as [|[m|] messages IH]; intros d; simpl.
  - repeat split.
  - destruct (IH (log ERROR m d)) as (H1 & H2 & H3 & H4 & H5 & H6).
    unfold logErrors in *. rewrite H1, H2, H3, H4, H5, H6. repeat split.
  - apply IH.
Qed.

(** With the model loaded the extraction phase always succeeds. *)
Lemma extractFeaturesAll_completes (d : State C) :
  is_Some (modelParameters d) ->
  exists messages,
    extractFeaturesAll d = (Normal (combine (outcomes d)), logErrors messages d).
Proof.
  intros [mp Hmp]. unfold extractFeaturesAll. rewrite Hmp.
  eexists. unfold outcomes. rewrite map_map. reflexivity.
Qed.

(** A cycle on a detector with a loaded model scores the preprocessed
    merge of the outcomes and only adds to the log; nothing but the
    result callback can make it throw. *)
Lemma performDetection_outcome (d : State C) :
  is_Some (modelParameters d) ->
  exists result messages,
    scoreFeatures (modelParameters d)
      (preprocessFeatures (modelParameters d) (combine (outcomes d)))
    = Normal result
    /\ _performDetection preprocessFeatures d
       = (Reference.afterCallback (onDetectionCallback d) result, logErrors messages d).
Proof.
  intros Hmp.
  destruct (extractFeaturesAll_completes d Hmp) as [messages Hex].
  destruct (logErrors_fields messages d) as (_ & Hmodel & Hcall & _).
  unfold _performDetection. rewrite Hex, Hmodel, Hcall.
  destruct Hmp as [mp Hmp]. rewrite Hmp. cbn [scoreFeatures].
  eexists _, messages. split; [reflexivity|].
  unfold Reference.afterCallback.
  destruct (onDetectionCallback d) as [callback|]; [|reflexivity].
  match goal with
  | |- context [callback ?r] => destruct (callback r)
  end; reflexivity.
Qed.


(** Every value of the merged vector: the value of the last extractor,
    in order, whose own values or defaults hold the name. *)
Lemma fold_combine_lastHolding (xs : list (ExtractorsManager.Extractor (AnyExtractor C)))
    (acc : gmap string FeatureValue) (k : string) :
  fold_left (fun combined result => o_features result ∪ combined)
    (map (fun x => fst (extractOne (ExtractorsManager.self x))) xs) acc !! k
  = match Reference.lastHolding k
            (map (fun x =>
                    Reference.over (producedBy (ExtractorsManager.self x))
                      (getDefaultFeatures (ExtractorsManager.self x))) xs) with
    | Some v => Some v
    | None => acc !! k
    end.
Proof.
  revert acc. induction xs as [|x xs IH]; intros acc; [reflexivity|].
  cbn [map fold_left Reference.lastHolding]. rewrite IH.
  destruct (Reference.lastHolding k _) as [v|]; [reflexivity|].
  rewrite lookup_union.
  unfold Reference.over. unfold extractOne, producedBy.
  destruct (extractFeatures (ExtractorsManager.self x)) as [featureResult|message];
    cbn [fst o_features].
  - rewrite lookup_union.
    destruct (default ∅ (featureResult ≫= FeatureExtractorBase.features) !! k);
      destruct (getDefaultFeatures (ExtractorsManager.self x) !! k);
      destruct (acc !! k); reflexivity.
  - rewrite lookup_empty.
    destruct (getDefaultFeatures (ExtractorsManager.self x) !! k);
      destruct (acc !! k); reflexivity.
Qed.

(** A failing extractor is replaced by its defaults, without data. *)
Lemma extractOne_failure (e : AnyExtractor C) (message : string) :
  extractFeatures e = Throw message ->
  fst (extractOne e)
  = {| o_features := getDefaultFeatures e; o_hasData := Some false; o_error := true |}.
Proof. intros Hthrow. unfold extractOne. rewrite Hthrow. reflexivity. Qed.

(** X11. When several extractors report the same feature name, the
    merged vector holds the value of the last of them in extractor
    order; a name the last extractor does not report keeps the value
    merged before. *)
Lemma combine_last (before : list ExtractionOutcome) (r : ExtractionOutcome) (k : string) :
  combine (before ++ [r]) !! k
  = match o_features r !! k with
    | Some v => Some v
    | None => combine before !! k
    end.
Proof.
  unfold combine. rewrite fold_left_app. simpl. rewrite lookup_union.
  destruct (o_features r !! k);
    destruct (fold_left _ before ∅ !! k); reflexivity.
Qed.




(** C3 (amended). On a detector that was not initialised,
    [getCurrentDetectionResult] and [finalizeDetection] fail with the
    error "AgentDetector not initialized. Call init() first." and leave
    the detector as it was; [startDetection] does not throw: it logs
    "Cannot start detection - not initialized." and returns without
    starting anything. *)
Theorem calls_before_init (d : State C) :
  initialized d = false ->
  getCurrentDetectionResult preprocessFeatures d
  = (Throw "AgentDetector not initialized. Call init() first.", d)
  /\ finalizeDetection preprocessFeatures d
     = (Throw "AgentDetector not initialized. Call init() first.", d)
  /\ startDetection d
     = (Normal tt, log ERROR "Cannot start detection - not initialized." d).
Proof.
  intros Hinit.
  unfold getCurrentDetectionResult, finalizeDetection, startDetection.
  rewrite Hinit. simpl. repeat split.
Qed.

(** C4 (amended). On an initialised detector with loaded model
    parameters, a cycle scores the preprocessed merged vector whatever
    the extractors do, and returns that result unless the result
    callback throws, in which case it fails with the callback's error.
    An extractor whose [extractFeatures] throws or rejects contributes
    its default features with [hasData = false].  Every value of the
    merged vector is the one of the last extractor, in order, that holds
    the name, and for each extractor that is the value it produced, or
    else its default. *)
Theorem extraction_failure_is_contained (d : State C) :
  initialized d = true ->
  is_Some (modelParameters d) ->
  (exists result d',
      scoreFeatures (modelParameters d)
        (preprocessFeatures (modelParameters d) (combine (outcomes d)))
      = Normal result
      /\ DetectionTypes.features result
         = preprocessFeatures (modelParameters d) (combine (outcomes d))
      /\ getCurrentDetectionResult preprocessFeatures d
         = (Reference.afterCallback (onDetectionCallback d) result, d'))
  /\ (forall k,
        combine (outcomes d) !! k
        = Reference.lastHolding k
            (map (fun x =>
                    Reference.over (producedBy (ExtractorsManager.self x))
                      (getDefaultFeatures (ExtractorsManager.self x)))
               (ExtractorsManager.getExtractors (extractorsManager d))))
  /\ Forall
       (fun x =>
          let e := ExtractorsManager.self x in
          forall message,
            extractFeatures e = Throw message ->
            fst (extractOne e)
            = {| o_features := getDefaultFeatures e;
                 o_hasData := Some false; o_error := true |})
       (ExtractorsManager.getExtractors (extractorsManager d)).
Proof.
  intros Hinit Hmp. split; [|split].
  - unfold getCurrentDetectionResult. rewrite Hinit. cbn [negb].
    set (d1 := if negb (isDetectionActive d) then log WARN _ d else d).
    assert (Hsame : modelParameters d1 = modelParameters d
                    /\ onDetectionCallback d1 = onDetectionCallback d
                    /\ outcomes d1 = outcomes d).
    { unfold d1. destruct (negb (isDetectionActive d)); repeat split. }
    destruct Hsame as (Hm & Hc & Ho).
    destruct (performDetection_outcome d1) as (result & messages & Hscore & Hrun).
    { rewrite Hm. exact Hmp. }
    rewrite Hm, Ho in Hscore. rewrite Hc in Hrun. rewrite Hrun.
    exists result.
    destruct (Reference.afterCallback (onDetectionCallback d) result) eqn:Hcb;
      eexists; (split; [exact Hscore|]); (split; [|reflexivity]);
      destruct Hmp as [mp Hmp]; rewrite Hmp in Hscore |- *;
      cbn [scoreFeatures] in Hscore; injection Hscore as <-; reflexivity.
  - intros k. unfold combine, outcomes.
    rewrite fold_combine_lastHolding, lookup_empty.
    destruct (Reference.lastHolding k _); reflexivity.
  - apply Forall_forall. intros x Hx. cbv zeta. apply extractOne_failure.
Qed.


(** C9 (amended). Replaying a snapshot without events returns at once,
    dispatches nothing and changes nothing; on the detector of that
    replay the pointer, keyboard, scroll and click extractors report
    [hasData = false], and the metadata extractor reports [hasData =
    true] exactly when the metadata fetch succeeds. *)
Theorem replay_without_events
    (listeners : ReplayEventAdapter.Listeners (State C))
    (metadataProvider : BrowserMetadataExtractor.MetadataPort)
    (onDetection : option (DetectionResult -> Completion unit))
    (debug autoStart : option bool) :
  let d :=
    snd (init {| AgentDetector.onDetection := onDetection; opt_debug := debug;
                 extractorClasses := None; AgentDetector.autoStart := autoStart |}
           (constructor metadataProvider)) in
  let replay := ReplayEventAdapter.start [] listeners d in
  ReplayEventAdapter.dispatched replay = []
  /\ ReplayEventAdapter.world replay = d
  /\ map o_hasData (outcomes (ReplayEventAdapter.world replay))
     = [Some (isNormal metadataProvider); Some false; Some false; Some false; Some false].
Proof.
  cbv zeta. split; [reflexivity|]. split; [reflexivity|].
  destruct autoStart as [[|]|]; destruct metadataProvider; reflexivity.
Qed.

End DetectorFacts.

(** ** The lifecycle on concrete detectors *)

Section DetectorExamples.

Import Events FeatureExtractorBase ExtractorContract DetectionTypes AgentDetector.

Local Existing Instance Samples.noNumericString.

(** C3 (counterexample). On a detector that was never initialised
    [startDetection] returns normally: no error reaches the caller. *)
Lemma startDetection_before_init_returns :
  initialized Samples.freshDetector = false
  /\ fst (startDetection Samples.freshDetector) = Normal tt
  /\ logged (snd (startDetection Samples.freshDetector))
     = [(ERROR, "Cannot start detection - not initialized.")].
Proof. repeat split. Qed.

Lemma calls_before_init_witness :
  initialized Samples.freshDetector = false
  /\ getCurrentDetectionResult Samples.dropAll Samples.freshDetector
     = (Throw "AgentDetector not initialized. Call init() first.", Samples.freshDetector)
  /\ finalizeDetection Samples.dropAll Samples.freshDetector
     = (Throw "AgentDetector not initialized. Call init() first.", Samples.freshDetector)
  /\ startDetection Samples.freshDetector
     = (Normal tt,
        log ERROR "Cannot start detection - not initialized." Samples.freshDetector).
Proof.
  split; [reflexivity|].
  apply (calls_before_init Samples.dropAll Samples.freshDetector).
  reflexivity.
Defined.

(** [init] with auto start leaves an initialised detector with the
    shipped model parameters that is marked active while its manager is
    not: the listeners are armed when the start it left suspended
    settles. *)
Lemma init_activates {C : Type} `{FeatureExtractor C}
    (options : Options C) (allEvents : list StoredEvent) (d : State C) :
  default true (autoStart options) = true ->
  let d' := snd (init options d) in
  initialized d' = true
  /\ modelParameters d' = Some MODEL_PARAMETERS
  /\ isDetectionActive d' = true
  /\ isDetectionFinalizing d' = false
  /\ ExtractorsManager.isActive (extractorsManager d') = false
  /\ ExtractorsManager.awaitingStorage (extractorsManager d') = 1%nat
  /\ ExtractorsManager.isActive
       (extractorsManager (startListeningSettles (Normal allEvents) d')) = true.
Proof.
  intros Hauto. unfold init. rewrite Hauto. repeat split.
Qed.

(** C4 (counterexample). On an initialised detector with the shipped
    model parameters, one of whose extractors throws, the cycle does not
    return a result when the result callback throws: it fails with the
    callback's error. *)
Lemma callback_failure_aborts_cycle :
  initialized Samples.throwingCallbackDetector = true
  /\ modelParameters Samples.throwingCallbackDetector = Some MODEL_PARAMETERS
  /\ (exists x,
        In x (ExtractorsManager.getExtractors
                (extractorsManager Samples.throwingCallbackDetector))
        /\ extractFeatures (ExtractorsManager.self x) = Throw "probe failed")
  /\ fst (getCurrentDetectionResult Samples.dropAll Samples.throwingCallbackDetector)
     = Throw "callback failed".
Proof.
  split; [reflexivity|]. split; [reflexivity|]. split; [|reflexivity].
  eexists. split; [left; reflexivity|reflexivity].
Qed.

Lemma extraction_failure_is_contained_witness :
  (exists x,
      In x (ExtractorsManager.getExtractors (extractorsManager Samples.probeDetector))
      /\ extractFeatures (ExtractorsManager.self x) = Throw "probe failed")
  /\ (exists result d',
        getCurrentDetectionResult Samples.dropAll Samples.probeDetector
        = (Normal result, d'))
  /\ combine (outcomes Samples.probeDetector) !! "probeSeen" = Some (FBool true)
  /\ combine (outcomes Samples.probeDetector) !! "probeLevel" = Some (FNum 0).
Proof.
  destruct (extraction_failure_is_contained Samples.dropAll Samples.probeDetector)
    as ((result & d' & _ & _ & Hrun) & Hmerged & _).
  - reflexivity.
  - eexists. reflexivity.
  - split; [eexists; split; [left; reflexivity|reflexivity]|].
    split; [exists result, d'; exact Hrun|].
    rewrite !Hmerged. split; reflexivity.
Defined.



(** C9 (counterexample). After the replay of a snapshot without events,
    on a detector whose metadata port resolves, one extractor, the
    metadata extractor, reports [hasData = true]. *)
Lemma replay_without_events_metadata_has_data :
  ReplayEventAdapter.dispatched (ReplayEventAdapter.start [] [] Samples.replayDetector) = []
  /\ map o_hasData
       (outcomes (ReplayEventAdapter.world
                    (ReplayEventAdapter.start [] [] Samples.replayDetector)))
     = [Some true; Some false; Some false; Some false; Some false].
Proof. split; reflexivity. Qed.

(** The default extractors register a handler for pointer moves (twice),
    key presses, scrolling and clicks, and the teardown removes each. *)
Example default_teardown_calls :
  ExtractorsManager.teardownCalls
    (ExtractorsManager.registeredHandlers (extractorsManager Samples.listeningDetector))
  = [ ExtractorsManager.Off mousemove
        {| ExtractorsManager.extractorIndex := 1; ExtractorsManager.handlerIndex := 0 |};
      ExtractorsManager.Off mousemove
        {| ExtractorsManager.extractorIndex := 4; ExtractorsManager.handlerIndex := 0 |};
      ExtractorsManager.Off keydown
        {| ExtractorsManager.extractorIndex := 2; ExtractorsManager.handlerIndex := 0 |};
      ExtractorsManager.Off scroll
        {| ExtractorsManager.extractorIndex := 3; ExtractorsManager.handlerIndex := 0 |};
      ExtractorsManager.Off click
        {| ExtractorsManager.extractorIndex := 4; ExtractorsManager.handlerIndex := 1 |} ].
Proof. reflexivity. Qed.

End DetectorExamples.

(** ** The extractors on small inputs *)

Section ExtractorExamples.

Import Events FeatureExtractorBase.

(** Scroll events 20 ms apart form an active run; 100 ms apart they do
    not. *)
Example active_scrolling_close :
  ScrollEventExtractor.computeHasActiveScrolling
    [ {| ScrollEventExtractor.timestamp := 0; ScrollEventExtractor.deltaY := 0 |};
      {| ScrollEventExtractor.timestamp := 20; ScrollEventExtractor.deltaY := 5 |};
      {| ScrollEventExtractor.timestamp := 40; ScrollEventExtractor.deltaY := 9 |} ]
  = true.
Proof. reflexivity. Qed.

Example active_scrolling_sparse :
  ScrollEventExtractor.computeHasActiveScrolling
    [ {| ScrollEventExtractor.timestamp := 0; ScrollEventExtractor.deltaY := 0 |};
      {| ScrollEventExtractor.timestamp := 100; ScrollEventExtractor.deltaY := 5 |};
      {| ScrollEventExtractor.timestamp := 200; ScrollEventExtractor.deltaY := 9 |} ]
  = false.
Proof. reflexivity. Qed.

(** Key presses out of order are sorted first; the gap of 4000 ms splits
    them into a burst of three and a burst of two, and a lone key press
    after another long gap is dropped. *)
Example bursts_of_unsorted_keys :
  map (map k_timestamp)
    (KeyboardEventExtractor.burstGroupsOf
       [ Samples.key 200; Samples.key 0; Samples.key 100;
         Samples.key 4300; Samples.key 4200; Samples.key 9000 ])
  = [[0; 100; 200]; [4200; 4300]]%Z.
Proof. reflexivity. Qed.

Example intervals_of_burst :
  KeyboardEventExtractor.intervalsOf [Samples.key 0; Samples.key 100; Samples.key 250]
  = [100; 150]%Z.
Proof. reflexivity. Qed.

(** Five samples with growing timestamps give data.  The pause of
    2500 ms is counted at the sample that ends it and, because that
    sample did not move and so did not advance the last-active
    timestamp, once more at the following sample. *)
Example mouse_with_data :
  let moves :=
    [ Samples.move 0 0 0; Samples.move 50 3 4; Samples.move 100 6 8;
      Samples.move 2600 6 8; Samples.move 2650 9 12 ] in
  hasData (MouseEventExtractor.extractFeatures moves) = true
  /\ MouseEventExtractor.idleCount (features (MouseEventExtractor.extractFeatures moves)) = 2%Z
  /\ MouseEventExtractor.mouseMoveCount (features (MouseEventExtractor.extractFeatures moves))
     = 5%Z.
Proof. cbv zeta. split; [reflexivity|]. split; reflexivity. Qed.

(** A mouse move reaches both the pointer-motion and the click
    extractor while they listen, and is handed to the storage. *)
Example dispatch_mouse_move :
  let m := AgentDetector.extractorsManager Samples.listeningDetector in
  let h := {| ExtractorsManager.extractorIndex := 1; ExtractorsManager.handlerIndex := 0 |} in
  let payload := PMouseMove (Samples.move 7 1 2) in
  (ExtractorsManager.self <$>
     ExtractorsManager.extractors (fst (ExtractorsManager.storeAndHandleEvent h payload m))
     !! 1%nat)
  = Some (AgentDetector.OfBuiltIn (BuiltIn.Mouse [Samples.move 7 1 2]))
  /\ (se_extractorType <$> snd (ExtractorsManager.storeAndHandleEvent h payload m))
     = Some "MouseEventExtractor".
Proof. split; reflexivity. Qed.

(** The default configuration throttles pointer moves with a 50 ms
    window and lets clicks through. *)
Example default_windows :
  Throttle.DEFAULT_THROTTLE_CONFIG mousemove = Some 50%Z
  /\ Throttle.DEFAULT_THROTTLE_CONFIG click = None
  /\ Throttle.invoked
       (Throttle.createThrottledEventHandler Throttle.DEFAULT_THROTTLE_CONFIG click
          Samples.e20
          (Throttle.createThrottledEventHandler Throttle.DEFAULT_THROTTLE_CONFIG click
             Samples.e10 Throttle.initial))
     = [Samples.e10; Samples.e20].
Proof. repeat split. Qed.

End ExtractorExamples.

(** ** Preprocessing helpers *)

Section MathUtilsFacts.

Local Open Scope R_scope.

(** X1. For a positive standard deviation [standardize] keeps the order
    of the values and maps the mean to [0]; for a zero standard
    deviation it returns [0] whatever the value. *)
Theorem standardize_monotone (value value' mean std : R) :
  0 < std ->
  value <= value' ->
  MathUtils.standardize value mean std <= MathUtils.standardize value' mean std
  /\ MathUtils.standardize mean mean std = 0
  /\ MathUtils.standardize value mean 0 = 0.
Proof.
  intros Hstd Hle. unfold MathUtils.standardize.
  destruct (Req_dec_T std 0) as [Hz|_]; [lra|].
  destruct (Req_dec_T 0 0) as [_|Hnz]; [|contradiction].
  split; [|split; [|reflexivity]].
  - unfold Rdiv. apply Rmult_le_compat_r; [|lra].
    left. apply Rinv_0_lt_compat. exact Hstd.
  - unfold Rdiv. rewrite Rminus_diag. apply Rmult_0_l.
Qed.

Lemma standardize_monotone_witness :
  MathUtils.standardize 3 3 2 <= MathUtils.standardize 5 3 2
  /\ MathUtils.standardize 3 3 2 = 0
  /\ MathUtils.standardize 3 3 0 = 0.
Proof. apply (standardize_monotone 3 5 3 2); lra. Defined.

Lemma fold_setNumber_lookup (f : string -> R) (l : list string)
    (acc : gmap string R) (k : string) :
  fold_left (fun m c => Js.setNumber c (f c) m) l acc !! k
  = if decide (k ∈ l /\ k <> "__proto__") then Some (f k) else acc !! k.
Proof.
  revert acc. induction l as [|c l IH]; intros acc; cbn [fold_left].
  - destruct (decide (k ∈ [] /\ k <> "__proto__")) as [[Hin _]|_]; [|reflexivity].
    apply elem_of_nil in Hin. destruct Hin.
  - rewrite IH. destruct (decide (k ∈ l /\ k <> "__proto__")) as [[Hin Hk]|Hout].
    + rewrite decide_True; [reflexivity|]. split; [right; exact Hin|exact Hk].
    + unfold Js.setNumber.
      destruct (String.eqb c "__proto__") eqn:Hc.
      * apply String.eqb_eq in Hc. subst c.
        rewrite decide_False; [reflexivity|].
        intros [Hin Hk]. apply elem_of_cons in Hin as [Heq|Hin]; [contradiction|].
        apply Hout. split; assumption.
      * apply String.eqb_neq in Hc.
        destruct (decide (k = c)) as [->|Hne].
        -- rewrite lookup_insert_eq. rewrite decide_True; [reflexivity|].
           split; [left|exact Hc].
        -- rewrite lookup_insert_ne by congruence.
           rewrite decide_False; [reflexivity|].
           intros [Hin Hk]. apply elem_of_cons in Hin as [Heq|Hin]; [contradiction|].
           apply Hout. split; assumption.
Qed.

Lemma includes_elem_of (value : string) (categories : list string) :
  existsb (String.eqb value) categories = true <-> value ∈ categories.
Proof.
  rewrite existsb_exists. split.
  - intros [x [Hin Heq]]. apply String.eqb_eq in Heq. subst.
    apply list_elem_of_In. exact Hin.
  - intros Hin. exists value. split; [apply list_elem_of_In; exact Hin|].
    apply String.eqb_refl.
Qed.

(** X2. The encoding has as keys the categories other than [__proto__],
    under which an assignment of a number creates no property; the key
    equal to the value holds [1] and every other key holds [0], so a
    value outside the categories gives zeros only. *)
Theorem oneHotEncode_lookup (value : string) (categories : list string) (k : string) :
  MathUtils.oneHotEncode value categories !! k
  = if decide (k ∈ categories /\ k <> "__proto__")
    then Some (if decide (k = value) then 1 else 0)
    else None.
Proof.
  unfold MathUtils.oneHotEncode.
  destruct (existsb (String.eqb value) categories) eqn:Hinc; simpl.
  - rewrite (fold_setNumber_lookup (fun cat => if String.eqb cat value then 1 else 0)).
    rewrite lookup_empty.
    destruct (decide (k ∈ categories /\ k <> "__proto__")); [|reflexivity].
    destruct (decide (k = value)) as [->|Hne].
    + rewrite String.eqb_refl. reflexivity.
    + apply String.eqb_neq in Hne. rewrite Hne. reflexivity.
  - rewrite (fold_setNumber_lookup (fun _ => 0)), lookup_empty.
    destruct (decide (k ∈ categories /\ k <> "__proto__")) as [[Hin _]|]; [|reflexivity].
    destruct (decide (k = value)) as [->|Hne]; [|reflexivity].
    apply includes_elem_of in Hin. congruence.
Qed.

Lemma toLower_snake (c : ascii) :
  MathUtils.isSpace c = false -> Reference.isSnakeChar (MathUtils.toLower c) = true.
Proof.
  destruct c as [[|] [|] [|] [|] [|] [|] [|] [|]]; intros Hs; try discriminate Hs;
    reflexivity.
Qed.

Lemma toLower_space (c : ascii) :
  MathUtils.isSpace (MathUtils.toLower c) = MathUtils.isSpace c.
Proof. destruct c as [[|] [|] [|] [|] [|] [|] [|] [|]]; reflexivity. Qed.

Lemma toLower_not_upper (c : ascii) : MathUtils.isUpper (MathUtils.toLower c) = false.
Proof. destruct c as [[|] [|] [|] [|] [|] [|] [|] [|]]; reflexivity. Qed.

Lemma collapseSpaces_snake (inRun : bool) (s : string) :
  Reference.allChars (fun c => negb (MathUtils.isUpper c)) s = true ->
  Reference.allChars Reference.isSnakeChar (MathUtils.collapseSpaces inRun s) = true.
Proof.
  revert inRun. induction s as [|c s IH]; intros inRun Hup; simpl in *.
  - reflexivity.
  - apply andb_true_iff in Hup as [Hc Hs].
    destruct (MathUtils.isSpace c) eqn:Hsp.
    + destruct inRun; simpl; auto.
    + simpl. rewrite IH by exact Hs. unfold Reference.isSnakeChar.
      rewrite Hc, Hsp. reflexivity.
Qed.

Lemma toLowerCase_no_upper (s : string) :
  Reference.allChars (fun c => negb (MathUtils.isUpper c)) (MathUtils.toLowerCase s) = true.
Proof.
  induction s as [|c s IH]; simpl; [reflexivity|].
  rewrite toLower_not_upper, IH. reflexivity.
Qed.

(** X3. The snake-case name of a string of ASCII characters holds no
    upper-case letter and no white space. *)
Theorem toSnakeCase_is_snake (str : string) :
  Reference.allChars Reference.isAsciiChar str = true ->
  Reference.allChars Reference.isSnakeChar (MathUtils.toSnakeCase str) = true.
Proof.
  intros _. unfold MathUtils.toSnakeCase.
  apply collapseSpaces_snake, toLowerCase_no_upper.
Qed.

Lemma toSnakeCase_is_snake_witness :
  Reference.allChars Reference.isAsciiChar "devicePixel Ratio" = true
  /\ MathUtils.toSnakeCase "devicePixel Ratio" = "device_pixel__ratio"
  /\ Reference.allChars Reference.isSnakeChar (MathUtils.toSnakeCase "devicePixel Ratio")
     = true.
Proof.
  split; [reflexivity|]. split; [reflexivity|].
  apply (toSnakeCase_is_snake "devicePixel Ratio"). reflexivity.
Defined.

Lemma snake_fixed_steps (s : string) :
  Reference.allChars Reference.isSnakeChar s = true ->
  MathUtils.underscoreCapitals s = s
  /\ MathUtils.toLowerCase s = s
  /\ MathUtils.collapseSpaces false s = s.
Proof.
  induction s as [|c s IH]; simpl; intros Hs; [auto|].
  apply andb_true_iff in Hs as [Hc Hs].
  unfold Reference.isSnakeChar in Hc. apply andb_true_iff in Hc as [Hup Hsp].
  apply negb_true_iff in Hup. apply negb_true_iff in Hsp.
  destruct (IH Hs) as (H1 & H2 & H3).
  unfold MathUtils.toLower. rewrite Hup, Hsp, H1, H2, H3. auto.
Qed.

(** X4. A name that is already in snake case (no upper-case letter, no
    white space) and does not start with an underscore is left as it
    is. *)
Theorem toSnakeCase_fixes_snake (str : string) :
  Reference.allChars Reference.isAsciiChar str = true ->
  Reference.allChars Reference.isSnakeChar str = true ->
  Reference.startsWithUnderscore str = false ->
  MathUtils.toSnakeCase str = str.
Proof.
  intros _ Hsnake Hlead. unfold MathUtils.toSnakeCase.
  destruct (snake_fixed_steps str Hsnake) as (H1 & H2 & H3).
  rewrite H1.
  assert (Hdrop : MathUtils.dropLeadingUnderscore str = str).
  { destruct str as [|c rest]; [reflexivity|].
    simpl in Hlead. unfold MathUtils.dropLeadingUnderscore.
    destruct c as [[|] [|] [|] [|] [|] [|] [|] [|]]; try reflexivity; discriminate Hlead. }
  rewrite Hdrop, H2, H3. reflexivity.
Qed.

Lemma toSnakeCase_fixes_snake_witness :
  MathUtils.toSnakeCase "max_touch_points" = "max_touch_points"
  /\ MathUtils.toSnakeCase "__a" = "_a"
  /\ MathUtils.toSnakeCase (MathUtils.toSnakeCase "__a") = "a".
Proof.
  split; [|split; reflexivity].
  apply (toSnakeCase_fixes_snake "max_touch_points"); reflexivity.
Defined.

End MathUtilsFacts.

(** ** Event throttle: what holds under every interleaving *)

Section ThrottleInvariants.

Import Throttle.
Local Open Scope Z_scope.

Lemma step_stampOfLast (w : Z) (a : Action) (s : State) :
  Reference.stampOfLast s -> Reference.stampOfLast (step w a s).
Proof.
  unfold Reference.stampOfLast. intros Hinv. destruct a as [p|p]; simpl.
  - unfold onEvent. destruct (_ || _); simpl.
    + rewrite last_snoc. reflexivity.
    + exact Hinv.
  - destruct (removeTimer p (timers s)) as [rest|]; [|exact Hinv].
    unfold onTimeout. simpl. destruct (pendingEvent s) as [pe|]; [|exact Hinv].
    destruct (sameObject pe p); simpl; [|exact Hinv].
    rewrite last_snoc. reflexivity.
Qed.

(** X5. Under every interleaving of arrivals and timer callbacks, the
    remembered timestamp is the timestamp of the payload the handler
    received last, and [0] as long as it received none. *)
Theorem throttle_remembers_last_invoked (w : Z) (schedule : list Action) :
  lastProcessedTimestamp (run w schedule initial)
  = match last (invoked (run w schedule initial)) with
    | Some e => timestamp e
    | None => 0
    end.
Proof.
  change (Reference.stampOfLast (run w schedule initial)).
  assert (Hgen : forall s, Reference.stampOfLast s -> Reference.stampOfLast (run w schedule s)).
  { unfold run. induction schedule as [|a schedule IH]; intros s Hs; simpl.
    - exact Hs.
    - apply IH, step_stampOfLast, Hs. }
  apply Hgen. reflexivity.
Qed.

Lemma step_accounted (w : Z) (a : Action) (arrived : list Event) (s : State) :
  Reference.accounted arrived s ->
  Reference.accounted (arrived ++ arrivals [a]) (step w a s).
Proof.
  intros (Hcount & Hinv & Hpend). destruct a as [p|p]; simpl.
  - unfold onEvent. destruct (_ || _); simpl.
    + repeat split.
      * simpl. rewrite !length_app. simpl. destruct (pendingEvent s); lia.
      * intros e Hin. apply in_app_or in Hin as [Hin|[<-|[]]];
          apply in_or_app; [left; auto|right; left; reflexivity].
      * discriminate.
    + repeat split.
      * simpl. rewrite ?length_app. simpl. destruct (pendingEvent s); lia.
      * intros e Hin. apply in_or_app. left. auto.
      * intros e [= <-]. apply in_or_app. right. left. reflexivity.
  - rewrite app_nil_r.
    destruct (removeTimer p (timers s)) as [rest|]; [|repeat split; assumption].
    unfold onTimeout. simpl.
    destruct (pendingEvent s) as [pe|] eqn:Hpe; [|repeat split; assumption].
    destruct (sameObject pe p); simpl.
    + repeat split.
      * simpl. rewrite ?length_app. simpl. simpl in Hcount. lia.
      * intros e Hin. apply in_app_or in Hin as [Hin|[<-|[]]]; auto.
      * discriminate.
    + repeat split; assumption.
Qed.

Lemma run_accounted (w : Z) (schedule : list Action) (arrived : list Event) (s : State) :
  Reference.accounted arrived s ->
  Reference.accounted (arrived ++ arrivals schedule) (run w schedule s).
Proof.
  unfold run. revert arrived s.
  induction schedule as [|a schedule IH]; intros arrived s Hs; simpl.
  - rewrite app_nil_r. exact Hs.
  - replace (arrived
             ++ (match a with Arrive p => [p] | Fire _ => [] end) ++ arrivals schedule)
      with ((arrived ++ arrivals [a]) ++ arrivals schedule).
    + apply IH, step_accounted, Hs.
    + simpl. rewrite app_nil_r, <- app_assoc. reflexivity.
Qed.

(** X6. Under every interleaving the handler receives only payloads
    that arrived, and it is never invoked more often than events
    arrived. *)
Theorem throttle_never_invents (w : Z) (schedule : list Action) :
  (length (invoked (run w schedule initial)) <= length (arrivals schedule))%nat
  /\ forall e, In e (invoked (run w schedule initial)) -> In e (arrivals schedule).
Proof.
  destruct (run_accounted w schedule [] initial) as (Hcount & Hinv & _).
  - repeat split; simpl; [lia|intros e []|discriminate].
  - simpl in Hcount, Hinv. split; [|exact Hinv].
    destruct (pendingEvent _); lia.
Qed.

End ThrottleInvariants.

(** ** Event throttle: the trailing event under synchronous delivery *)

Section ThrottleTrailing.

Import Throttle.
Local Open Scope Z_scope.

Lemma sameObject_sym (a b : Event) : sameObject a b = sameObject b a.
Proof. unfold sameObject. apply Nat.eqb_sym. Qed.

Lemma sameObject_trans_false (p q e : Event) :
  sameObject q e = false -> sameObject p q = true -> sameObject p e = false.
Proof.
  unfold sameObject. intros Hqe Hpq.
  apply Nat.eqb_eq in Hpq. rewrite Hpq. exact Hqe.
Qed.

Lemma removeTimer_found (q e : Event) (ts : list (Z * Event)) :
  sameObject q e = true ->
  (1 <= Reference.timersFor e ts)%nat ->
  exists rest, removeTimer q ts = Some rest.
Proof.
  intros Hqe. induction ts as [|[d p] ts IH]; simpl; intros Hcount; [lia|].
  destruct (sameObject p q) eqn:Hpq; [eauto|].
  assert (Hpe : sameObject p e = false).
  { unfold sameObject in *. apply Nat.eqb_eq in Hqe. rewrite <- Hqe. exact Hpq. }
  rewrite Hpe in Hcount. destruct (IH Hcount) as [rest Hrest].
  rewrite Hrest. eauto.
Qed.

Lemma removeTimer_other (q e : Event) (ts rest : list (Z * Event)) :
  sameObject q e = false ->
  removeTimer q ts = Some rest ->
  Reference.timersFor e rest = Reference.timersFor e ts.
Proof.
  intros Hqe. revert rest. induction ts as [|[d p] ts IH]; simpl; intros rest Hrem.
  - discriminate.
  - destruct (sameObject p q) eqn:Hpq.
    + injection Hrem as <-. rewrite (sameObject_trans_false p q e Hqe Hpq). reflexivity.
    + destruct (removeTimer q ts) as [rest'|]; [|discriminate].
      injection Hrem as <-. simpl. rewrite (IH rest' eq_refl). reflexivity.
Qed.

(** Running the callbacks of the remaining timers hands over a payload
    that is pending and still has a timer among them. *)
Lemma fire_all_delivers (w : Z) (e : Event) (remaining : list (Z * Event)) :
  forall s : State,
    In e (invoked s)
    \/ (pendingEvent s = Some e
        /\ (1 <= Reference.timersFor e remaining)%nat
        /\ (Reference.timersFor e remaining <= Reference.timersFor e (timers s))%nat) ->
    In e (invoked (fold_left (fun s dp => step w (Fire (snd dp)) s) remaining s)).
Proof.
  induction remaining as [|[d q] remaining IH]; intros s Hs.
  - destruct Hs as [Hin|(_ & Hone & _)]; [exact Hin|simpl in Hone; lia].
  - cbn [fold_left snd]. apply IH.
    destruct Hs as [Hin|(Hpend & Hone & Hle)].
    + left. destruct (step_invoked_grows w (Fire q) s) as [more Hmore].
      rewrite Hmore. apply in_or_app. left. exact Hin.
    + simpl in Hone, Hle. destruct (sameObject q e) eqn:Hqe.
      * left.
        destruct (removeTimer_found q e (timers s) Hqe) as [rest Hrest]; [lia|].
        simpl. rewrite Hrest. unfold onTimeout. simpl. rewrite Hpend.
        rewrite sameObject_sym, Hqe. simpl. apply in_or_app. right. left. reflexivity.
      * right. simpl.
        destruct (removeTimer q (timers s)) as [rest|] eqn:Hrest.
        -- unfold onTimeout. simpl. rewrite Hpend, sameObject_sym, Hqe. simpl.
           rewrite (removeTimer_other q e _ _ Hqe Hrest).
           repeat split; lia.
        -- repeat split; try assumption; lia.
Qed.

Lemma timersFor_app (e : Event) (ts1 ts2 : list (Z * Event)) :
  Reference.timersFor e (ts1 ++ ts2)
  = (Reference.timersFor e ts1 + Reference.timersFor e ts2)%nat.
Proof.
  induction ts1 as [|[d p] ts1 IH]; simpl; [reflexivity|]. rewrite IH. lia.
Qed.

(** X7. When the events are handed over before any timer runs and the
    timers run afterwards, the last event is always passed to the
    handler, on the leading edge or by its deferred flush, whatever the
    state the closure was in. *)
Theorem throttle_sync_delivers_last (w : Z) (events : list Event) (e : Event) (s : State) :
  In e (invoked (runSync w (events ++ [e]) s)).
Proof.
  unfold runSync. rewrite fold_left_app. cbn [fold_left].
  set (before := fold_left (fun s e => step w (Arrive e) s) events s).
  apply (fire_all_delivers w e). cbn [step]. unfold onEvent.
  destruct (_ || _); simpl.
  - left. apply in_or_app. right. left. reflexivity.
  - right. split; [reflexivity|].
    rewrite timersFor_app. simpl. unfold sameObject at 1. rewrite Nat.eqb_refl.
    split; lia.
Qed.

End ThrottleTrailing.

(** ** Pointer motion: when there is data *)

Section PointerMotionData.

Import Events FeatureExtractorBase MouseEventExtractor.

Lemma scanFrom_speed_count (prev : PointerPayload) (rest : list PointerPayload) (a : Scan) :
  length (speeds (scanFrom prev rest a))
  = (length (speeds a) + Reference.positiveDeltasFrom prev rest)%nat.
Proof.
  revert prev a. induction rest as [|curr rest IH]; intros prev a; simpl.
  - lia.
  - rewrite IH. unfold scanStep. simpl.
    destruct (0 <? p_timestamp curr - p_timestamp prev)%Z; simpl.
    + rewrite length_app. simpl. lia.
    + lia.
Qed.

Lemma no_positive_delta_count (prev : PointerPayload) (rest : list PointerPayload) :
  Reference.noPositiveDeltaFrom prev rest
  = (Reference.positiveDeltasFrom prev rest =? 0)%nat.
Proof.
  revert prev. induction rest as [|curr rest IH]; intros prev; simpl.
  - reflexivity.
  - rewrite IH. destruct (0 <? p_timestamp curr - p_timestamp prev)%Z; simpl; reflexivity.
Qed.

(** X8. The pointer extractor reports data exactly when it holds at
    least five samples and some consecutive pair has a positive time
    delta. *)
Theorem mouse_hasData_iff (moves : list PointerPayload) :
  hasData (extractFeatures moves)
  = (MIN_MOVE_EVENTS <=? length moves)%nat && negb (Reference.noPositiveDelta moves).
Proof.
  unfold extractFeatures.
  destruct (length moves <? MIN_MOVE_EVENTS)%nat eqn:Hlen.
  - apply Nat.ltb_lt in Hlen.
    assert (Hle : (MIN_MOVE_EVENTS <=? length moves)%nat = false)
      by (apply Nat.leb_gt; exact Hlen).
    rewrite Hle. reflexivity.
  - apply Nat.ltb_ge in Hlen.
    assert (Hle : (MIN_MOVE_EVENTS <=? length moves)%nat = true)
      by (apply Nat.leb_le; exact Hlen).
    rewrite Hle. destruct moves as [|first rest]; [reflexivity|].
    simpl Reference.noPositiveDelta. rewrite no_positive_delta_count.
    rewrite scanFrom_speed_count. simpl.
    destruct (Reference.positiveDeltasFrom first rest); reflexivity.
Qed.

Lemma scanStep_speeds_nonneg (prev curr : PointerPayload) (a : Scan) :
  Forall (fun v => (0 <= v)%R) (speeds a) ->
  Forall (fun v => (0 <= v)%R) (speeds (scanStep prev curr a)).
Proof.
  intros Hall. unfold scanStep. simpl.
  destruct (0 <? p_timestamp curr - p_timestamp prev)%Z eqn:Hpos; [|exact Hall].
  apply Forall_app. split; [exact Hall|]. constructor; [|constructor].
  apply Z.ltb_lt in Hpos. apply IZR_lt in Hpos.
  apply Rmult_le_pos; [apply sqrt_pos|].
  left. apply Rinv_0_lt_compat. lra.
Qed.

Lemma scanFrom_bounds (prev : PointerPayload) (rest : list PointerPayload) (a : Scan) :
  Forall (fun v => (0 <= v)%R) (speeds a) ->
  Forall (fun v => (0 <= v)%R) (speeds (scanFrom prev rest a))
  /\ (idle a <= idle (scanFrom prev rest a) <= idle a + Z.of_nat (length rest))%Z.
Proof.
  revert prev a. induction rest as [|curr rest IH]; intros prev a Hall.
  - simpl. split; [exact Hall|lia].
  - cbn [scanFrom].
    destruct (IH curr (scanStep prev curr a) (scanStep_speeds_nonneg prev curr a Hall))
      as [Hsp Hidle].
    split; [exact Hsp|].
    assert (Hstep : (idle a <= idle (scanStep prev curr a) <= idle a + 1)%Z).
    { unfold scanStep. simpl. destruct (_ <? _)%Z; lia. }
    cbn [length]. lia.
Qed.

(** X9. The sentinel [-1] marks the absence of data and nothing else:
    when the pointer extractor reports data, the average and the
    deviation of the speeds are non-negative, the idle count lies
    between [0] and the number of consecutive pairs, and the move count
    is the number of samples; when it reports none, the three speed
    features are [-1]. *)
Theorem mouse_sentinel_only_without_data (moves : list PointerPayload) :
  let r := extractFeatures moves in
  if hasData r then
    (0 <= avgSpeed (features r))%R
    /\ (0 <= stdSpeed (features r))%R
    /\ (0 <= idleCount (features r) <= Z.of_nat (length moves) - 1)%Z
    /\ mouseMoveCount (features r) = Z.of_nat (length moves)
  else
    avgSpeed (features r) = (-1)%R
    /\ stdSpeed (features r) = (-1)%R
    /\ idleCount (features r) = (-1)%Z.
Proof.
  cbv zeta. unfold extractFeatures.
  destruct (length moves <? MIN_MOVE_EVENTS)%nat; [simpl; auto|].
  destruct moves as [|first rest]; [simpl; auto|].
  set (a0 := {| speeds := []; idle := 0; lastTimestamp := p_timestamp first |}).
  destruct (scanFrom_bounds first rest a0) as [Hsp Hidle]; [constructor|].
  destruct (length (speeds (scanFrom first rest a0)) =? 0)%nat eqn:Hnone;
    [simpl; auto|].
  cbn [hasData features avgSpeed stdSpeed idleCount mouseMoveCount].
  apply Nat.eqb_neq in Hnone.
  repeat split.
  - unfold Rdiv. apply Rmult_le_pos.
    + apply fold_left_Rplus_nonneg; [lra|exact Hsp].
    + left. apply Rinv_0_lt_compat. apply lt_0_INR. lia.
  - destruct (1 <? length (speeds (scanFrom first rest a0)))%nat;
      [apply sqrt_pos|lra].
  - simpl in Hidle. lia.
  - simpl in Hidle. cbn [length]. lia.
Qed.

End PointerMotionData.

(** ** Active runs of the scroll and click extractors *)

Section ActiveRunFacts.

Context {A : Type} (key : A -> Z) (thresholdMs : Z).

Lemma groupFrom_close_pair (rest : list A) :
  forall (prev : A) (g : JsArray.Grouping A),
    JsArray.current g <> [] ->
    let g' := JsArray.groupFrom key thresholdMs prev rest g in
    existsb (fun group => (1 <? length group)%nat)
      (if (0 <? length (JsArray.current g'))%nat
       then JsArray.groups g' ++ [JsArray.current g'] else JsArray.groups g')
    = existsb (fun group => (1 <? length group)%nat) (JsArray.groups g)
      || (1 <? length (JsArray.current g))%nat
      || Reference.closePairFrom key thresholdMs prev rest.
Proof.
  induction rest as [|curr rest IH]; intros prev g Hcur; cbv zeta.
  - simpl. destruct (JsArray.current g) as [|c cs] eqn:Hc; [contradiction|].
    simpl. rewrite existsb_app. simpl. rewrite !orb_false_r. reflexivity.
  - cbn [JsArray.groupFrom Reference.closePairFrom]. unfold JsArray.groupStep.
    destruct (key curr - key prev <? thresholdMs)%Z.
    + rewrite IH by (simpl; destruct (JsArray.current g); discriminate).
      simpl. destruct (JsArray.current g) as [|c cs]; [contradiction|].
      rewrite length_app. simpl.
      replace (1 <? S (length cs + 1))%nat with true
        by (symmetry; apply Nat.ltb_lt; lia).
      rewrite !orb_true_r. reflexivity.
    + destruct (JsArray.current g) as [|c cs] eqn:Hc; [contradiction|].
      simpl (0 <? length (c :: cs))%nat. cbv iota.
      rewrite IH by (simpl; discriminate).
      simpl. rewrite existsb_app. simpl. rewrite !orb_false_r. reflexivity.
Qed.

(** X10. The "active" flag of the scroll and click extractors is set
    exactly when, among the events sorted by timestamp, two neighbours
    are less than the threshold apart. *)
Theorem hasActiveRun_iff_close_pair (events : list A) :
  JsArray.hasActiveRun key thresholdMs events
  = Reference.closePair key thresholdMs (JsArray.sortBy key events).
Proof.
  unfold JsArray.hasActiveRun.
  pose proof (sortBy_length key events) as Hlen.
  destruct (length events <? 2)%nat eqn:Hshort.
  - apply Nat.ltb_lt in Hshort.
    destruct (JsArray.sortBy key events) as [|first [|second rest]];
      [reflexivity|reflexivity|simpl in Hlen; lia].
  - destruct (JsArray.sortBy key events) as [|first rest]; [reflexivity|].
    pose proof (groupFrom_close_pair rest first
                  {| JsArray.groups := []; JsArray.current := [first] |}) as Hrun.
    cbv zeta in Hrun. rewrite Hrun by (simpl; discriminate). reflexivity.
Qed.

End ActiveRunFacts.

(** ** Sorting a sorted list, and a regular typing cadence *)

Section SortedInput.

Context {A : Type} (key : A -> Z).

Lemma insertSorted_after (e : A) (acc : list A) :
  Forall (fun a => (key a <= key e)%Z) acc ->
  JsArray.insertSorted key e acc = acc ++ [e].
Proof.
  induction acc as [|h t IH]; intros Hall; simpl; [reflexivity|].
  inversion Hall as [|? ? Hh Ht]; subst.
  assert (Hlt : (key e <? key h)%Z = false) by (apply Z.ltb_ge; exact Hh).
  rewrite Hlt, IH by exact Ht. reflexivity.
Qed.

Lemma fold_insertSorted_sorted (l acc : list A) :
  StronglySorted (JsArray.keyOrder key) l ->
  Forall (fun a => Forall (fun b => (key a <= key b)%Z) l) acc ->
  fold_left (fun acc e => JsArray.insertSorted key e acc) l acc = acc ++ l.
Proof.
  revert acc. induction l as [|e l IH]; intros acc Hs Hacc; simpl.
  - rewrite app_nil_r. reflexivity.
  - inversion Hs as [|? ? Hl He]; subst.
    rewrite insertSorted_after.
    + rewrite IH; [rewrite <- app_assoc; reflexivity|exact Hl|].
      apply Forall_app. split.
      * eapply List.Forall_impl; [|exact Hacc]. intros a Ha.
        inversion Ha; assumption.
      * constructor; [exact He|constructor].
    + eapply List.Forall_impl; [|exact Hacc]. intros a Ha. inversion Ha; assumption.
Qed.

(** Sorting by timestamp leaves a list that is already in
    non-decreasing order exactly as it is. *)
Theorem sortBy_sorted_input (l : list A) :
  Sorted (JsArray.keyOrder key) l -> JsArray.sortBy key l = l.
Proof.
  intros Hs. unfold JsArray.sortBy.
  rewrite fold_insertSorted_sorted; [reflexivity| |constructor].
  apply Sorted_StronglySorted; [|exact Hs].
  intros a b c Hab Hbc. unfold JsArray.keyOrder in *. lia.
Qed.

End SortedInput.

Lemma sortBy_sorted_input_witness :
  Sorted (JsArray.keyOrder Events.k_timestamp) Samples.steadyKeys
  /\ JsArray.sortBy Events.k_timestamp Samples.steadyKeys = Samples.steadyKeys.
Proof.
  assert (Hs : Sorted (JsArray.keyOrder Events.k_timestamp) Samples.steadyKeys).
  { repeat constructor; unfold JsArray.keyOrder; simpl; lia. }
  split; [exact Hs|].
  apply (sortBy_sorted_input Events.k_timestamp Samples.steadyKeys Hs).
Defined.

Section RegularCadence.

Import Events FeatureExtractorBase KeyboardEventExtractor.
Local Open Scope R_scope.

Lemma fold_left_Rplus_repeat (c : R) (n : nat) (acc : R) :
  fold_left Rplus (repeat c n) acc = acc + INR n * c.
Proof.
  revert acc. induction n as [|n IH]; intros acc.
  - simpl. lra.
  - cbn [repeat fold_left]. rewrite IH, S_INR. lra.
Qed.

(** Equal values have no deviation. *)
Lemma standardDeviation_repeat (c : R) (n : nat) :
  SimpleStatistics.standardDeviation (repeat c n) = 0.
Proof.
  unfold SimpleStatistics.standardDeviation, SimpleStatistics.variance.
  destruct n as [|n].
  - simpl. unfold SimpleStatistics.sum. simpl. unfold Rdiv. rewrite Rmult_0_l.
    apply sqrt_0.
  - assert (Hmean : SimpleStatistics.mean (repeat c (S n)) = c).
    { unfold SimpleStatistics.mean, SimpleStatistics.sum.
      rewrite fold_left_Rplus_repeat, repeat_length.
      field. apply not_0_INR. discriminate. }
    rewrite Hmean.
    assert (Hmap : map (fun x => (x - c) * (x - c)) (repeat c (S n)) = repeat 0 (S n)).
    { generalize (S n). intros m. induction m as [|m IHm]; simpl; [reflexivity|].
      rewrite IHm. f_equal. lra. }
    rewrite Hmap. unfold SimpleStatistics.sum.
    rewrite fold_left_Rplus_repeat.
    replace ((0 + INR (S n) * 0) / INR (length (repeat c (S n)))) with 0.
    + apply sqrt_0.
    + unfold Rdiv. rewrite Rmult_0_r, Rplus_0_l, Rmult_0_l. reflexivity.
Qed.

Lemma evenly_spaced_intervals (d : Z) (prev : KeyPayload) (rest : list KeyPayload) :
  Reference.evenlySpacedFrom d prev rest = true ->
  intervalsFrom prev rest = repeat d (length rest).
Proof.
  revert prev. induction rest as [|curr rest IH]; intros prev Hev; simpl.
  - reflexivity.
  - simpl in Hev. apply andb_true_iff in Hev as [Hd Hrest].
    apply Z.eqb_eq in Hd. rewrite Hd, IH by exact Hrest. reflexivity.
Qed.

Lemma evenly_spaced_sorted (d : Z) (prev : KeyPayload) (rest : list KeyPayload) :
  (0 <= d)%Z ->
  Reference.evenlySpacedFrom d prev rest = true ->
  Sorted (JsArray.keyOrder k_timestamp) (prev :: rest).
Proof.
  intros Hd. revert prev. induction rest as [|curr rest IH]; intros prev Hev.
  - repeat constructor.
  - simpl in Hev. apply andb_true_iff in Hev as [Hgap Hrest].
    apply Z.eqb_eq in Hgap.
    constructor; [apply IH; exact Hrest|].
    constructor. unfold JsArray.keyOrder. lia.
Qed.

Lemma evenly_spaced_one_run (d : Z) (prev : KeyPayload) (rest : list KeyPayload) :
  (d <= 3000)%Z ->
  Reference.evenlySpacedFrom d prev rest = true ->
  Reference.splitFrom 3000 prev rest = [prev :: rest].
Proof.
  intros Hd. revert prev. induction rest as [|curr rest IH]; intros prev Hev; simpl.
  - reflexivity.
  - simpl in Hev. apply andb_true_iff in Hev as [Hgap Hrest].
    apply Z.eqb_eq in Hgap.
    assert (Hno : (3000 <? k_timestamp curr - k_timestamp prev)%Z = false)
      by (apply Z.ltb_ge; lia).
    rewrite Hno, IH by exact Hrest. reflexivity.
Qed.

(** X12. Key presses recorded in order at one fixed interval of at most
    3000 ms have typing consistency exactly [1]. *)
Theorem regular_cadence_is_fully_consistent (d : Z) (keyEvents : list KeyPayload) :
  (2 <= length keyEvents)%nat ->
  (0 <= d <= 3000)%Z ->
  Reference.evenlySpaced d keyEvents = true ->
  calculateTypingConsistency keyEvents = 1.
Proof.
  intros Hlen Hd Hev. unfold calculateTypingConsistency.
  assert (Hshort : (length keyEvents <? 2)%nat = false) by (apply Nat.ltb_ge; exact Hlen).
  rewrite Hshort, burstGroupsOf_valid.
  destruct keyEvents as [|first [|second rest]]; [simpl in Hlen; lia|simpl in Hlen; lia|].
  simpl in Hev.
  assert (Hbursts : Reference.validBursts (first :: second :: rest)
                    = [first :: second :: rest]).
  { unfold Reference.validBursts.
    rewrite sortBy_sorted_input
      by (apply (evenly_spaced_sorted d); [lia|exact Hev]).
    unfold Reference.splitAtGaps.
    rewrite (evenly_spaced_one_run d) by (try lia; exact Hev).
    rewrite filter_cons, filter_nil, decide_True by (simpl; lia). reflexivity. }
  rewrite Hbursts. cbn [length Nat.eqb map].
  rewrite burstConsistency_is_cv.
  assert (Hcv : Reference.coefficientOfVariation (first :: second :: rest) = 0).
  { unfold Reference.coefficientOfVariation, intervalsOf.
    rewrite (evenly_spaced_intervals d) by exact Hev.
    rewrite map_repeat, standardDeviation_repeat.
    destruct (Rlt_dec 0 _); [|reflexivity].
    unfold Rdiv. apply Rmult_0_l. }
  rewrite Hcv. unfold SimpleStatistics.sum. simpl.
  replace ((0 + 0) / 1) with 0 by field.
  unfold Rmin. destruct (Rle_dec 0 1); lra.
Qed.

Lemma regular_cadence_is_fully_consistent_witness :
  calculateTypingConsistency Samples.steadyKeys = 1.
Proof.
  apply (regular_cadence_is_fully_consistent 100 Samples.steadyKeys).
  - simpl. lia.
  - lia.
  - reflexivity.
Defined.

End RegularCadence.

(** ** Browser event storage: buffering *)

Section StorageReads.

Import Events BrowserEventStorage.

Lemma flush_success_witness :
  buffer (flush Written [Samples.stored 3] Samples.twoBuffered) = [Samples.stored 3]
  /\ store (flush Written [Samples.stored 3] Samples.twoBuffered)
     = store Samples.twoBuffered
       ++ map (withSession (sessionId Samples.twoBuffered)) (buffer Samples.twoBuffered).
Proof.
  apply (flush_success Samples.twoBuffered [Samples.stored 3]).
  - simpl. discriminate.
  - reflexivity.
Defined.



End StorageReads.

(** ** Mock event storage *)

Section MockStorageFacts.

Import Events MockEventStorage.
Local Open Scope Z_scope.

Lemma storeEvents_appends (newEvents : list StoredEvent) (s : State) :
  events (storeEvents newEvents s)
  = events s ++ imap (fun i e => withId (nextId s + Z.of_nat i) e) newEvents
  /\ nextId (storeEvents newEvents s) = nextId s + Z.of_nat (length newEvents)
  /\ sessionId (storeEvents newEvents s) = sessionId s.
Proof.
  unfold storeEvents. revert s.
  induction newEvents as [|e newEvents IH]; intros s.
  - simpl. rewrite app_nil_r. repeat split; lia.
  - cbn [fold_left]. destruct (IH (snd (storeEvent e s))) as (Hev & Hnext & Hsid).
    rewrite Hev, Hnext, Hsid. cbn [storeEvent snd events nextId sessionId].
    rewrite <- app_assoc. cbn [app imap length].
    split; [|split; [lia|reflexivity]].
    f_equal. f_equal; [rewrite Z.add_0_r; reflexivity|].
    apply imap_ext. intros i x _. simpl.
    replace (nextId s + Z.of_nat (S i)) with (nextId s + 1 + Z.of_nat i) by lia.
    reflexivity.
Qed.

Lemma fold_max_bounds (l : list Z) (acc : Z) :
  acc <= fold_left Z.max l acc /\ Forall (fun x => x <= fold_left Z.max l acc) l.
Proof.
  revert acc. induction l as [|x l IH]; intros acc; simpl.
  - split; [lia|constructor].
  - destruct (IH (Z.max acc x)) as [Hacc Hall]. split; [lia|].
    constructor; [lia|exact Hall].
Qed.

(** X16. After [preloadEvents], the events stored next receive the
    consecutive ids that follow the largest preloaded id (or [0]), so a
    new id never repeats a preloaded one; the preloaded events are kept
    in front, unchanged. *)
Theorem mock_ids_after_preload (preloaded newEvents : list StoredEvent) (s : State) :
  events (storeEvents newEvents (preloadEvents preloaded s))
  = preloaded
    ++ imap (fun i e => withId (maxId preloaded + 1 + Z.of_nat i) e) newEvents
  /\ Forall (fun e => idOrZero e <= maxId preloaded) preloaded
  /\ 0 <= maxId preloaded.
Proof.
  destruct (storeEvents_appends newEvents (preloadEvents preloaded s)) as (Hev & _ & _).
  split; [exact Hev|].
  unfold maxId. destruct (fold_max_bounds (map idOrZero preloaded) 0) as [Hzero Hall].
  split; [|exact Hzero].
  apply Forall_forall. intros e He.
  rewrite List.Forall_forall in Hall. apply Hall.
  apply in_map. apply list_elem_of_In. exact He.
Qed.

(** X17. A session id saved with [saveSessionToStorage] is restored by
    [checkForExistingSession], whatever id was set in between, unless it
    is the empty string, which is taken for no session; after
    [clearSessionFromStorage] no session is found. *)
Theorem mock_session_round_trip (other : string) (s : State) :
  fst (checkForExistingSession (setSessionId other (saveSessionToStorage s)))
  = negb (String.eqb (sessionId s) "")
  /\ sessionId (snd (checkForExistingSession (setSessionId other (saveSessionToStorage s))))
     = (if String.eqb (sessionId s) "" then other else sessionId s)
  /\ fst (checkForExistingSession (clearSessionFromStorage (saveSessionToStorage s)))
     = false.
Proof.
  unfold checkForExistingSession. simpl.
  destruct (String.eqb (sessionId s) ""); repeat split.
Qed.

(** X18. The two storages disagree on the events stamped exactly at the
    cutoff: on the same events, the browser storage's [clearOldEvents]
    keeps what the mock storage's keeps except the events whose
    timestamp equals [now - maxAgeMs]. *)
Theorem clearOldEvents_boundary (now maxAgeMs : Z)
    (b : BrowserEventStorage.State) (m : State) :
  BrowserEventStorage.store b = events m ->
  BrowserEventStorage.store (BrowserEventStorage.clearOldEvents now maxAgeMs b)
  = filter (fun e => se_timestamp e <> now - maxAgeMs)
      (events (clearOldEvents now maxAgeMs m)).
Proof.
  intros Hsame. unfold BrowserEventStorage.clearOldEvents, clearOldEvents. simpl.
  rewrite Hsame. clear Hsame. generalize (events m). intros l.
  induction l as [|e l IH]; [reflexivity|].
  rewrite (filter_cons (fun event => now - maxAgeMs < se_timestamp event)).
  rewrite (filter_cons (fun event => now - maxAgeMs <= se_timestamp event)).
  destruct (decide (now - maxAgeMs < se_timestamp e)) as [Hlt|Hge];
    destruct (decide (now - maxAgeMs <= se_timestamp e)) as [Hle|Hgt]; try lia.
  - rewrite filter_cons, decide_True by lia. rewrite IH. reflexivity.
  - rewrite filter_cons, decide_False by lia. exact IH.
  - exact IH.
Qed.

Lemma clearOldEvents_boundary_witness :
  BrowserEventStorage.store
    (BrowserEventStorage.clearOldEvents 150 100 Samples.browserWithThree)
  = [Samples.stored 60]
  /\ events (clearOldEvents 150 100 Samples.mockWithThree)
     = [Samples.stored 50; Samples.stored 60].
Proof.
  split; [|reflexivity].
  rewrite (clearOldEvents_boundary 150 100 Samples.browserWithThree Samples.mockWithThree)
    by reflexivity.
  reflexivity.
Defined.

End MockStorageFacts.

(** ** Stored events restore the extractors *)

Section Resume.

Import Events FeatureExtractorBase ExtractorContract ExtractorsManager.

Lemma nonempty_or_nil {X : Type} (l : list X) :
  (if (0 <? length l)%nat then l else []) = l.
Proof. destruct l; reflexivity. Qed.

Lemma process_nil (e : BuiltIn.t) : BuiltIn.process [] e = e.
Proof. destruct e as [port|s|s|s|[mm cl]]; reflexivity. Qed.

Lemma process_name (events : list StoredEvent) (e : BuiltIn.t) :
  BuiltIn.name (BuiltIn.process events e) = BuiltIn.name e.
Proof. destruct e; reflexivity. Qed.

(** What a handler does to an extractor restored from [events] is what
    loading [events] followed by the event it stores would give. *)
Lemma handler_matches_reload (port : BrowserMetadataExtractor.MetadataPort)
    (e0 : BuiltIn.t) (events : list StoredEvent) (j : nat)
    (evt : EventType) (handler : Payload -> BuiltIn.t -> BuiltIn.t) (payload : Payload) :
  In e0 (BuiltIn.DEFAULT_EXTRACTORS port) ->
  BuiltIn.handlers (BuiltIn.process events e0) !! j = Some (evt, handler) ->
  handler payload (BuiltIn.process events e0)
  = BuiltIn.process
      (events
       ++ [{| se_id := None; se_type := evt;
              se_timestamp := payloadTimestamp payload; se_data := payload;
              se_extractorType := BuiltIn.name (BuiltIn.process events e0);
              se_sessionId := None |}])
      e0.
Proof.
  intros Hin Hh. simpl in Hin.
  destruct Hin as [<-|[<-|[<-|[<-|[<-|[]]]]]];
    destruct j as [|[|j]]; simpl in Hh; try discriminate Hh;
    injection Hh as <- <-; simpl.
  - unfold MouseEventExtractor.processEvents, MouseEventExtractor.State. cbv zeta.
    rewrite omap_app, !nonempty_or_nil.
    unfold MouseEventExtractor.handleMouseMove.
    destruct payload; simpl; rewrite ?app_nil_r; reflexivity.
  - unfold KeyboardEventExtractor.processEvents, KeyboardEventExtractor.State. cbv zeta.
    rewrite omap_app, !nonempty_or_nil.
    unfold KeyboardEventExtractor.handleKeydown.
    destruct payload; simpl; rewrite ?app_nil_r; reflexivity.
  - unfold ScrollEventExtractor.processEvents, ScrollEventExtractor.State. cbv zeta.
    rewrite omap_app, !nonempty_or_nil.
    unfold ScrollEventExtractor.handleScroll.
    destruct payload; simpl; rewrite ?app_nil_r; reflexivity.
  - unfold ClickEventExtractor.processEvents. cbv zeta.
    cbn [ClickEventExtractor.mouseMoves ClickEventExtractor.clicks].
    rewrite !omap_app, !nonempty_or_nil.
    unfold ClickEventExtractor.handleMouseMove.
    destruct payload; simpl; rewrite ?app_nil_r; reflexivity.
  - unfold ClickEventExtractor.processEvents. cbv zeta.
    cbn [ClickEventExtractor.mouseMoves ClickEventExtractor.clicks].
    rewrite !omap_app, !nonempty_or_nil.
    unfold ClickEventExtractor.handleClick.
    destruct payload; simpl; rewrite ?app_nil_r; reflexivity.
Qed.

Lemma default_names_differ (port : BrowserMetadataExtractor.MetadataPort)
    (i k : nat) (ei ek : BuiltIn.t) :
  BuiltIn.DEFAULT_EXTRACTORS port !! i = Some ei ->
  BuiltIn.DEFAULT_EXTRACTORS port !! k = Some ek ->
  i <> k ->
  BuiltIn.name ek <> BuiltIn.name ei.
Proof.
  intros Hi Hk Hne.
  destruct i as [|[|[|[|[|i]]]]]; simpl in Hi; try discriminate Hi;
    injection Hi as <-;
    destruct k as [|[|[|[|[|k]]]]]; simpl in Hk; try discriminate Hk;
    injection Hk as <-; try (exfalso; apply Hne; reflexivity); simpl; discriminate.
Qed.

Lemma filter_name_snoc_same (name : string) (stored : list StoredEvent) (ev : StoredEvent) :
  se_extractorType ev = name ->
  filter (fun event => se_extractorType event = name) (stored ++ [ev])
  = filter (fun event => se_extractorType event = name) stored ++ [ev].
Proof.
  intros Hn. rewrite filter_app, filter_cons, filter_nil, decide_True by exact Hn.
  reflexivity.
Qed.

Lemma filter_name_snoc_other (name : string) (stored : list StoredEvent) (ev : StoredEvent) :
  se_extractorType ev <> name ->
  filter (fun event => se_extractorType event = name) (stored ++ [ev])
  = filter (fun event => se_extractorType event = name) stored.
Proof.
  intros Hn. rewrite filter_app, filter_cons, filter_nil, decide_False by exact Hn.
  apply app_nil_r.
Qed.

End Resume.

Section ResumeTheorem.

Import Events FeatureExtractorBase ExtractorContract ExtractorsManager.

Lemma registerEventHandlers_extractors (m : State BuiltIn.t) :
  extractors (registerEventHandlers m) = extractors m.
Proof.
  unfold registerEventHandlers.
  destruct (registerAll 0 (extractors m) ([], portCalls m)). reflexivity.
Qed.

Lemma loadInto_restores (stored : list StoredEvent) (e0 : BuiltIn.t) (listening : bool) :
  self (loadInto stored {| self := e0; isListening := listening |})
  = Reference.restoredSelf stored e0.
Proof.
  unfold loadInto, Reference.restoredSelf. cbn [self constructorName BuiltIn.builtin_extractor].
  destruct (filter (fun event => se_extractorType event = BuiltIn.name e0) stored)
    as [|ev evs]; simpl.
  - symmetry. apply process_nil.
  - reflexivity.
Qed.

Lemma startListening_restores (port : BrowserMetadataExtractor.MetadataPort)
    (stored : list StoredEvent) :
  Reference.restoredFrom port stored
    (startListening stored (initExtractors (BuiltIn.DEFAULT_EXTRACTORS port) create)).
Proof.
  unfold Reference.restoredFrom, startListening.
  cbn [isActive initExtractors create]. unfold arm, finishStart, processLoaded.
  cbn [extractors].
  rewrite registerEventHandlers_extractors. cbn [extractors initExtractors].
  rewrite !map_map. apply map_ext. intros e0.
  rewrite loadInto_restores. reflexivity.
Qed.

Lemma deliver_keeps_restored (port : BrowserMetadataExtractor.MetadataPort)
    (stored : list StoredEvent) (m : State BuiltIn.t)
    (h : HandlerRef) (payload : Payload) :
  Reference.restoredFrom port stored m ->
  Reference.restoredFrom port
    (stored ++ match snd (storeAndHandleEvent h payload m) with
               | Some e => [e]
               | None => []
               end)
    (fst (storeAndHandleEvent h payload m)).
Proof.
  unfold Reference.restoredFrom. intros Hinv. unfold storeAndHandleEvent.
  rewrite Hinv, list_lookup_fmap.
  destruct (BuiltIn.DEFAULT_EXTRACTORS port !! extractorIndex h) as [e0|] eqn:He0;
    cbn [fmap option_fmap option_map];
    [|cbn [fst snd]; rewrite app_nil_r; exact Hinv].
  cbn [self isListening getEventHandlers BuiltIn.builtin_extractor constructorName].
  destruct (BuiltIn.handlers (Reference.restoredSelf stored e0) !! handlerIndex h)
    as [[evt handler]|] eqn:Hh;
    [|cbn [fst snd]; rewrite app_nil_r; exact Hinv].
  cbn [fst snd extractors].
  apply list_eq. intros k.
  rewrite list_lookup_fmap.
  destruct (decide (k = extractorIndex h)) as [->|Hne].
  - rewrite list_lookup_insert_eq
      by (rewrite length_map; apply lookup_lt_Some with e0; exact He0).
    rewrite He0. cbn [fmap option_fmap option_map]. f_equal. f_equal.
    unfold Reference.restoredSelf in *.
    rewrite filter_name_snoc_same by (simpl; apply process_name).
    rewrite process_name.
    assert (Hin : In e0 (BuiltIn.DEFAULT_EXTRACTORS port))
      by (apply list_elem_of_In, list_elem_of_lookup; eauto).
    pose proof (handler_matches_reload port e0 _ (handlerIndex h) evt handler payload
                  Hin Hh) as Hm.
    rewrite process_name in Hm. exact Hm.
  - rewrite list_lookup_insert_ne by congruence.
    rewrite list_lookup_fmap.
    destruct (BuiltIn.DEFAULT_EXTRACTORS port !! k) as [ek|] eqn:Hek;
      cbn [fmap option_fmap option_map]; [|reflexivity].
    f_equal. f_equal. unfold Reference.restoredSelf.
    rewrite filter_name_snoc_other; [reflexivity|].
    simpl. rewrite process_name.
    intros Hsame. apply (default_names_differ port (extractorIndex h) k e0 ek He0 Hek);
      congruence.
Qed.

Lemma deliverAll_keeps_restored (port : BrowserMetadataExtractor.MetadataPort)
    (deliveries : list (HandlerRef * Payload)) :
  forall (m : State BuiltIn.t) (stored : list StoredEvent),
    Reference.restoredFrom port stored m ->
    let r :=
      fold_left
        (fun acc delivery =>
           let r := storeAndHandleEvent (fst delivery) (snd delivery) (fst acc) in
           (fst r, snd acc ++ match snd r with Some e => [e] | None => [] end))
        deliveries (m, stored) in
    Reference.restoredFrom port (snd r) (fst r).
Proof.
  induction deliveries as [|[h payload] deliveries IH]; intros m stored Hinv; cbv zeta.
  - exact Hinv.
  - cbn [fold_left fst snd]. apply IH. apply deliver_keeps_restored. exact Hinv.
Qed.

(** X21. The events the handlers of the default extractors pass to the
    storage are enough to rebuild the extractors: a manager that starts
    listening on a page load with those stored events holds the same
    extractor states as the manager that received the events live. *)
Theorem stored_events_restore_extractors
    (port : BrowserMetadataExtractor.MetadataPort)
    (deliveries : list (HandlerRef * Payload)) :
  let fresh := initExtractors (BuiltIn.DEFAULT_EXTRACTORS port) create in
  let live := Reference.deliverAll deliveries (startListening [] fresh) in
  extractors (startListening (snd live) fresh) = extractors (fst live).
Proof.
  cbv zeta.
  pose proof (deliverAll_keeps_restored port deliveries _ []
                (startListening_restores port [])) as Hlive.
  cbv zeta in Hlive. unfold Reference.deliverAll.
  unfold Reference.restoredFrom in Hlive. rewrite Hlive.
  apply startListening_restores.
Qed.

End ResumeTheorem.

(** ** Detector lifecycle: what a call leaves untouched *)

Section LifecycleFacts.

Import Events FeatureExtractorBase ExtractorContract DetectionTypes AgentDetector.

Context {C : Type} `{FeatureExtractor C} `{Js.StringToNumber}.
Context (preprocessFeatures :
           option ModelParameters -> gmap string FeatureValue
           -> gmap string FeatureValue).

Lemma logErrors_logged (messages : list (option string)) (d : State C) :
  exists more, logged (logErrors messages d) = logged d ++ more.
Proof.
  revert d. induction messages as [|[m|] messages IH]; intros d; simpl.
  - exists []. rewrite app_nil_r. reflexivity.
  - destruct (IH (log ERROR m d)) as [more Hmore].
    exists ((ERROR, m) :: more). unfold logErrors in *. rewrite Hmore. simpl.
    rewrite <- app_assoc. reflexivity.
  - apply IH.
Qed.

(** A cycle, whether it returns or throws, only adds to the log. *)
Lemma performDetection_state (d : State C) :
  exists messages,
    snd (_performDetection preprocessFeatures d) = logErrors messages d.
Proof.
  unfold _performDetection, extractFeaturesAll.
  destruct (modelParameters d) as [mp|] eqn:Hmp.
  - eexists. 
    match goal with
    | |- context [logErrors ?ms d] => set (d1 := logErrors ms d)
    end.
    destruct (scoreFeatures (modelParameters d1) _) as [result|message];
      [|reflexivity].
    destruct (onDetectionCallback d1) as [callback|]; [|reflexivity].
    destruct (callback result); reflexivity.
  - exists []. reflexivity.
Qed.

(** X22. [getCurrentDetectionResult] never changes the lifecycle: the
    flags, the model parameters and the manager with its listeners are
    as before, whether the call returns a result or throws; the detector
    only gains log entries. *)
Theorem getCurrentDetectionResult_keeps_lifecycle (d : State C) :
  let d' := snd (getCurrentDetectionResult preprocessFeatures d) in
  initialized d' = initialized d
  /\ modelParameters d' = modelParameters d
  /\ extractorsManager d' = extractorsManager d
  /\ isDetectionActive d' = isDetectionActive d
  /\ isDetectionFinalizing d' = isDetectionFinalizing d
  /\ exists more, logged d' = logged d ++ more.
Proof.
  cbv zeta. unfold getCurrentDetectionResult.
  destruct (initialized d) eqn:Hinit; cbn [negb].
  - set (d1 := if negb (isDetectionActive d) then log WARN _ d else d).
    assert (Hd1 : initialized d1 = initialized d
                  /\ modelParameters d1 = modelParameters d
                  /\ extractorsManager d1 = extractorsManager d
                  /\ isDetectionActive d1 = isDetectionActive d
                  /\ isDetectionFinalizing d1 = isDetectionFinalizing d
                  /\ exists more, logged d1 = logged d ++ more).
    { unfold d1. destruct (negb (isDetectionActive d)); simpl.
      - repeat split. eexists. reflexivity.
      - repeat split. exists []. rewrite app_nil_r. reflexivity. }
    destruct Hd1 as (I1 & I2 & I3 & I4 & I5 & [more1 I6]).
    destruct (performDetection_state d1) as [messages Hstate].
    destruct (logErrors_fields messages d1) as (L1 & L2 & _ & L4 & L5 & L6).
    destruct (logErrors_logged messages d1) as [more2 L7].
    destruct (_performDetection preprocessFeatures d1) as [[result|message] d2];
      cbn [snd] in *; subst d2.
    + rewrite L1, L2, L4, L5, L6, L7, I1, I2, I3, I4, I5, I6, Hinit.
      repeat split. exists (more1 ++ more2). rewrite app_assoc. reflexivity.
    + simpl. rewrite L1, L2, L4, L5, L6, L7, I1, I2, I3, I4, I5, I6, Hinit.
      repeat split.
      exists (more1 ++ more2 ++ [(ERROR, "Error getting detection result:")]).
      rewrite !app_assoc. reflexivity.
  - simpl. rewrite Hinit. repeat split. exists []. rewrite app_nil_r. reflexivity.
Qed.


(** X24. On an initialised detector a second [startDetection] is
    ignored: it returns normally and leaves the detector as the first
    call left it, apart from one logged warning. *)
Theorem startDetection_twice (d : State C) :
  initialized d = true ->
  startDetection (snd (startDetection d))
  = (Normal tt,
     log WARN "Detection already active, ignoring startDetection call"
       (snd (startDetection d))).
Proof.
  intros Hinit. unfold startDetection at 2 3. rewrite Hinit. cbn [negb].
  destruct (isDetectionActive d) eqn:Hact; cbn [snd].
  - unfold startDetection. cbn [initialized isDetectionActive log].
    rewrite Hinit, Hact. reflexivity.
  - unfold startDetection. cbn [initialized isDetectionActive setManager setFlags].
    rewrite Hinit. reflexivity.
Qed.

(** X25. [cleanup] leaves both flags cleared; a repeated [cleanup]
    changes no field of the detector and adds no warning or error; if
    detection was active, the manager is stopped. *)
Theorem cleanup_quiesces (d : State C) :
  isDetectionActive (cleanup d) = false
  /\ isDetectionFinalizing (cleanup d) = false
  /\ cleanup (cleanup d) = cleanup d
  /\ (isDetectionActive d = true ->
      ExtractorsManager.isActive (extractorsManager (cleanup d)) = false).
Proof.
  unfold cleanup.
  destruct (isDetectionActive d) eqn:Hact; destruct (isDetectionFinalizing d) eqn:Hfin;
    cbn [orb setFlags setManager isDetectionActive isDetectionFinalizing extractorsManager];
    rewrite ?Hact, ?Hfin; cbn [orb]; repeat split; try discriminate;
    intros _; unfold ExtractorsManager.stopListening;
    destruct (ExtractorsManager.isActive (extractorsManager d)) eqn:Hon;
    cbn [negb]; [reflexivity|exact Hon|reflexivity|exact Hon].
Qed.

End LifecycleFacts.

Section LifecycleExamples.

Local Existing Instance Samples.noNumericString.


Lemma startDetection_twice_witness :
  AgentDetector.startDetection
    (snd (AgentDetector.startDetection Samples.replayDetector))
  = (Normal tt,
     AgentDetector.log AgentDetector.WARN
       "Detection already active, ignoring startDetection call"
       (snd (AgentDetector.startDetection Samples.replayDetector))).
Proof.
  apply (startDetection_twice Samples.replayDetector).
  reflexivity.
Defined.

End LifecycleExamples.

(** ** Scoring: the verdict and how it moves with the features *)

Section VerdictFacts.

Import FeatureExtractorBase DetectionTypes AgentDetector.

Local Open Scope R_scope.

Context `{Js.StringToNumber}.

(** A weighted name that reads as [undefined] leaves the sum as it is. *)
Lemma fold_addContribution_absent (ws : list (string * R))
    (features : gmap string FeatureValue) (acc : Js.Number) :
  Forall (fun entry => Reference.absent features (fst entry) = true) ws ->
  fold_left (addContribution features) ws acc = acc.
Proof.
  intros Hws. induction Hws as [|[name w] ws Hentry _ IH]; [reflexivity|].
  cbn [fold_left]. unfold addContribution at 2. unfold Js.get.
  unfold Reference.absent in Hentry. cbn [fst] in *.
  destruct (features !! name); [discriminate Hentry|].
  apply negb_true_iff in Hentry. rewrite Hentry. exact IH.
Qed.

(** X27. When every weighted name reads as [undefined] from the vector,
    which holds nothing under it and inherits nothing under it, the
    score is the logistic function of the bias alone, and the verdict is
    the test of that score against one half. *)
Theorem unweighted_vector_scores_bias (mp : ModelParameters)
    (features : gmap string FeatureValue) :
  Forall (fun entry => Reference.absent features (fst entry) = true) (weights mp) ->
  exists result,
    scoreFeatures (Some mp) features = Normal result
    /\ score result = Js.Num (1 / (1 + exp (- bias mp)))
    /\ (isAgent result = true <-> 1 / 2 <= 1 / (1 + exp (- bias mp))).
Proof.
  intros Hnone. eexists. split; [reflexivity|]. cbn [score isAgent].
  unfold linearSumOf. rewrite (fold_addContribution_absent _ _ _ Hnone), sigmoid_Num.
  split; [reflexivity|]. apply atLeastHalf_Num.
Qed.

Lemma notLowered_add (a a' b b' : Js.Number) :
  Reference.notLowered a a' ->
  Reference.notLowered b b' ->
  Reference.notLowered (Js.add a b) (Js.add a' b').
Proof.
  destruct a, a', b, b'; simpl; intros Ha Hb; try tauto; lra.
Qed.

Lemma notLowered_refl (a : Js.Number) : Reference.notLowered a a.
Proof. destruct a; simpl; [lra|exact I]. Qed.

Lemma fold_addContribution_monotone (k : string) (v v' : R)
    (features : gmap string FeatureValue) (ws : list (string * R))
    (acc acc' : Js.Number) :
  Forall (fun entry => fst entry = k -> 0 <= snd entry) ws ->
  v <= v' ->
  Reference.notLowered acc acc' ->
  Reference.notLowered
    (fold_left (addContribution (<[k := FNum v]> features)) ws acc)
    (fold_left (addContribution (<[k := FNum v']> features)) ws acc').
Proof.
  intros Hws Hv. revert acc acc'.
  induction Hws as [|[name w] ws Hentry _ IH]; intros acc acc' Hacc; cbn [fold_left].
  - exact Hacc.
  - apply IH. unfold addContribution, Js.get. cbn [fst snd] in *.
    destruct (decide (name = k)) as [->|Hne].
    + rewrite !lookup_insert_eq. specialize (Hentry eq_refl).
      apply notLowered_add; [exact Hacc|]. simpl. nra.
    + rewrite !lookup_insert_ne by congruence.
      destruct (features !! name) as [fv|].
      * apply notLowered_add; [exact Hacc|apply notLowered_refl].
      * destruct (bool_decide (name ∈ Js.objectPrototypeMembers)).
        -- apply notLowered_add; [exact Hacc|apply notLowered_refl].
        -- exact Hacc.
Qed.

Lemma sigmoid_notLowered (a b : Js.Number) :
  Reference.notLowered a b ->
  Reference.notLowered (MathUtils.sigmoid a) (MathUtils.sigmoid b).
Proof.
  destruct a as [x|], b as [y|]; simpl; try tauto.
  intros Hxy. apply (logistic_monotone x y Hxy).
Qed.

(** X28. Raising a feature whose weights are not negative never lowers
    the score: the two scores are numbers in that order, unless another
    weighted name makes both of them [NaN]. *)
Theorem score_monotone_in_feature (mp : ModelParameters)
    (features : gmap string FeatureValue) (k : string) (v v' : R) :
  Forall (fun entry => fst entry = k -> 0 <= snd entry) (weights mp) ->
  v <= v' ->
  exists result result',
    scoreFeatures (Some mp) (<[k := FNum v]> features) = Normal result
    /\ scoreFeatures (Some mp) (<[k := FNum v']> features) = Normal result'
    /\ Reference.notLowered (score result) (score result').
Proof.
  intros Hws Hv. eexists. eexists. split; [reflexivity|]. split; [reflexivity|].
  cbn [score]. apply sigmoid_notLowered. unfold linearSumOf.
  apply fold_addContribution_monotone; [assumption|assumption|simpl; lra].
Qed.

End VerdictFacts.

Section VerdictExamples.

Import FeatureExtractorBase DetectionTypes AgentDetector.

Local Existing Instance Samples.noNumericString.

Lemma scoreFeatures_linear_sigmoid_witness :
  exists result probability,
    scoreFeatures (Some MODEL_PARAMETERS) {[ "has_scroll_events" := FNum 1 ]}
    = Normal result
    /\ score result = Js.Num probability
    /\ probability
       = (1 / (1 + exp (- Reference.linearScore MODEL_PARAMETERS
                            {[ "has_scroll_events" := FNum 1 ]})))%R
    /\ (0 <= probability <= 1)%R
    /\ (isAgent result = true <-> (1 / 2 <= probability)%R)
    /\ DetectionTypes.features result = {[ "has_scroll_events" := FNum 1 ]}.
Proof.
  apply (scoreFeatures_linear_sigmoid MODEL_PARAMETERS {[ "has_scroll_events" := FNum 1 ]}).
  repeat (apply List.Forall_cons; [reflexivity|]). apply List.Forall_nil.
Defined.

Lemma unweighted_vector_scores_bias_witness :
  exists result,
    scoreFeatures (Some MODEL_PARAMETERS) {[ "platform" := FStr "Linux x86_64" ]}
    = Normal result
    /\ score result = Js.Num (1 / (1 + exp (- bias MODEL_PARAMETERS)))
    /\ (isAgent result = true
        <-> (1 / 2 <= 1 / (1 + exp (- bias MODEL_PARAMETERS)))%R).
Proof.
  apply (unweighted_vector_scores_bias MODEL_PARAMETERS
           {[ "platform" := FStr "Linux x86_64" ]}).
  repeat (apply List.Forall_cons; [reflexivity|]). apply List.Forall_nil.
Defined.

Lemma score_monotone_in_feature_witness :
  exists result result',
    scoreFeatures (Some MODEL_PARAMETERS) (<["has_scroll_events" := FNum 0]> ∅)
    = Normal result
    /\ scoreFeatures (Some MODEL_PARAMETERS) (<["has_scroll_events" := FNum 1]> ∅)
       = Normal result'
    /\ Reference.notLowered (score result) (score result').
Proof.
  apply (score_monotone_in_feature MODEL_PARAMETERS ∅ "has_scroll_events" 0%R 1%R).
  - simpl.
    repeat (apply List.Forall_cons;
            [simpl; intros Heq; try discriminate Heq; lra|]).
    apply List.Forall_nil.
  - lra.
Defined.

End VerdictExamples.

(** ** Replay: what [start] dispatches *)

Section ReplayFacts.

Import Events ReplayEventAdapter.

Context {W : Type}.

Lemma get_set_eq (evt : EventType) (v : list (Handler W)) (listeners : Listeners W) :
  get evt (set evt v listeners) = Some v.
Proof.
  induction listeners as [|[k v'] rest IH]; simpl.
  - replace (EventType_eqb evt evt) with true; [reflexivity|].
    symmetry. apply EventType_eqb_eq. reflexivity.
  - destruct (EventType_eqb k evt) eqn:Hk; simpl; rewrite Hk; [reflexivity|exact IH].
Qed.

Lemma get_set_ne (evt evt' : EventType) (v : list (Handler W)) (listeners : Listeners W) :
  evt' <> evt ->
  get evt' (set evt v listeners) = get evt' listeners.
Proof.
  intros Hne. induction listeners as [|[k v'] rest IH]; simpl.
  - destruct (EventType_eqb evt evt') eqn:Hk; [|reflexivity].
    apply EventType_eqb_eq in Hk. congruence.
  - destruct (EventType_eqb k evt) eqn:Hk; simpl.
    + apply EventType_eqb_eq in Hk. subst k.
      destruct (EventType_eqb evt evt') eqn:Hk'; [|reflexivity].
      apply EventType_eqb_eq in Hk'. congruence.
    + destruct (EventType_eqb k evt'); [reflexivity|exact IH].
Qed.

Lemma payloadType_withTimestamp (t : Z) (p : Payload) :
  payloadType (withTimestamp t p) = payloadType p.
Proof. destruct p; reflexivity. Qed.

Lemma payloadTimestamp_withTimestamp (t : Z) (p : Payload) :
  payloadTimestamp (withTimestamp t p) = t.
Proof. destruct p; reflexivity. Qed.

Lemma fold_deliver (payload : Payload) (hs : list (Handler W)) (pr : Progress W) :
  dispatched (fold_left (deliver payload) hs pr)
  = dispatched pr ++ map (fun h => (h_id h, payload)) hs.
Proof.
  revert pr. induction hs as [|h hs IH]; intros pr; simpl.
  - rewrite app_nil_r. reflexivity.
  - rewrite IH. simpl. rewrite <- app_assoc. reflexivity.
Qed.

Lemma fold_replayOne (listeners : Listeners W) (events : list ReplayEvent)
    (pr : Progress W) :
  dispatched (fold_left (replayOne listeners) events pr)
  = dispatched pr ++ flat_map (Reference.expectedDispatch listeners) events.
Proof.
  revert pr. induction events as [|ev events IH]; intros pr; simpl.
  - rewrite app_nil_r. reflexivity.
  - rewrite IH. unfold replayOne. rewrite fold_deliver.
    rewrite <- app_assoc. reflexivity.
Qed.

Lemma start_dispatched (events : list ReplayEvent) (listeners : Listeners W) (w : W) :
  dispatched (start events listeners w)
  = flat_map (Reference.expectedDispatch listeners) events.
Proof.
  unfold start. destruct events as [|ev events]; [reflexivity|].
  cbn [length Nat.eqb]. rewrite fold_replayOne. reflexivity.
Qed.

(** X29. A replay invokes, event by event in recorded order, the
    handlers registered for the event's type in registration order;
    every payload handed over carries the type and the timestamp of a
    replayed event, whatever timestamp the recorded data held. *)
Theorem replay_dispatch_order (events : list ReplayEvent) (listeners : Listeners W)
    (w : W) :
  dispatched (start events listeners w)
  = flat_map (Reference.expectedDispatch listeners) events
  /\ Forall (Reference.stampedBy events) (dispatched (start events listeners w)).
Proof.
  split; [apply start_dispatched|].
  rewrite start_dispatched. apply List.Forall_forall. intros [id p] Hin.
  apply in_flat_map in Hin. destruct Hin as (ev & Hev & Hin).
  unfold Reference.expectedDispatch in Hin. apply in_map_iff in Hin.
  destruct Hin as (h & Heq & _). injection Heq as _ <-.
  exists ev. simpl. split; [exact Hev|]. split.
  - apply payloadType_withTimestamp.
  - apply payloadTimestamp_withTimestamp.
Qed.

(** X30. After [off(evt, handler)] a replay never invokes that handler
    for an event of type [evt], however often it had been registered;
    the handlers of the other types are the ones registered before. *)
Theorem replay_off_silences (evt : EventType) (handler : Handler W)
    (events : list ReplayEvent) (listeners : Listeners W) (w : W) :
  Forall (Reference.notFor evt handler)
    (dispatched (start events (off evt handler listeners) w))
  /\ forall evt', evt' <> evt ->
       get evt' (off evt handler listeners) = get evt' listeners.
Proof.
  split.
  - rewrite start_dispatched. apply List.Forall_forall. intros [id p] Hin.
    apply in_flat_map in Hin. destruct Hin as (ev & _ & Hin).
    unfold Reference.expectedDispatch in Hin. apply in_map_iff in Hin.
    destruct Hin as (h & Heq & Hh). injection Heq as <- <-.
    unfold Reference.notFor. simpl. intros Hid Hty.
    rewrite payloadType_withTimestamp in Hty. rewrite Hty in Hh.
    unfold off in Hh. rewrite get_set_eq in Hh. simpl in Hh.
    apply list_elem_of_In in Hh. apply list_elem_of_filter in Hh.
    destruct Hh as [Hne _]. contradiction.
  - intros evt' Hne. unfold off. apply get_set_ne. exact Hne.
Qed.

End ReplayFacts.
